(** * A shallow embedding of the crawl controller of the scraper

    Source files: [config.py] (class [Config]), [scraper.py] (class
    [WebScraper]), [parser.py] (class [HTMLParser], used through its
    interface) and [main.py] (the command line front end).

    Python values that flow through the configuration dictionary are
    modelled by [pyval]; a Python exception is a value of [exn]; pure
    code that may raise returns [result]; code that reads or writes the
    scraper object, the network or the clock runs in the monad [M].

    The libraries are parameters: [requests], [time] and [urllib.parse]
    are the fields of [Runtime], and [BeautifulSoup] stays behind the
    interface [Parser] of [HTMLParser].  Each of their calls returns or
    raises.  Logging and printing are left out, and so are
    [KeyboardInterrupt] and [SystemExit], which no [except Exception]
    catches.  The [while] loop of [crawl] runs on fuel, and
    [crawl_terminates] shows that enough fuel always exists.

    [HTMLParser] itself ([parser.py]) is modelled over the interface
    [Soup] of what [BeautifulSoup], [urljoin] and [urlparse] give, and is
    a [Parser] as [html_parser]; [DataStorage] ([storage.py]) is modelled
    over the interface [Disk] of the files, the clock and the writers of
    [json] and [csv]. *)

From Stdlib Require Import ZArith Floats Lia Ascii String.
From stdpp Require Import base option list sorting gmap strings.

Local Open Scope string_scope.
Local Open Scope Z_scope.

(** ** Python values *)

#[local] Set Warnings "-register-all,-clear-no-such-hyp".

Inductive pyval : Type :=
| VNone
| VBool (b : bool)
| VInt (z : Z)
| VFloat (f : float)
| VStr (s : string)
| VList (l : list pyval)
| VDict (d : list (string * pyval)).

(** Truth value testing ([if x:], [x or y], [not x]). *)
Definition truthy (v : pyval) : bool :=
  match v with
  | VNone => false
  | VBool b => b
  | VInt z => negb (z =? 0)
  | VFloat f => negb (PrimFloat.eqb f 0%float)
  | VStr s => negb (String.eqb s "")
  | VList l => match l with [] => false | _ => true end
  | VDict d => match d with [] => false | _ => true end
  end.

(** [a or b] *)
Definition py_or (a b : pyval) : pyval := if truthy a then a else b.

(** Exceptions, all of them subclasses of [Exception]: [Timeout],
    [ConnectionError] and [RequestException] (any other exception of
    [requests]) are the classes of [requests.exceptions] that
    [fetch_page] names; [OtherException] stands for every class that is
    not listed. *)
Inductive exn : Type :=
| Timeout
| ConnectionError
| RequestException
| TypeError
| KeyError
| IndexError
| OtherException (msg : string).

Inductive result (A : Type) : Type :=
| Ok (a : A)
| Err (e : exn).
Arguments Ok {A} a.
Arguments Err {A} e.

Definition is_ok {A} (r : result A) : bool :=
  match r with
  | Ok _ => true
  | Err _ => false
  end.

(** Exact conversion of a small non-negative integer to a float. *)
Definition float_of_Z (z : Z) : float := PrimFloat.of_uint63 (Uint63.of_Z z).

(** [n < v] for an integer [n] (a [len(...)]) and a dictionary value [v]:
    numbers compare by value ([bool] is a subclass of [int]), anything
    else raises [TypeError]. *)
Definition py_int_lt (n : Z) (v : pyval) : result bool :=
  match v with
  | VInt z => Ok (n <? z)
  | VBool b => Ok (n <? (if b then 1 else 0))
  | VFloat f => Ok (PrimFloat.ltb (float_of_Z n) f)
  | _ => Err TypeError
  end.

(** [v > 0] *)
Definition py_gt0 (v : pyval) : result bool :=
  match v with
  | VInt z => Ok (0 <? z)
  | VBool b => Ok b
  | VFloat f => Ok (PrimFloat.ltb 0%float f)
  | _ => Err TypeError
  end.

(** [a == b] on numbers, as used to compare a stored setting with a
    literal. *)
Definition py_num_eq (a b : pyval) : bool :=
  match a, b with
  | VInt x, VInt y => x =? y
  | VInt x, VFloat g => PrimFloat.eqb (float_of_Z x) g
  | VFloat f, VInt y => PrimFloat.eqb f (float_of_Z y)
  | VFloat f, VFloat g => PrimFloat.eqb f g
  | _, _ => false
  end.

(** [needle in hay] on strings: substring containment. *)
Fixpoint str_contains (needle hay : string) : bool :=
  String.prefix needle hay ||
  match hay with
  | EmptyString => false
  | String _ hay' => str_contains needle hay'
  end.

(** Iteration over a value ([for x in v]): the elements of a list, the
    characters of a string, the keys of a dictionary.  A string is held
    as its bytes, and [chars] gives them one by one: they are the
    characters of the string when it is ASCII, the case in which the
    properties below speak of the characters of a string. *)
Fixpoint chars (s : string) : list pyval :=
  match s with
  | EmptyString => []
  | String c s' => VStr (String c EmptyString) :: chars s'
  end.

Definition py_iter (v : pyval) : result (list pyval) :=
  match v with
  | VList l => Ok l
  | VStr s => Ok (chars s)
  | VDict d => Ok (map (fun kv => VStr (fst kv)) d)
  | _ => Err TypeError
  end.

(** [any(allowed in domain for allowed in l)]: left to right, stopping at
    the first hit; [x in domain] raises [TypeError] unless [x] is a
    string. *)
Fixpoint any_in (domain : string) (l : list pyval) : result bool :=
  match l with
  | [] => Ok false
  | VStr allowed :: l' =>
      if str_contains allowed domain then Ok true else any_in domain l'
  | _ :: _ => Err TypeError
  end.

(** ** The world outside the program

    [requests], [time] and [urllib.parse] are libraries: the embedding
    takes what they do as the fields of [Runtime].  A [World] is the state
    of everything outside the process (network and clock). *)

(** What [session.get] does: a response with a status code and a body,
    or an exception. *)
Inductive get_result : Type :=
| Response (status_code : Z) (text : string)
| Fails (e : exn).

Class Runtime : Type := {
  World : Type;
  (** [session.get(url, timeout=t, allow_redirects=True)] on a session
      with the given headers *)
  session_get : gmap string pyval → string → pyval → World → get_result * World;
  (** [time.sleep(d)], which raises for a value it cannot wait for *)
  time_sleep : pyval → World → result World;
  (** [urlparse(url).netloc]; [urlparse] raises on some malformed URLs *)
  netloc : string → result string;
  (** [d.update(v)] of the built-in [dict] for a value [v] that is not a
      dictionary: the pairs of an iterable of pairs, or an exception *)
  update_from_iterable : pyval → gmap string pyval → result (gmap string pyval);
}.

(** ** config.py *)

Module Config.

(** [Config.DEFAULT_CONFIG] *)
Definition DEFAULT_CONFIG : gmap string pyval :=
  list_to_map
    [ ("target_url", VStr "https://example.com");
      ("max_pages", VInt 10);
      ("delay_between_requests", VInt 2);
      ("timeout", VInt 30);
      ("follow_links", VBool true);
      ("max_depth", VInt 3);
      ("allowed_domains", VList []);
      ("selectors",
        VDict [("title", VStr "h1"); ("content", VStr "p"); ("links", VStr "a")]);
      ("output_format", VStr "json");
      ("output_file", VStr "scraped_data");
      ("user_agent",
        VStr "Mozilla/5.0 (Windows NT 10.0; Win64; x64) AppleWebKit/537.36");
      ("headers", VDict []);
      ("export_fields",
        VList [VStr "url"; VStr "title"; VStr "content"; VStr "timestamp"]) ].

(** [Config.update]: [self.config.update(updates)]; the keys of
    [updates] win. *)
Definition update (updates c : gmap string pyval) : gmap string pyval :=
  updates ∪ c.

(** What loading a path does: [fs path = Some d] when the file exists
    and [self.config.update(json.load(f))] sets the entries [d] (all the
    entries of a JSON object; none when [open] or [json.load] fails),
    [None] when there is no such file. *)
Definition FileSystem : Type := string → option (gmap string pyval).

(** [Config.load_from_file]; an exception in it is caught and reported,
    and the configuration stays as it is then. *)
Definition load_from_file (fs : FileSystem) (config_file : string)
    (c : gmap string pyval) : gmap string pyval :=
  match fs config_file with
  | Some user_config => update user_config c
  | None => c
  end.

(** [Config.__init__]: the defaults, updated from the file when a path
    is given, is not the empty string and exists. *)
Definition init (fs : FileSystem) (config_file : option string)
    : gmap string pyval :=
  match config_file with
  | Some path =>
      if negb (String.eqb path "") && bool_decide (is_Some (fs path))
      then load_from_file fs path DEFAULT_CONFIG
      else DEFAULT_CONFIG
  | None => DEFAULT_CONFIG
  end.

(** [Config.get] *)
Definition get (key : string) (default : pyval) (c : gmap string pyval)
    : pyval :=
  match c !! key with
  | Some v => v
  | None => default
  end.

(** [Config.set] *)
Definition set (key : string) (value : pyval) (c : gmap string pyval)
    : gmap string pyval :=
  <[key := value]> c.

(** [headers.update(d)]: the entries of a dictionary value [d] are set
    from first to last; any other value is left to the built-in. *)
Definition dict_update `{Runtime} (d : pyval) (headers : gmap string pyval)
    : result (gmap string pyval) :=
  match d with
  | VDict kvs => Ok (fold_left (fun h kv => <[fst kv := snd kv]> h) kvs headers)
  | _ => update_from_iterable d headers
  end.

(** [Config.get_headers]: [self.config['user_agent']] raises
    [KeyError] when the key is absent. *)
Definition get_headers `{Runtime} (c : gmap string pyval)
    : result (gmap string pyval) :=
  match c !! "user_agent" with
  | None => Err KeyError
  | Some ua =>
      dict_update (get "headers" (VDict []) c)
        (list_to_map
           [ ("User-Agent", ua);
             ("Accept",
               VStr "text/html,application/xhtml+xml,application/xml;q=0.9,*/*;q=0.8");
             ("Accept-Language", VStr "en-US,en;q=0.5");
             ("Accept-Encoding", VStr "gzip, deflate");
             ("Connection", VStr "keep-alive") ])
  end.

End Config.

(** The interface of [parser.HTMLParser] the scraper uses.  [parse]
    reads [self.selectors], the page, its URL and the clock
    ([datetime.now()]); [extract_links] reads the page and its URL.  Both
    go through [BeautifulSoup] and [urljoin], whose exceptions they do not
    catch. *)
Class Parser `{Runtime} : Type := {
  PageData : Type;
  parse : pyval → string → string → World → result PageData;
  extract_links : string → string → result (list string);
}.

(** [HTMLParser.__init__]: the parser object keeps
    [config.get('selectors', {})]. *)
Definition HTMLParser (c : gmap string pyval) : pyval :=
  Config.get "selectors" (VDict []) c.

(** ** scraper.py *)

(** Calls the scraper makes, recorded in the order they happen (ghost
    state: the program does not read it). *)
Inductive Event : Type :=
| EvDomainFilter (url : string)
| EvFetch (url : string)
| EvParse (url : string)
| EvExtractLinks (url : string)
| EvSleep (delay : pyval).

(** The attributes of a [WebScraper] object. *)
Record WebScraper : Type := {
  config : gmap string pyval;
  session : gmap string pyval;
  visited_urls : gset string;
  urls_to_visit : list string;
}.

Section Scraper.
Context `{P : Parser}.

Record Machine : Type := {
  self : WebScraper;
  world : World;
  trace : list Event;
}.

Inductive outcome (A : Type) : Type :=
| Ret (a : A) (m : Machine)
| Raise (e : exn) (m : Machine)
| OutOfFuel.
Arguments Ret {A} a m.
Arguments Raise {A} e m.
Arguments OutOfFuel {A}.

Definition M (A : Type) : Type := Machine → outcome A.

Definition ret {A} (a : A) : M A := fun m => Ret a m.

Definition bind {A B} (c : M A) (k : A → M B) : M B :=
  fun m =>
    match c m with
    | Ret a m' => k a m'
    | Raise e m' => Raise e m'
    | OutOfFuel => OutOfFuel
    end.

Definition lift {A} (r : result A) : M A :=
  fun m => match r with Ok a => Ret a m | Err e => Raise e m end.

(** [try: c  except Exception as e: h e] *)
Definition try_except {A} (c : M A) (h : exn → M A) : M A :=
  fun m =>
    match c m with
    | Raise e m' => h e m'
    | o => o
    end.

(** Assignments to the attributes of [self], the world and the log. *)
Definition with_visited (v : gset string) (m : Machine) : Machine :=
  {| self := {| config := config (self m); session := session (self m);
                visited_urls := v; urls_to_visit := urls_to_visit (self m) |};
     world := world m; trace := trace m |}.

Definition with_queue (q : list string) (m : Machine) : Machine :=
  {| self := {| config := config (self m); session := session (self m);
                visited_urls := visited_urls (self m); urls_to_visit := q |};
     world := world m; trace := trace m |}.

Definition with_world (w : World) (m : Machine) : Machine :=
  {| self := self m; world := w; trace := trace m |}.

Definition with_events (evs : list Event) (m : Machine) : Machine :=
  {| self := self m; world := world m; trace := (trace m ++ evs)%list |}.

Definition get_self : M WebScraper := fun m => Ret (self m) m.
Definition set_visited_urls (v : gset string) : M unit :=
  fun m => Ret tt (with_visited v m).
Definition set_urls_to_visit (q : list string) : M unit :=
  fun m => Ret tt (with_queue q m).
Definition emit (e : Event) : M unit :=
  fun m => Ret tt (with_events [e] m).
Definition get_world : M World := fun m => Ret (world m) m.
Definition set_world (w : World) : M unit :=
  fun m => Ret tt (with_world w m).
Definition raise {A} (e : exn) : M A := fun m => Raise e m.

Notation "x <- c ;; k" := (bind c (fun x => k))
  (at level 100, c at next level, right associativity).
Notation "c ;;; k" := (bind c (fun _ => k))
  (at level 100, right associativity).

(** [WebScraper.__init__]: the session headers come from
    [config.get_headers()]; nothing is visited, nothing is queued. *)
Definition WebScraper_init (c : gmap string pyval) : result WebScraper :=
  match Config.get_headers c with
  | Ok headers =>
      Ok {| config := c; session := headers;
            visited_urls := ∅; urls_to_visit := [] |}
  | Err e => Err e
  end.

(** The call [self.session.get(url, timeout=..., allow_redirects=True)]. *)
Definition http_get (url : string) (timeout : pyval) : M (Z * string) :=
  emit (EvFetch url) ;;;
  s <- get_self ;;
  w <- get_world ;;
  let '(r, w') := session_get (session s) url timeout w in
  set_world w' ;;;
  match r with
  | Response status_code text => ret (status_code, text)
  | Fails e => raise e
  end.

(** [WebScraper.fetch_page] *)
Definition fetch_page (url : string) : M (option string) :=
  try_except
    (s <- get_self ;;
     response <- http_get url (Config.get "timeout" (VInt 30) (config s)) ;;
     let '(status_code, text) := response in
     if status_code =? 200 then ret (Some text)
     else if status_code =? 404 then ret None
     else if status_code =? 403 then ret None
     else ret None)
    (fun e =>
       match e with
       | Timeout => ret None
       | ConnectionError => ret None
       | RequestException => ret None
       | _ => ret None
       end).

(** [if html:] for an [Optional[str]]: [None] and the empty string are
    false. *)
Definition html_truthy (html : option string) : bool :=
  match html with
  | Some text => negb (String.eqb text "")
  | None => false
  end.

(** [WebScraper._is_allowed_domain] *)
Definition _is_allowed_domain (url : string) : M bool :=
  emit (EvDomainFilter url) ;;;
  s <- get_self ;;
  let allowed_domains := Config.get "allowed_domains" (VList []) (config s) in
  if negb (truthy allowed_domains) then ret true
  else
    domain <- lift (netloc url) ;;
    l <- lift (py_iter allowed_domains) ;;
    lift (any_in domain l).

(** [WebScraper._add_links_to_queue] *)
Fixpoint _add_links_to_queue (links : list string) : M unit :=
  match links with
  | [] => ret tt
  | link :: links' =>
      s <- get_self ;;
      (if bool_decide (link ∉ visited_urls s)
          && bool_decide (link ∉ urls_to_visit s)
       then set_urls_to_visit (urls_to_visit s ++ [link])%list
       else ret tt) ;;;
      _add_links_to_queue links'
  end.

(** [parser.parse(html, url)] and [parser.extract_links(html, url)] *)
Definition parser_parse (parser : pyval) (html url : string) : M PageData :=
  emit (EvParse url) ;;;
  w <- get_world ;;
  lift (parse parser html url w).

Definition parser_extract_links (html url : string) : M (list string) :=
  emit (EvExtractLinks url) ;;;
  lift (extract_links html url).

(** [time.sleep(delay)] *)
Definition sleep (delay : pyval) : M unit :=
  emit (EvSleep delay) ;;;
  w <- get_world ;;
  w' <- lift (time_sleep delay w) ;;
  set_world w'.

(** The loop test of [crawl]:
    [self.urls_to_visit and len(self.visited_urls) < max_pages]. *)
Definition crawl_cond (max_pages : pyval) : M bool :=
  s <- get_self ;;
  match urls_to_visit s with
  | [] => ret false
  | _ :: _ => lift (py_int_lt (Z.of_nat (size (visited_urls s))) max_pages)
  end.

(** The rate limiting at the end of an iteration of [crawl]. *)
Definition rate_limit : M unit :=
  s <- get_self ;;
  let delay := Config.get "delay_between_requests" (VInt 1) (config s) in
  positive <- lift (py_gt0 delay) ;;
  if positive && match urls_to_visit s with [] => false | _ :: _ => true end
  then sleep delay
  else ret tt.

(** One iteration of the loop of [crawl]; [continue] ends the iteration
    early.  [results] is the list the loop appends to. *)
Definition crawl_body (parser : pyval) (results : list PageData)
    : M (list PageData) :=
  s <- get_self ;;
  match urls_to_visit s with
  | [] => raise IndexError
  | current_url :: rest =>
      set_urls_to_visit rest ;;;
      if bool_decide (current_url ∈ visited_urls s) then ret results
      else
        allowed <- _is_allowed_domain current_url ;;
        if negb allowed then ret results
        else
          html <- fetch_page current_url ;;
          s1 <- get_self ;;
          set_visited_urls ({[current_url]} ∪ visited_urls s1) ;;;
          results' <-
            (if html_truthy html then
               let text := default "" html in
               page_data <- parser_parse parser text current_url ;;
               s2 <- get_self ;;
               (if truthy (Config.get "follow_links" (VBool false) (config s2))
                then
                  new_links <- parser_extract_links text current_url ;;
                  _add_links_to_queue new_links
                else ret tt) ;;;
               ret (results ++ [page_data])%list
             else ret results) ;;
          rate_limit ;;;
          ret results'
  end.

(** The [while] loop of [crawl]. *)
Fixpoint crawl_loop (fuel : nat) (parser : pyval) (max_pages : pyval)
    (results : list PageData) : M (list PageData) :=
  match fuel with
  | O => fun _ => OutOfFuel
  | S fuel' =>
      continue <- crawl_cond max_pages ;;
      if continue then
        results' <- crawl_body parser results ;;
        crawl_loop fuel' parser max_pages results'
      else ret results
  end.

(** [WebScraper.crawl] *)
Definition crawl (fuel : nat) (start_url : string) (max_pages : pyval)
    : M (list PageData) :=
  s <- get_self ;;
  let parser := HTMLParser (config s) in
  set_urls_to_visit [start_url] ;;;
  let max_pages := py_or max_pages (Config.get "max_pages" (VInt 10) (config s)) in
  crawl_loop fuel parser max_pages [].

(** [WebScraper.scrape_single_page] *)
Definition scrape_single_page (url : string) : M (option PageData) :=
  s <- get_self ;;
  let parser := HTMLParser (config s) in
  html <- fetch_page url ;;
  if html_truthy html then
    page_data <- parser_parse parser (default "" html) url ;;
    ret (Some page_data)
  else ret None.

End Scraper.

Arguments Ret {H A} a m.
Arguments Raise {H A} e m.
Arguments OutOfFuel {H A}.

Notation "x <- c ;; k" := (bind c (fun x => k))
  (at level 100, c at next level, right associativity).
Notation "c ;;; k" := (bind c (fun _ => k))
  (at level 100, right associativity).

(** ** main.py *)

Module Main.

(** The choices of [-o/--output]. *)
Inductive OutputFormat : Type := json | csv | both.

Definition format_name (f : OutputFormat) : string :=
  match f with json => "json" | csv => "csv" | both => "both" end.

(** What the user typed: each option is absent or has a value of the
    type [argparse] converts it to ([type=int], [type=float], a choice, a
    string); [store_true] flags are booleans. *)
Record CommandLine : Type := {
  cl_url : option string;
  cl_crawl : bool;
  cl_max_pages : option Z;
  cl_delay : option float;
  cl_output : option OutputFormat;
  cl_config : option string;
  cl_generate_config : bool;
  cl_selector : option string;
  cl_timeout : option Z;
  cl_allowed_domains : option string;
}.

(** The namespace [parse_arguments] returns. *)
Record Namespace : Type := {
  args_url : pyval;
  args_crawl : bool;
  args_max_pages : pyval;
  args_delay : pyval;
  args_output : pyval;
  args_config : pyval;
  args_generate_config : bool;
  args_selector : pyval;
  args_timeout : pyval;
  args_allowed_domains : pyval;
}.

Definition opt_str (o : option string) : pyval :=
  match o with Some v => VStr v | None => VNone end.

(** [parse_arguments]: an absent option takes its [default=] (which
    [argparse] stores as written when it is not a string), or [None]. *)
Definition parse_arguments (cl : CommandLine) : Namespace :=
  {| args_url := opt_str (cl_url cl);
     args_crawl := cl_crawl cl;
     args_max_pages := match cl_max_pages cl with Some n => VInt n | None => VInt 10 end;
     args_delay := match cl_delay cl with Some d => VFloat d | None => VInt 2 end;
     args_output :=
       match cl_output cl with Some f => VStr (format_name f) | None => VStr "json" end;
     args_config := opt_str (cl_config cl);
     args_generate_config := cl_generate_config cl;
     args_selector := opt_str (cl_selector cl);
     args_timeout := match cl_timeout cl with Some n => VInt n | None => VInt 30 end;
     args_allowed_domains := opt_str (cl_allowed_domains cl) |}.

(** [s.split(',')] *)
Fixpoint split_commas (acc s : string) : list string :=
  match s with
  | EmptyString => [acc]
  | String c s' =>
      if (nat_of_ascii c =? 44)%nat then acc :: split_commas "" s'
      else split_commas (acc ++ String c EmptyString)%string s'
  end.

(** [d.strip()] for the ASCII white space characters. *)
Definition is_space (c : ascii) : bool :=
  let n := nat_of_ascii c in
  (n =? 32)%nat || ((9 <=? n)%nat && (n <=? 13)%nat)
  || ((28 <=? n)%nat && (n <=? 31)%nat).

Fixpoint lstrip (s : string) : string :=
  match s with
  | String c s' => if is_space c then lstrip s' else s
  | EmptyString => EmptyString
  end.

Fixpoint rstrip (s : string) : string :=
  match s with
  | String c s' =>
      match rstrip s' with
      | EmptyString => if is_space c then EmptyString else String c EmptyString
      | r => String c r
      end
  | EmptyString => EmptyString
  end.

Definition strip (s : string) : string := rstrip (lstrip s).

(** [d[key] = value] on a dictionary value: the value of an existing
    key is replaced where it is, a new key goes last. *)
Fixpoint dict_set (key : string) (value : pyval) (d : list (string * pyval))
    : list (string * pyval) :=
  match d with
  | [] => [(key, value)]
  | (k, v) :: d' =>
      if String.eqb k key then (k, value) :: d' else (k, v) :: dict_set key value d'
  end.

(** [config.config['selectors']['custom'] = selector] *)
Definition set_custom_selector (selector : pyval) (c : gmap string pyval)
    : result (gmap string pyval) :=
  match c !! "selectors" with
  | None => Err KeyError
  | Some (VDict d) => Ok (<["selectors" := VDict (dict_set "custom" selector d)]> c)
  | Some _ => Err TypeError
  end.

Definition string_of (v : pyval) : string :=
  match v with VStr s => s | _ => "" end.

(** The configuration [main] works with: [Config(args.config)] or
    [Config()], then the overrides from the command line, each under its
    [if args.x:] test ([main.py], lines 157 to 183). *)
Definition configure (fs : Config.FileSystem) (args : Namespace)
    : result (gmap string pyval) :=
  let c :=
    if truthy (args_config args)
    then Config.init fs (Some (string_of (args_config args)))
    else Config.init fs None in
  let c := if truthy (args_url args) then Config.set "target_url" (args_url args) c else c in
  let c :=
    if truthy (args_max_pages args)
    then Config.set "max_pages" (args_max_pages args) c else c in
  let c :=
    if truthy (args_delay args)
    then Config.set "delay_between_requests" (args_delay args) c else c in
  let c :=
    if truthy (args_output args)
    then Config.set "output_format" (args_output args) c else c in
  let c :=
    if truthy (args_timeout args)
    then Config.set "timeout" (args_timeout args) c else c in
  let c :=
    if truthy (args_allowed_domains args)
    then
      let domains :=
        map (fun d => VStr (strip d))
          (split_commas "" (string_of (args_allowed_domains args))) in
      Config.set "allowed_domains" (VList domains) c
    else c in
  let c := if args_crawl args then Config.set "follow_links" (VBool true) c else c in
  if truthy (args_selector args)
  then set_custom_selector (args_selector args) c
  else Ok c.

(** What [main] does before it scrapes: [--generate-config] writes the
    example file and returns; without a URL and without a configuration
    file the program exits with status 1. *)
Inductive Action : Type := GenerateConfig | ExitWithError | Scrape.

Definition action (args : Namespace) : Action :=
  if args_generate_config args then GenerateConfig
  else if negb (truthy (args_url args)) && negb (truthy (args_config args))
       then ExitWithError
       else Scrape.

(** The configuration of a successful [configure]. *)
Definition configured (fs : Config.FileSystem) (args : Namespace)
    : gmap string pyval :=
  match configure fs args with
  | Ok c => c
  | Err _ => ∅
  end.

(** The command line [python main.py --config path]. *)
Definition only_config (path : string) : CommandLine :=
  {| cl_url := None; cl_crawl := false; cl_max_pages := None; cl_delay := None;
     cl_output := None; cl_config := Some path; cl_generate_config := false;
     cl_selector := None; cl_timeout := None; cl_allowed_domains := None |}.

(** A file system with one configuration file that asks for 50 pages,
    no delay, a timeout of 5 seconds and CSV output. *)
Definition fs_example : Config.FileSystem :=
  fun path =>
    if String.eqb path "my_config.json"
    then Some (list_to_map
                 [ ("max_pages", VInt 50);
                   ("delay_between_requests", VFloat 0%float);
                   ("timeout", VInt 5);
                   ("output_format", VStr "csv");
                   ("target_url", VStr "https://site.test/") ])
    else None.

End Main.

(** ** Vocabulary for the statements *)

Section Vocabulary.
Context `{P : Parser}.

(** The machine a run leaves behind, whether it returned or raised. *)
Definition final {A} (o : outcome A) : option Machine :=
  match o with
  | Ret _ m => Some m
  | Raise _ m => Some m
  | OutOfFuel => None
  end.

(** Whether a run ended, and what it returned. *)
Definition ended {A} (o : outcome A) : bool :=
  match o with
  | OutOfFuel => false
  | _ => true
  end.

Definition returned {A} (o : outcome A) : option A :=
  match o with
  | Ret a _ => Some a
  | _ => None
  end.


(** A scraper object put in a world, with an empty log. *)
Definition boot (s : WebScraper) (w : World) : Machine :=
  {| self := s; world := w; trace := [] |}.

(** The URLs of the fetch attempts of a log, in order. *)
Fixpoint fetched (t : list Event) : list string :=
  match t with
  | [] => []
  | EvFetch url :: t' => url :: fetched t'
  | _ :: t' => fetched t'
  end.

(** The waits of a log, in order. *)
Fixpoint sleeps (t : list Event) : list pyval :=
  match t with
  | [] => []
  | EvSleep d :: t' => d :: sleeps t'
  | _ :: t' => sleeps t'
  end.

(** The URLs the domain filter was asked about. *)
Fixpoint filtered (t : list Event) : list string :=
  match t with
  | [] => []
  | EvDomainFilter url :: t' => url :: filtered t'
  | _ :: t' => filtered t'
  end.

(** What [_is_allowed_domain] computes from the configuration. *)
Definition domain_allowed (c : gmap string pyval) (url : string) : result bool :=
  let allowed_domains := Config.get "allowed_domains" (VList []) c in
  if negb (truthy allowed_domains) then Ok true
  else
    match netloc url with
    | Ok domain =>
        match py_iter allowed_domains with
        | Ok l => any_in domain l
        | Err e => Err e
        end
    | Err e => Err e
    end.

(** The queue [_add_links_to_queue] leaves. *)
Fixpoint add_links (visited : gset string) (queue links : list string)
    : list string :=
  match links with
  | [] => queue
  | link :: links' =>
      add_links visited
        (if bool_decide (link ∉ visited) && bool_decide (link ∉ queue)
         then (queue ++ [link])%list else queue)
        links'
  end.

(** What [fetch_page] returns for each result of [session.get]. *)
Definition page_of (r : get_result) : option string :=
  match r with
  | Response status_code text => if status_code =? 200 then Some text else None
  | Fails _ => None
  end.

(** The configured delay and budget as [crawl] reads them. *)
Definition configured_delay (c : gmap string pyval) : pyval :=
  Config.get "delay_between_requests" (VInt 1) c.

Definition effective_budget (max_pages : pyval) (c : gmap string pyval) : pyval :=
  py_or max_pages (Config.get "max_pages" (VInt 10) c).

(** A configuration whose [allowed_domains] is a list of strings and
    whose delay is a number: the types of [Config.DEFAULT_CONFIG]. *)
Definition well_typed (c : gmap string pyval) : Prop :=
  (∃ l : list string,
      Config.get "allowed_domains" (VList []) c = VList (VStr <$> l)) ∧
  (∃ b : bool, py_gt0 (configured_delay c) = Ok b).

(** The steps of an iteration of [crawl] that reaches the fetch, as
    functions of the machine [m] left by the [pop(0)]: the filter is
    asked, the request is made, the URL is marked visited ... *)
Definition attempt (u : string) (m : Machine) : get_result * Machine :=
  let rw := session_get (session (self m)) u
              (Config.get "timeout" (VInt 30) (config (self m))) (world m) in
  (fst rw,
   with_visited ({[u]} ∪ visited_urls (self m))
     (with_world (snd rw) (with_events [EvDomainFilter u; EvFetch u] m))).

(** ... and a page that was received is parsed, recorded and, when
    [follow_links] is set, searched for links to queue: the block under
    [if html:]. *)
Definition handle_page (parser : pyval) (u : string) (html : option string)
    (results : list PageData) : M (list PageData) :=
  if html_truthy html then
    let text := default "" html in
    page_data <- parser_parse parser text u ;;
    s2 <- get_self ;;
    (if truthy (Config.get "follow_links" (VBool false) (config s2))
     then
       new_links <- parser_extract_links text u ;;
       _add_links_to_queue new_links
     else ret tt) ;;;
    ret (results ++ [page_data])%list
  else ret results.

(** The collaborators raise nothing: [urlparse], the parser and
    [time.sleep] return on every input. *)
Definition cooperative : Prop :=
  (∀ u, is_ok (netloc u) = true) ∧
  (∀ parser html u w, is_ok (parse parser html u w) = true) ∧
  (∀ html u, is_ok (extract_links html u) = true) ∧
  (∀ d w, is_ok (time_sleep d w) = true).

(** The size of the visited set as [len] returns it. *)
Definition visited_count (m : Machine) : Z :=
  Z.of_nat (size (visited_urls (self m))).

(** What one iteration of the loop of [crawl] does to the machine, when
    the queue is not empty: either the head of the queue is dropped and
    nothing else happens but a question to the domain filter (it was
    visited before, or the filter did not say yes), or it is fetched. *)
Inductive iteration (m m' : Machine) : Prop :=
| iteration_skip (u : string) (rest : list string) (evs : list Event) :
    urls_to_visit (self m) = u :: rest →
    u ∈ visited_urls (self m) ∨ domain_allowed (config (self m)) u ≠ Ok true →
    self m' = self (with_queue rest m) →
    world m' = world m →
    trace m' = (trace m ++ evs)%list →
    fetched evs = [] →
    sleeps evs = [] →
    iteration m m'
| iteration_visit (u : string) (rest new : list string) (evs : list Event) :
    urls_to_visit (self m) = u :: rest →
    u ∉ visited_urls (self m) →
    domain_allowed (config (self m)) u = Ok true →
    config (self m') = config (self m) →
    session (self m') = session (self m) →
    visited_urls (self m') = {[u]} ∪ visited_urls (self m) →
    urls_to_visit (self m') = (rest ++ new)%list →
    NoDup new →
    (∀ x, x ∈ new → (x ∉ visited_urls (self m')) ∧ (x ∉ rest)) →
    trace m' = (trace m ++ evs)%list →
    fetched evs = [u] →
    (∀ d, d ∈ sleeps evs →
       d = configured_delay (config (self m)) ∧ py_gt0 d = Ok true ∧
       urls_to_visit (self m') ≠ []) →
    (length (sleeps evs) ≤ 1)%nat →
    iteration m m'.

(** The invariant behind the uniqueness of fetch attempts; [V0] is the
    visited set the run started with. *)
Definition fetch_once (V0 : gset string) (m : Machine) : Prop :=
  NoDup (fetched (trace m)) ∧
  (∀ x, x ∈ fetched (trace m) → x ∈ visited_urls (self m) ∧ (x ∉ V0)) ∧
  V0 ⊆ visited_urls (self m) ∧
  NoDup (urls_to_visit (self m)).

End Vocabulary.

(** ** A small world to run the scraper in

    A site is a table from URL to what [session.get] answers; the body of
    a page is the list of its links separated by spaces.  The world is a
    clock that ticks once per request and once per wait; [dict.update]
    is never given anything but a dictionary there. *)

Module Lab.

(** [urlsplit]'s scheme and network location for plain URLs: a scheme
    is a letter followed by letters, digits, [+], [-] or [.] up to the
    first colon; the location follows [//] up to the next [/], [?] or
    [#]. *)
Definition is_alpha (c : ascii) : bool :=
  let n := nat_of_ascii c in
  ((65 <=? n)%nat && (n <=? 90)%nat) || ((97 <=? n)%nat && (n <=? 122)%nat).

Definition is_scheme_char (c : ascii) : bool :=
  let n := nat_of_ascii c in
  is_alpha c || ((48 <=? n)%nat && (n <=? 57)%nat)
  || (n =? 43)%nat || (n =? 45)%nat || (n =? 46)%nat.

Fixpoint all_chars (f : ascii → bool) (s : string) : bool :=
  match s with
  | EmptyString => true
  | String c s' => f c && all_chars f s'
  end.

Definition drop_scheme (url : string) : string :=
  match String.index 0 ":" url with
  | Some (S i) =>
      if all_chars is_scheme_char (String.substring 0 (S i) url)
         && match url with String c _ => is_alpha c | EmptyString => false end
      then String.substring (S (S i)) (String.length url) url
      else url
  | _ => url
  end.

Fixpoint until_delim (s : string) : string :=
  match s with
  | EmptyString => EmptyString
  | String c s' =>
      let n := nat_of_ascii c in
      if (n =? 47)%nat || (n =? 63)%nat || (n =? 35)%nat then EmptyString
      else String c (until_delim s')
  end.

Definition urlsplit_netloc (url : string) : string :=
  match drop_scheme url with
  | String "/"%char (String "/"%char rest) => until_delim rest
  | _ => ""
  end.

Fixpoint split_spaces (acc s : string) : list string :=
  match s with
  | EmptyString => if String.eqb acc "" then [] else [acc]
  | String c s' =>
      if (nat_of_ascii c =? 32)%nat
      then (if String.eqb acc "" then [] else [acc]) ++ split_spaces "" s'
      else split_spaces (acc ++ String c EmptyString)%string s'
  end%list.

Definition runtime (site : string → get_result) : Runtime :=
  {| World := nat;
     session_get := fun _ url _ (w : nat) => (site url, S w);
     time_sleep := fun _ (w : nat) => Ok (S w);
     netloc := fun url => Ok (urlsplit_netloc url);
     update_from_iterable := fun _ _ => Err TypeError |}.

(** A page record: the URL and the time it was parsed at. *)
Definition parser (site : string → get_result) : @Parser (runtime site) :=
  @Build_Parser (runtime site) (string * nat)%type
    (fun _ _ url (w : nat) => Ok (url, w))
    (fun html _ =>
       Ok (filter (fun l => String.prefix "http://" l || String.prefix "https://" l)
             (split_spaces "" html))).

(** The default configuration with some keys set, and a scraper over it. *)
Definition config_with (settings : list (string * pyval)) : gmap string pyval :=
  fold_left (fun c kv => Config.set (fst kv) (snd kv) c) settings
    Config.DEFAULT_CONFIG.

Definition scraper_with (site : string → get_result)
    (settings : list (string * pyval)) : WebScraper :=
  match @WebScraper_init (runtime site) (config_with settings) with
  | Ok s => s
  | Err _ => {| config := config_with settings; session := ∅;
                visited_urls := ∅; urls_to_visit := [] |}
  end.

(** The scenario of the specification: the seed links to [/a] and [/b],
    [/a] links to [/c].  The parser of the lab keeps the words of a
    body that start with [http://] or [https://]. *)
Definition site_test (url : string) : get_result :=
  if String.eqb url "https://site.test/"
  then Response 200 "https://site.test/a https://site.test/b"
  else if String.eqb url "https://site.test/a"
  then Response 200 "https://site.test/c"
  else if String.eqb url "https://site.test/b"
  then Response 200 "done"
  else Response 404 "".

(** A site whose seed links to hosts around [example.com]. *)
Definition site_example (url : string) : get_result :=
  if String.eqb url "https://example.com/"
  then Response 200
         "https://notexample.com/x https://sub.example.com.evil.test/y https://example.org/z"
  else Response 200 "leaf".

(** The machine a run of the lab ends in. *)
Definition ending {site : string → get_result} {A : Type}
    (o : @outcome (runtime site) A) : @Machine (runtime site) :=
  match final o with
  | Some m => m
  | None => @boot (runtime site) (scraper_with site []) 0%nat
  end.

(** Breadth first under a budget of three pages, no delay. *)
Definition settings_test : list (string * pyval) :=
  [("delay_between_requests", VInt 0)].

Definition scraper_test : WebScraper := scraper_with site_test settings_test.

Definition run_test : @outcome (runtime site_test) (list (string * nat)) :=
  @crawl (runtime site_test) (parser site_test) 20 "https://site.test/" (VInt 3)
    (@boot (runtime site_test) scraper_test 0%nat).

(** The same site under a budget of one page and the default delay. *)
Definition run_budget_one : @outcome (runtime site_test) (list (string * nat)) :=
  @crawl (runtime site_test) (parser site_test) 20 "https://site.test/" (VInt 1)
    (@boot (runtime site_test) (scraper_with site_test []) 0%nat).

(** A second crawl with the scraper object the first one leaves. *)
Definition run_again : @outcome (runtime site_test) (list (string * nat)) :=
  @crawl (runtime site_test) (parser site_test) 20 "https://site.test/" (VInt 3)
    (ending run_test).

(** A crawl of [site_example] restricted to [example.com]. *)
Definition settings_example : list (string * pyval) :=
  [("allowed_domains", VList [VStr "example.com"]);
   ("delay_between_requests", VInt 0)].

Definition scraper_example : WebScraper := scraper_with site_example settings_example.

Definition run_example : @outcome (runtime site_example) (list (string * nat)) :=
  @crawl (runtime site_example) (parser site_example) 20 "https://example.com/" VNone
    (@boot (runtime site_example) scraper_example 0%nat).

(** A machine in the middle of a crawl of a site: the seed
    [https://site.test/] is visited, some URLs are queued. *)
Definition machine_mid (site : string → get_result) (s : WebScraper)
    (queue : list string) : @Machine (runtime site) :=
  @Build_Machine (runtime site)
    {| config := config s; session := session s;
       visited_urls := {["https://site.test/"]};
       urls_to_visit := queue |}
    1%nat
    [EvDomainFilter "https://site.test/"; EvFetch "https://site.test/"].

(** A third crawl of the reused scraper, now with a budget of one page. *)
Definition run_again_one : @outcome (runtime site_test) (list (string * nat)) :=
  @crawl (runtime site_test) (parser site_test) 20 "https://site.test/new" (VInt 1)
    (ending run_test).

End Lab.

(** ** main.py, the scraping step *)

Section MainScrape.
Context `{P : Parser}.

(** The URLs of the pages given to [parser.parse], in order. *)
Fixpoint parsed (t : list Event) : list string :=
  match t with
  | [] => []
  | EvParse url :: t' => url :: parsed t'
  | _ :: t' => parsed t'
  end.

(** What [main] does with the scraper it has built ([main.py], lines 199
    to 207); the scraper holds the configuration object [main] reads, and
    [target_url] is the string [config.get('target_url')] gives.  The
    record [parse] returns has the key [url], so [[result] if result else
    []] keeps it. *)
Definition main_scrape (fuel : nat) (target_url : string) : M (list PageData) :=
  s <- get_self ;;
  if truthy (Config.get "follow_links" VNone (config s))
  then crawl fuel target_url (Config.get "max_pages" VNone (config s))
  else
    result <- scrape_single_page target_url ;;
    ret (match result with Some page_data => [page_data] | None => [] end).

End MainScrape.

(** ** parser.py

    [HTMLParser] over what [BeautifulSoup], [urljoin], [urlparse] and
    [datetime] do.  A page record is a dictionary with string keys, kept
    as the list of its items in insertion order. *)

Definition PageRecord : Type := list (string * pyval).

(** [d.get(key)] on the items of a dictionary. *)
Fixpoint dict_get (key : string) (d : list (string * pyval)) : option pyval :=
  match d with
  | [] => None
  | (k, v) :: d' => if String.eqb k key then Some v else dict_get key d'
  end.

Class Soup `{Runtime} : Type := {
  (** [[a['href'] for a in BeautifulSoup(html, 'lxml').find_all('a', href=True)]] *)
  find_all_href : string → result (list string);
  (** [[img['src'] for img in soup.find_all('img', src=True)]] *)
  find_all_src : string → result (list string);
  (** [urljoin(base, url)]; it raises [ValueError] on some malformed URLs *)
  urljoin : string → string → result string;
  (** [urlparse(url).scheme] *)
  url_scheme : string → result string;
  (** [list(set(links))]: every element once, in an order the program
      does not choose *)
  list_set : list string → list string;
  list_set_spec : ∀ l, list_set l ≡ₚ remove_dups l;
  (** [datetime.now().isoformat()] *)
  now_isoformat : World → string;
  (** The methods that only read the parsed document:
      [_extract_title(soup)] (which looks at [self.selectors]),
      [_extract_meta_description(soup)],
      [_extract_by_selector(soup, selector)] and [_extract_text(soup)] *)
  _extract_title : pyval → string → result string;
  _extract_meta_description : string → result string;
  _extract_by_selector : string → pyval → result (list string);
  _extract_text : string → result string;
}.

Module HtmlParser.
Section Methods.
Context `{S : Soup}.

(** [HTMLParser._is_valid_url]; the bare [except:] turns every exception
    of [urlparse] into [False]. *)
Definition _is_valid_url (url : string) : bool :=
  match url_scheme url, netloc url with
  | Ok scheme, Ok host =>
      (negb (String.eqb scheme "") && negb (String.eqb host ""))
      && (String.eqb scheme "http" || String.eqb scheme "https")
  | _, _ => false
  end.

(** The loop of [extract_links] over the [href] values; [links] is the
    list it appends to. *)
Fixpoint collect_links (base_url : string) (hrefs links : list string)
    : result (list string) :=
  match hrefs with
  | [] => Ok links
  | href :: hrefs' =>
      if String.prefix "#" href || String.prefix "javascript:" href
      then collect_links base_url hrefs' links
      else
        match urljoin base_url href with
        | Err e => Err e
        | Ok absolute_url =>
            collect_links base_url hrefs'
              (if _is_valid_url absolute_url
               then (links ++ [absolute_url])%list else links)
        end
  end.

(** [HTMLParser.extract_links] *)
Definition extract_links (html base_url : string) : result (list string) :=
  match find_all_href html with
  | Err e => Err e
  | Ok hrefs =>
      match collect_links base_url hrefs [] with
      | Err e => Err e
      | Ok links => Ok (list_set links)
      end
  end.

(** The loop of [extract_images] over the [src] values. *)
Fixpoint join_all (base_url : string) (srcs : list string) : result (list string) :=
  match srcs with
  | [] => Ok []
  | src :: srcs' =>
      match urljoin base_url src with
      | Err e => Err e
      | Ok absolute_url =>
          match join_all base_url srcs' with
          | Err e => Err e
          | Ok images => Ok (absolute_url :: images)
          end
      end
  end.

(** [HTMLParser.extract_images] *)
Definition extract_images (html base_url : string) : result (list string) :=
  match find_all_src html with
  | Err e => Err e
  | Ok srcs => join_all base_url srcs
  end.

(** The loop of [parse] over [self.selectors.items()]. *)
Fixpoint extract_selectors (html : string) (items : list (string * pyval))
    (data : PageRecord) : result PageRecord :=
  match items with
  | [] => Ok data
  | (field_name, selector) :: items' =>
      if String.eqb field_name "title" || String.eqb field_name "meta_description"
      then extract_selectors html items' data
      else
        match _extract_by_selector html selector with
        | Err e => Err e
        | Ok texts =>
            extract_selectors html items'
              (Main.dict_set field_name (VList (VStr <$> texts)) data)
        end
  end.

(** [HTMLParser.parse]; [selectors] is [self.selectors], and
    [self.selectors.items()] raises [AttributeError] unless it is a
    dictionary. *)
Definition parse (selectors : pyval) (html url : string) (w : World)
    : result PageRecord :=
  match _extract_title selectors html with
  | Err e => Err e
  | Ok title =>
  match _extract_meta_description html with
  | Err e => Err e
  | Ok meta_description =>
  let data :=
    [ ("url", VStr url);
      ("timestamp", VStr (now_isoformat w));
      ("title", VStr title);
      ("meta_description", VStr meta_description) ] in
  match selectors with
  | VDict items =>
      match extract_selectors html items data with
      | Err e => Err e
      | Ok data =>
      match extract_links html url with
      | Err e => Err e
      | Ok links =>
      let data := Main.dict_set "links" (VList (VStr <$> links)) data in
      match extract_images html url with
      | Err e => Err e
      | Ok images =>
      let data := Main.dict_set "images" (VList (VStr <$> images)) data in
      match _extract_text html with
      | Err e => Err e
      | Ok text => Ok (Main.dict_set "text_content" (VStr text) data)
      end end end end
  | _ => Err (OtherException "AttributeError")
  end end end.

End Methods.
End HtmlParser.

(** The [href] values [extract_links] goes on with. *)
Definition kept_href (href : string) : Prop :=
  String.prefix "#" href = false ∧ String.prefix "javascript:" href = false.

(** The fields the loop over the selectors sets. *)
Definition selector_field (k : string) : Prop :=
  k ≠ "title" ∧ k ≠ "meta_description".

(** [HTMLParser] as the parser of the scraper. *)
Definition html_parser `{S : Soup} : Parser :=
  Build_Parser _ PageRecord HtmlParser.parse HtmlParser.extract_links.

(** ** storage.py

    [DataStorage] over the file system, the clock and the built-ins
    [str], [len], [json.dump] and [csv.DictWriter]. *)

Class Disk : Type := {
  (** The files and the clock *)
  Files : Type;
  (** [datetime.now().strftime('%Y%m%d_%H%M%S')] *)
  strftime_now : Files → string;
  (** [str(Path('output') / name)] *)
  output_path : string → string;
  (** [str(v)], which is the identity on strings *)
  py_str : pyval → string;
  py_str_of_str : ∀ s, py_str (VStr s) = s;
  (** [len(s)] for a string *)
  str_len : string → nat;
  (** [with open(filepath, 'w', encoding='utf-8') as f:
        json.dump(data, f, indent=2, ensure_ascii=False)]:
      what it raised, if anything, and the files afterwards *)
  write_json : string → list PageRecord → Files → option exn * Files;
  (** [with open(filepath, 'w', newline='', encoding='utf-8') as f:
        writer = csv.DictWriter(f, fieldnames=fieldnames);
        writer.writeheader(); writer.writerows(flat_data)] *)
  write_csv : string → list string → list PageRecord → Files → option exn * Files;
}.

(** The order of [sorted] on strings: by code point, character by
    character. *)
Definition str_le (a b : string) : Prop := String.leb a b = true.

#[global] Instance str_le_dec : RelDecision str_le :=
  fun a b => decide (String.leb a b = true).

(** [v in l] for a list [l] of string literals: only an equal string is
    in it. *)
Definition py_in_strs (v : pyval) (l : list string) : bool :=
  match v with
  | VStr s => bool_decide (s ∈ l)
  | _ => false
  end.

(** [len(v)] *)
Definition py_len `{Disk} (v : pyval) : result Z :=
  match v with
  | VList l => Ok (Z.of_nat (length l))
  | VDict d => Ok (Z.of_nat (length d))
  | VStr s => Ok (Z.of_nat (str_len s))
  | _ => Err TypeError
  end.


(** The summary [get_export_summary] returns; [pages] is absent when
    there is no data. *)
Record Summary : Type := {
  total_pages : Z;
  total_links : Z;
  total_images : Z;
  pages : option (list (pyval * pyval * pyval));
}.

Module Storage.
Section Methods.
Context `{D : Disk}.

(** [', '.join(str(v) for v in value if v)] *)
Definition join_values (value : list pyval) : string :=
  String.concat ", " (py_str <$> List.filter truthy value).

(** The inner loop of [_flatten_data] over the items of a dictionary
    value. *)
Fixpoint flatten_dict (key : string) (sub : list (string * pyval))
    (flat_item : PageRecord) : PageRecord :=
  match sub with
  | [] => flat_item
  | (sub_key, sub_value) :: sub' =>
      flatten_dict key sub'
        (Main.dict_set (key ++ "_" ++ sub_key)%string sub_value flat_item)
  end.

(** The loop of [_flatten_data] over the items of one record. *)
Fixpoint flatten_item (items : list (string * pyval)) (flat_item : PageRecord)
    : PageRecord :=
  match items with
  | [] => flat_item
  | (key, value) :: items' =>
      flatten_item items'
        (match value with
         | VList l => Main.dict_set key (VStr (join_values l)) flat_item
         | VDict sub => flatten_dict key sub flat_item
         | _ => Main.dict_set key value flat_item
         end)
  end.

(** [DataStorage._flatten_data] *)
Definition _flatten_data (data : list PageRecord) : list PageRecord :=
  (fun item => flatten_item item []) <$> data.

(** [sorted(list(fieldnames))] for the set of the keys of all rows. *)
Definition fieldnames (flat_data : list PageRecord) : list string :=
  merge_sort str_le (remove_dups (mjoin ((fun row => row.*1) <$> flat_data))).

(** [DataStorage.save_json]; [filename] is formatted into the path by an
    f-string. *)
Definition save_json (data : list PageRecord) (filename : pyval) (fs : Files)
    : string * Files :=
  let timestamp := strftime_now fs in
  let filepath :=
    output_path (py_str filename ++ "_" ++ timestamp ++ ".json")%string in
  match write_json filepath data fs with
  | (None, fs') => (filepath, fs')
  | (Some _, fs') => ("", fs')
  end.

(** [DataStorage.save_csv] *)
Definition save_csv (data : list PageRecord) (filename : pyval) (fs : Files)
    : string * Files :=
  let timestamp := strftime_now fs in
  let filepath :=
    output_path (py_str filename ++ "_" ++ timestamp ++ ".csv")%string in
  let flat_data := _flatten_data data in
  match flat_data with
  | [] => ("", fs)
  | _ :: _ =>
      match write_csv filepath (fieldnames flat_data) flat_data fs with
      | (None, fs') => (filepath, fs')
      | (Some _, fs') => ("", fs')
      end
  end.

(** [DataStorage.save] *)
Definition save (c : gmap string pyval) (data : list PageRecord) (format : pyval)
    (fs : Files) : string * Files :=
  match data with
  | [] => ("", fs)
  | _ :: _ =>
      let format := py_or format (Config.get "output_format" (VStr "json") c) in
      let base_filename := Config.get "output_file" (VStr "scraped_data") c in
      let '(saved_json, fs1) :=
        if py_in_strs format ["json"; "both"]
        then let '(json_file, fs') := save_json data base_filename fs in
             ([json_file], fs')
        else ([], fs) in
      let '(saved_csv, fs2) :=
        if py_in_strs format ["csv"; "both"]
        then let '(csv_file, fs') := save_csv data base_filename fs1 in
             ([csv_file], fs')
        else ([], fs1) in
      (String.concat ", " (saved_json ++ saved_csv), fs2)
  end.

(** [sum(len(item.get(key, [])) for item in data)] *)
Fixpoint total_len (key : string) (data : list PageRecord) : result Z :=
  match data with
  | [] => Ok 0
  | item :: data' =>
      match py_len (default (VList []) (dict_get key item)) with
      | Err e => Err e
      | Ok n =>
          match total_len key data' with
          | Err e => Err e
          | Ok total => Ok (n + total)
          end
      end
  end.

(** [DataStorage.get_export_summary] *)
Definition get_export_summary (data : list PageRecord) : result Summary :=
  match data with
  | [] => Ok {| total_pages := 0; total_links := 0; total_images := 0;
                pages := None |}
  | _ :: _ =>
      match total_len "links" data with
      | Err e => Err e
      | Ok links =>
          match total_len "images" data with
          | Err e => Err e
          | Ok images =>
              Ok {| total_pages := Z.of_nat (length data);
                    total_links := links;
                    total_images := images;
                    pages :=
                      Some ((fun item =>
                               (default VNone (dict_get "url" item),
                                default VNone (dict_get "title" item),
                                default VNone (dict_get "timestamp" item)))
                              <$> data) |}
          end
      end
  end.

End Methods.

(** [\w] and [[-\s]] on the characters of an ASCII text. *)
Definition is_word (c : ascii) : bool :=
  let n := nat_of_ascii c in
  ((48 <=? n)%nat && (n <=? 57)%nat) || ((65 <=? n)%nat && (n <=? 90)%nat)
  || ((97 <=? n)%nat && (n <=? 122)%nat) || (n =? 95)%nat.

Definition is_separator (c : ascii) : bool :=
  (nat_of_ascii c =? 45)%nat || Main.is_space c.

(** [re.sub(r'[^\w\s-]', '', text)] *)
Fixpoint remove_unsafe (text : string) : string :=
  match text with
  | EmptyString => EmptyString
  | String c text' =>
      if is_word c || is_separator c then String c (remove_unsafe text')
      else remove_unsafe text'
  end.

(** [re.sub(r'[-\s]+', '_', safe)]: every maximal run of hyphens and
    white space becomes one underscore; [in_run] tells that the
    character before was of the run. *)
Fixpoint collapse_separators (in_run : bool) (safe : string) : string :=
  match safe with
  | EmptyString => EmptyString
  | String c safe' =>
      if is_separator c
      then (if in_run then collapse_separators true safe'
            else String "_"%char (collapse_separators true safe'))
      else String c (collapse_separators false safe')
  end.

(** [DataStorage._sanitize_filename], for a text of ASCII characters. *)
Definition _sanitize_filename (text : string) : string :=
  String.substring 0 50 (collapse_separators false (remove_unsafe text)).

End Storage.

(** A text of ASCII characters. *)
Definition ascii_only (text : string) : Prop :=
  ∀ c, c ∈ list_ascii_of_string text → (nat_of_ascii c < 128)%nat.

(** ** main.py, the overrides *)

(** The configuration of [main] after the overrides of lines 160 to 180,
    before [--selector] is looked at. *)
Definition overridden (fs : Config.FileSystem) (args : Main.Namespace)
    : gmap string pyval :=
  let c :=
    if truthy (Main.args_config args)
    then Config.init fs (Some (Main.string_of (Main.args_config args)))
    else Config.init fs None in
  let c :=
    if truthy (Main.args_url args)
    then Config.set "target_url" (Main.args_url args) c else c in
  let c :=
    if truthy (Main.args_max_pages args)
    then Config.set "max_pages" (Main.args_max_pages args) c else c in
  let c :=
    if truthy (Main.args_delay args)
    then Config.set "delay_between_requests" (Main.args_delay args) c else c in
  let c :=
    if truthy (Main.args_output args)
    then Config.set "output_format" (Main.args_output args) c else c in
  let c :=
    if truthy (Main.args_timeout args)
    then Config.set "timeout" (Main.args_timeout args) c else c in
  let c :=
    if truthy (Main.args_allowed_domains args)
    then
      let domains :=
        map (fun d => VStr (Main.strip d))
          (Main.split_commas "" (Main.string_of (Main.args_allowed_domains args))) in
      Config.set "allowed_domains" (VList domains) c
    else c in
  if Main.args_crawl args then Config.set "follow_links" (VBool true) c else c.

(** ** More runs of the lab *)

Module Bench.
Import Lab.

(** The crawl of [site_test] with [follow_links] switched off. *)
Definition settings_no_follow : list (string * pyval) :=
  [("follow_links", VBool false); ("delay_between_requests", VInt 0)].

Definition scraper_no_follow : WebScraper := scraper_with site_test settings_no_follow.

Definition run_no_follow : @outcome (runtime site_test) (list (string * nat)) :=
  @crawl (runtime site_test) (parser site_test) 20 "https://site.test/" VNone
    (@boot (runtime site_test) scraper_no_follow 0%nat).

(** A site whose seed answers 200 with an empty body, and a machine
    about to fetch that seed. *)
Definition site_blank (url : string) : get_result := Response 200 "".

Definition machine_blank : @Machine (runtime site_blank) :=
  @with_queue (runtime site_blank) ["https://blank.test/"]
    (@boot (runtime site_blank) (scraper_with site_blank settings_test) 0%nat).

(** A scraper whose [allowed_domains] holds a number. *)
Definition settings_bad_filter : list (string * pyval) :=
  [("allowed_domains", VList [VInt 5])].

Definition machine_bad_filter : @Machine (runtime site_test) :=
  @boot (runtime site_test) (scraper_with site_test settings_bad_filter) 0%nat.

(** A configuration with [allowed_domains] given as a string, and one
    with headers of its own. *)
Definition config_string_domain : gmap string pyval :=
  config_with [("allowed_domains", VStr "example.com")].

Definition headers_example : list (string * pyval) :=
  [("User-Agent", VStr "bot/1.0"); ("X-Token", VStr "t")].

Definition config_headers : gmap string pyval :=
  config_with [("headers", VDict headers_example)].

(** Command lines: [-u https://example.com/ --allowed-domains
    "example.com,"], [--config my_config.json --max-pages 0 --delay 0],
    and [-u https://example.com/] alone. *)
Definition cl_trailing_comma : Main.CommandLine :=
  {| Main.cl_url := Some "https://example.com/"; Main.cl_crawl := false;
     Main.cl_max_pages := None; Main.cl_delay := None; Main.cl_output := None;
     Main.cl_config := None; Main.cl_generate_config := false;
     Main.cl_selector := None; Main.cl_timeout := None;
     Main.cl_allowed_domains := Some "example.com," |}.

Definition cl_zero : Main.CommandLine :=
  {| Main.cl_url := None; Main.cl_crawl := false;
     Main.cl_max_pages := Some 0; Main.cl_delay := Some 0%float;
     Main.cl_output := None; Main.cl_config := Some "my_config.json";
     Main.cl_generate_config := false; Main.cl_selector := None;
     Main.cl_timeout := None; Main.cl_allowed_domains := None |}.

Definition cl_url_only : Main.CommandLine :=
  {| Main.cl_url := Some "https://example.com/"; Main.cl_crawl := false;
     Main.cl_max_pages := None; Main.cl_delay := None; Main.cl_output := None;
     Main.cl_config := None; Main.cl_generate_config := false;
     Main.cl_selector := None; Main.cl_timeout := None;
     Main.cl_allowed_domains := None |}.

Definition no_files : Config.FileSystem := fun _ => None.

(** A file system with three configuration files: [one.json] holds
    ["follow_links": 1], [off.json] holds ["follow_links": false] and
    [bad.json] holds ["selectors": null]. *)
Definition fs_follow : Config.FileSystem :=
  fun path =>
    if String.eqb path "one.json"
    then Some (list_to_map [("follow_links", VInt 1)])
    else if String.eqb path "off.json"
    then Some (list_to_map [("follow_links", VBool false)])
    else if String.eqb path "bad.json"
    then Some (list_to_map [("selectors", VNone)])
    else None.

(** [python main.py --config bad.json --selector h2] *)
Definition cl_bad_selectors : Main.CommandLine :=
  {| Main.cl_url := None; Main.cl_crawl := false;
     Main.cl_max_pages := None; Main.cl_delay := None; Main.cl_output := None;
     Main.cl_config := Some "bad.json"; Main.cl_generate_config := false;
     Main.cl_selector := Some "h2"; Main.cl_timeout := None;
     Main.cl_allowed_domains := None |}.

(** The documents of the lab for [HTMLParser]: the [href] values of a
    page are its words, all of them absolute, and [urljoin] refuses
    [http://[]; the scheme of a URL is what stands before its first
    colon. *)
Definition lab_scheme (url : string) : string :=
  match String.index 0 ":" url with
  | Some i => String.substring 0 i url
  | None => ""
  end.

Definition soup (site : string → get_result) : @Soup (runtime site) :=
  @Build_Soup (runtime site)
    (fun html => Ok (split_spaces "" html))
    (fun _ => Ok [])
    (fun _ href =>
       if String.eqb href "http://[" then Err (OtherException "ValueError")
       else Ok href)
    (fun url => Ok (lab_scheme url))
    remove_dups
    (fun l => reflexivity (remove_dups l))
    (fun _ => "2024-01-01T00:00:00")
    (fun _ _ => Ok "Title")
    (fun _ => Ok "")
    (fun _ _ => Ok ["text"])
    (fun _ => Ok "text").

Definition page_links : string :=
  "https://site.test/a mailto:bob@site.test #top javascript:void(0) ftp://site.test/f https://site.test/a".

Definition page_bad : string := "https://site.test/a http://[".

Definition site_html (url : string) : get_result :=
  if String.eqb url "https://site.test/" then Response 200 page_links
  else Response 200 "done".



Definition selectors_example : pyval :=
  VDict [("url", VStr "a.canonical"); ("links", VStr "a"); ("price", VStr ".price")].

Definition record_example : PageRecord :=
  match @HtmlParser.parse (runtime site_html) (soup site_html)
          selectors_example page_links "https://site.test/" 0%nat with
  | Ok data => data
  | Err _ => []
  end.

End Bench.


(** * Properties *)

(** ** Substrings *)

Section Substrings.

Lemma append_cons (c : ascii) (a b : string) :
  (String c a ++ b)%string = String c (a ++ b)%string.
Proof. reflexivity. Qed.

Lemma append_empty (b : string) : ("" ++ b)%string = b.
Proof. reflexivity. Qed.

Lemma prefix_spec (a d : string) :
  String.prefix a d = true ↔ ∃ post, d = (a ++ post)%string.
Proof.
  revert d. induction a as [|c a IH]; intros d.
  - split; [|by destruct d]. intros _. by exists d.
  - destruct d as [|c' d]; cbn [String.prefix].
    + split; [done|]. intros [post Hpost]. by rewrite append_cons in Hpost.
    + destruct (Ascii.ascii_dec c c') as [->|Hne].
      * rewrite IH. split; intros [post Hpost]; exists post;
          rewrite append_cons in *; congruence.
      * split; [done|]. intros [post Hpost]. rewrite append_cons in Hpost. congruence.
Qed.

(** [needle in hay] holds exactly when [hay] is some text, then
    [needle], then some text. *)
Lemma str_contains_spec (a d : string) :
  str_contains a d = true ↔ ∃ pre post, d = (pre ++ a ++ post)%string.
Proof.
  induction d as [|c d IH]; cbn [str_contains].
  - rewrite orb_false_r, prefix_spec. split.
    + intros [post Hpost]. by exists "", post.
    + intros (pre & post & Heq). destruct pre; [by exists post|].
      by rewrite append_cons in Heq.
  - rewrite orb_true_iff, prefix_spec, IH. split.
    + intros [[post Hpost]|(pre & post & Hd)].
      * by exists "", post.
      * exists (String c pre), post. rewrite append_cons. by rewrite Hd.
    + intros (pre & post & Heq). destruct pre as [|c' pre].
      * left. by exists post.
      * right. exists pre, post. rewrite append_cons in Heq. congruence.
Qed.

End Substrings.

(** ** The pieces of one iteration *)

Section Pieces.
Context `{P : Parser}.

Lemma with_queue_same (m : Machine) : with_queue (urls_to_visit (self m)) m = m.
Proof. by destruct m as [[? ? ? ?] ? ?]. Qed.

Lemma fetch_page_eq (url : string) (m : Machine) :
  fetch_page url m =
    let rw := session_get (session (self m)) url
                (Config.get "timeout" (VInt 30) (config (self m))) (world m) in
    Ret (page_of (fst rw)) (with_world (snd rw) (with_events [EvFetch url] m)).
Proof.
  unfold fetch_page, try_except, http_get, bind, get_self, get_world, emit,
    set_world, ret, raise, page_of.
  cbn [self world with_events].
  destruct (session_get _ _ _ _) as [[status text|e] w']; cbn [fst snd].
  - destruct (status =? 200); [done|].
    destruct (status =? 404); [done|]. by destruct (status =? 403).
  - by destruct e.
Qed.

Lemma is_allowed_domain_eq (url : string) (m : Machine) :
  _is_allowed_domain url m =
    lift (domain_allowed (config (self m)) url) (with_events [EvDomainFilter url] m).
Proof.
  unfold _is_allowed_domain, domain_allowed, bind, emit, get_self, lift, ret.
  cbn [self with_events].
  destruct (negb (truthy _)); [done|].
  destruct (netloc url); [|done].
  by destruct (py_iter _).
Qed.

Lemma add_links_to_queue_eq (links : list string) (m : Machine) :
  _add_links_to_queue links m =
    Ret tt (with_queue
              (add_links (visited_urls (self m)) (urls_to_visit (self m)) links) m).
Proof.
  revert m. induction links as [|link links IH]; intros m; cbn [_add_links_to_queue add_links].
  - unfold ret. by rewrite with_queue_same.
  - unfold bind, get_self.
    destruct (bool_decide (link ∉ visited_urls (self m))
              && bool_decide (link ∉ urls_to_visit (self m))).
    + unfold set_urls_to_visit. rewrite IH. by destruct m as [[? ? ? ?] ? ?].
    + unfold ret. by rewrite IH.
Qed.

Lemma rate_limit_eq (m : Machine) :
  rate_limit m =
    let delay := configured_delay (config (self m)) in
    match py_gt0 delay with
    | Err e => Raise e m
    | Ok positive =>
        if positive && match urls_to_visit (self m) with [] => false | _ => true end
        then
          match time_sleep delay (world m) with
          | Ok w' => Ret tt (with_world w' (with_events [EvSleep delay] m))
          | Err e => Raise e (with_events [EvSleep delay] m)
          end
        else Ret tt m
    end.
Proof.
  unfold rate_limit, sleep, configured_delay, bind, get_self, lift, emit,
    get_world, set_world, ret.
  destruct (py_gt0 _) as [b|e]; [|done].
  destruct (b && _); [|done].
  cbn [world with_events]. by destruct (time_sleep _ _).
Qed.

End Pieces.

(** ** One iteration of the loop *)

Section Iteration.
Context `{P : Parser}.

Lemma crawl_cond_eq (max_pages : pyval) (m : Machine) :
  crawl_cond max_pages m =
    match urls_to_visit (self m) with
    | [] => Ret false m
    | _ :: _ => lift (py_int_lt (visited_count m) max_pages) m
    end.
Proof.
  unfold crawl_cond, bind, get_self, ret. by destruct (urls_to_visit (self m)).
Qed.

(** The loop test does not change the machine. *)
Lemma crawl_cond_pure (max_pages : pyval) (m : Machine) :
  (∃ b, crawl_cond max_pages m = Ret b m) ∨ (∃ e, crawl_cond max_pages m = Raise e m).
Proof.
  rewrite crawl_cond_eq. destruct (urls_to_visit (self m)); [eauto|].
  unfold lift. destruct (py_int_lt _ _); eauto.
Qed.

Lemma crawl_cond_true (max_pages : pyval) (m m' : Machine) :
  crawl_cond max_pages m = Ret true m' →
  m' = m ∧ urls_to_visit (self m) ≠ [] ∧
  py_int_lt (visited_count m) max_pages = Ok true.
Proof.
  rewrite crawl_cond_eq. destruct (urls_to_visit (self m)) as [|u q]; [by inversion 1|].
  unfold lift. destruct (py_int_lt _ _) as [[]|]; inversion 1; done.
Qed.

(** The iteration, case by case. *)
Lemma crawl_body_eq (parser : pyval) (results : list PageData) (m : Machine)
    (u : string) (rest : list string) :
  urls_to_visit (self m) = u :: rest →
  crawl_body parser results m =
    let m0 := with_queue rest m in
    if bool_decide (u ∈ visited_urls (self m)) then Ret results m0
    else
      match domain_allowed (config (self m)) u with
      | Err e => Raise e (with_events [EvDomainFilter u] m0)
      | Ok false => Ret results (with_events [EvDomainFilter u] m0)
      | Ok true =>
          let rm := attempt u m0 in
          (results' <- handle_page parser u (page_of (fst rm)) results ;;
           rate_limit ;;;
           ret results') (snd rm)
      end.
Proof.
  intros Hq. unfold crawl_body, bind at 1, get_self at 1. rewrite Hq.
  unfold bind at 1, set_urls_to_visit at 1.
  destruct (bool_decide (u ∈ visited_urls (self m))); [done|].
  unfold bind at 1. rewrite is_allowed_domain_eq.
  cbn [with_queue self config]. unfold lift.
  destruct (domain_allowed (config (self m)) u) as [[|]|e]; cbn [negb]; [|done|done].
  unfold bind at 1. rewrite fetch_page_eq.
  unfold bind at 1, get_self at 1, bind at 1, set_visited_urls at 1.
  unfold attempt, handle_page. cbn [fst snd].
  destruct m as [[c se v q] w t]. cbn in Hq. subst q.
  unfold with_queue, with_events, with_world, with_visited.
  cbn [self world trace config session visited_urls urls_to_visit].
  rewrite <- app_assoc. reflexivity.
Qed.

End Iteration.

(** ** The queue *)

Section Queue.

Lemma add_links_spec (visited : gset string) (links queue : list string) :
  ∃ new : list string,
    add_links visited queue links = (queue ++ new)%list ∧
    NoDup new ∧
    ∀ x, x ∈ new → x ∈ links ∧ (x ∉ visited) ∧ (x ∉ queue).
Proof.
  revert queue. induction links as [|link links IH]; intros queue; cbn [add_links].
  - exists []. rewrite app_nil_r. split; [done|]. split; [constructor|].
    intros x Hx. by apply elem_of_nil in Hx.
  - destruct (bool_decide (link ∉ visited) && bool_decide (link ∉ queue)) eqn:Hc.
    + apply andb_true_iff in Hc as [Hv Hq].
      apply bool_decide_eq_true in Hv, Hq.
      destruct (IH (queue ++ [link])%list) as (new & Heq & Hnd & Hnew).
      exists (link :: new). rewrite Heq, <- app_assoc. split; [done|]. split.
      * apply NoDup_cons. split; [|done].
        intros Hin. apply Hnew in Hin as (_ & _ & Hn). apply Hn.
        apply elem_of_app. right. by apply list_elem_of_singleton.
      * intros x Hx. apply elem_of_cons in Hx as [->|Hx].
        -- split; [by left|done].
        -- apply Hnew in Hx as (Hl & Hv' & Hq'). split; [by right|]. split; [done|].
           intros Hin. apply Hq'. apply elem_of_app. by left.
    + destruct (IH queue) as (new & Heq & Hnd & Hnew).
      exists new. split; [done|]. split; [done|].
      intros x Hx. apply Hnew in Hx as (Hl & Hv' & Hq'). split; [by right|done].
Qed.

Lemma fetched_app (t1 t2 : list Event) :
  fetched (t1 ++ t2) = (fetched t1 ++ fetched t2)%list.
Proof.
  induction t1 as [|e t1 IH]; [done|].
  destruct e; cbn [app fetched]; rewrite IH; done.
Qed.

Lemma sleeps_app (t1 t2 : list Event) :
  sleeps (t1 ++ t2) = (sleeps t1 ++ sleeps t2)%list.
Proof.
  induction t1 as [|e t1 IH]; [done|].
  destruct e; cbn [app sleeps]; rewrite IH; done.
Qed.

Lemma filtered_app (t1 t2 : list Event) :
  filtered (t1 ++ t2) = (filtered t1 ++ filtered t2)%list.
Proof.
  induction t1 as [|e t1 IH]; [done|].
  destruct e; cbn [app filtered]; rewrite IH; done.
Qed.

End Queue.

(** ** Every iteration is a skip or a visit *)

Section IterationRelation.
Context `{P : Parser}.

Lemma handle_page_eq (parser : pyval) (u : string) (html : option string)
    (results : list PageData) (m : Machine) :
  handle_page parser u html results m =
    if html_truthy html then
      let text := default "" html in
      match parse parser text u (world m) with
      | Err e => Raise e (with_events [EvParse u] m)
      | Ok page =>
          if truthy (Config.get "follow_links" (VBool false) (config (self m)))
          then
            match extract_links text u with
            | Err e => Raise e (with_events [EvExtractLinks u] (with_events [EvParse u] m))
            | Ok links =>
                Ret (results ++ [page])%list
                  (with_queue
                     (add_links (visited_urls (self m)) (urls_to_visit (self m)) links)
                     (with_events [EvExtractLinks u] (with_events [EvParse u] m)))
            end
          else Ret (results ++ [page])%list (with_events [EvParse u] m)
      end
    else Ret results m.
Proof.
  unfold handle_page. destruct (html_truthy html); [|done]. cbn zeta.
  unfold bind at 1, parser_parse at 1, bind at 1, emit at 1, bind at 1,
    get_world at 1, lift at 1.
  cbn [world with_events].
  destruct (parse parser (default "" html) u (world m)) as [page|e]; [|done].
  unfold bind at 1, get_self at 1. cbn [self with_events config].
  destruct (truthy _).
  - unfold bind at 1, bind at 1, parser_extract_links at 1, bind at 1,
      emit at 1, lift at 1.
    destruct (extract_links (default "" html) u) as [links|e]; [|done].
    by rewrite add_links_to_queue_eq.
  - done.
Qed.

(** What the block under [if html:] does to the machine, however it
    ends. *)
Lemma handle_page_spec (parser : pyval) (u : string) (html : option string)
    (results : list PageData) (m : Machine) :
  ∃ (new : list string) (evs : list Event) (m' : Machine),
    final (handle_page parser u html results m) = Some m' ∧
    config (self m') = config (self m) ∧
    session (self m') = session (self m) ∧
    visited_urls (self m') = visited_urls (self m) ∧
    urls_to_visit (self m') = (urls_to_visit (self m) ++ new)%list ∧
    world m' = world m ∧
    trace m' = (trace m ++ evs)%list ∧
    fetched evs = [] ∧ sleeps evs = [] ∧ filtered evs = [] ∧
    NoDup new ∧
    (∀ x, x ∈ new → (x ∉ visited_urls (self m)) ∧ (x ∉ urls_to_visit (self m))) ∧
    (html_truthy html = false →
       handle_page parser u html results m = Ret results m ∧ m' = m) ∧
    (cooperative → ∃ r, handle_page parser u html results m = Ret r m').
Proof.
  assert (Hnil : ∀ x : string, x ∈ [] →
            (x ∉ visited_urls (self m)) ∧ (x ∉ urls_to_visit (self m))).
  { intros x Hx. by apply elem_of_nil in Hx. }
  rewrite handle_page_eq. destruct (html_truthy html); cbn zeta.
  - destruct (parse parser (default "" html) u (world m)) as [page|e] eqn:Hparse.
    + destruct (truthy _).
      * destruct (extract_links (default "" html) u) as [links|e] eqn:Hlinks.
        -- destruct (add_links_spec (visited_urls (self m)) links (urls_to_visit (self m)))
             as (new & Heq & Hnd & Hnew).
           exists new, [EvParse u; EvExtractLinks u]. eexists.
           split; [reflexivity|]. cbn. rewrite Heq, <- app_assoc.
           split_and!; try done; [intros x Hx; by apply Hnew|by eexists].
        -- exists [], [EvParse u; EvExtractLinks u]. eexists.
           split; [reflexivity|]. cbn. rewrite app_nil_r, <- app_assoc.
           split_and!; try done; [constructor|].
           intros (_ & _ & Hex & _). specialize (Hex (default "" html) u).
           by rewrite Hlinks in Hex.
      * exists [], [EvParse u]. eexists.
        split; [reflexivity|]. cbn. rewrite app_nil_r.
        split_and!; try done; [constructor|by eexists].
    + exists [], [EvParse u]. eexists.
      split; [reflexivity|]. cbn. rewrite app_nil_r.
      split_and!; try done; [constructor|].
      intros (_ & Hpa & _). specialize (Hpa parser (default "" html) u (world m)).
      by rewrite Hparse in Hpa.
  - exists [], [], m. cbn. rewrite !app_nil_r.
    split_and!; try done; [constructor|by eexists].
Qed.

(** What the rate limit does to the machine, however it ends. *)
Lemma rate_limit_spec (m : Machine) :
  ∃ (evs : list Event) (m' : Machine),
    final (rate_limit m) = Some m' ∧
    self m' = self m ∧
    trace m' = (trace m ++ evs)%list ∧
    (evs = [] ∨ evs = [EvSleep (configured_delay (config (self m)))]) ∧
    (∀ d, d ∈ sleeps evs →
       d = configured_delay (config (self m)) ∧ py_gt0 d = Ok true ∧
       urls_to_visit (self m) ≠ []) ∧
    ((∃ b, py_gt0 (configured_delay (config (self m))) = Ok b) →
     (∀ d w, is_ok (time_sleep d w) = true) →
     rate_limit m = Ret tt m').
Proof.
  assert (Hnil : ∀ d : pyval, d ∈ [] →
            d = configured_delay (config (self m)) ∧ py_gt0 d = Ok true ∧
            urls_to_visit (self m) ≠ []).
  { intros d Hd. by apply elem_of_nil in Hd. }
  rewrite rate_limit_eq. cbn zeta.
  destruct (py_gt0 _) as [b|e] eqn:Hd.
  - destruct (b && _) eqn:Hb.
    + apply andb_true_iff in Hb as [-> Hb].
      assert (Hq : urls_to_visit (self m) ≠ []) by (by destruct (urls_to_visit (self m))).
      assert (Hsl : ∀ d, d ∈ sleeps [EvSleep (configured_delay (config (self m)))] →
                d = configured_delay (config (self m)) ∧ py_gt0 d = Ok true ∧
                urls_to_visit (self m) ≠ []).
      { cbn. intros d Hin. apply list_elem_of_singleton in Hin as ->. done. }
      destruct (time_sleep _ _) as [w'|e] eqn:Hs;
        exists [EvSleep (configured_delay (config (self m)))]; eexists;
        (split; [reflexivity|]); cbn; split_and!; try done; try by right.
      intros _ Hok. specialize (Hok (configured_delay (config (self m))) (world m)).
      by rewrite Hs in Hok.
    + exists [], m. cbn. rewrite app_nil_r. split_and!; try done. by left.
  - exists [], m. cbn. rewrite app_nil_r. split_and!; try done; [by left|].
    by intros [b Hb].
Qed.

Lemma crawl_body_iteration (parser : pyval) (results : list PageData)
    (m m' : Machine) :
  urls_to_visit (self m) ≠ [] →
  final (crawl_body parser results m) = Some m' →
  iteration m m'.
Proof.
  intros Hne. destruct (urls_to_visit (self m)) as [|u rest] eqn:Hq; [done|].
  rewrite (crawl_body_eq _ _ _ _ _ Hq). cbn zeta.
  case_bool_decide as Hv.
  { cbn. intros [= <-]. eapply (iteration_skip _ _ u rest []); eauto.
    by rewrite app_nil_r. }
  destruct (domain_allowed (config (self m)) u) as [[|]|e] eqn:Ha.
  - destruct (handle_page_spec parser u (page_of (fst (attempt u (with_queue rest m))))
                results (snd (attempt u (with_queue rest m))))
      as (new & evs & m2 & Hfin & Hc & Hs & Hvis & Hqueue & Hw & Ht & Hf & Hsl & _
          & Hnd & Hnew & _).
    cbn in Hc, Hs, Hvis, Hqueue, Ht, Hnew.
    destruct (rate_limit_spec m2)
      as (evs' & m3 & Hfin' & Hself & Ht' & Hevs & Hsl' & _).
    intros Hm'.
    assert (Hcases : m' = m2 ∨ m' = m3).
    { revert Hm'. unfold bind at 1.
      destruct (handle_page _ _ _ _ _) as [r m2'|e m2'|]; [| |done];
        cbn in Hfin; injection Hfin as ->.
      - unfold bind, ret.
        destruct (rate_limit m2) as [[] m3'|e m3'|]; [| |done];
          cbn in Hfin'; injection Hfin' as ->; cbn; intros [= <-]; by right.
      - cbn. intros [= <-]. by left. }
    destruct Hcases as [-> | ->].
    + eapply (iteration_visit _ _ u rest new ([EvDomainFilter u; EvFetch u] ++ evs));
        cbn; eauto.
      * by rewrite Hvis.
      * rewrite Ht. by rewrite <- !app_assoc.
      * by rewrite Hf.
      * by rewrite Hsl; intros d Hin; apply elem_of_nil in Hin.
      * rewrite Hsl. cbn. lia.
    + eapply (iteration_visit _ _ u rest new
                (([EvDomainFilter u; EvFetch u] ++ evs) ++ evs'));
        rewrite ?Hself; cbn; eauto.
      * by rewrite Hvis.
      * rewrite Ht', Ht. by rewrite <- !app_assoc.
      * by rewrite fetched_app, Hf; destruct Hevs as [-> | ->].
      * rewrite sleeps_app, Hsl. cbn. rewrite Hc in Hsl'.
        intros d Hd. by destruct (Hsl' d Hd) as (? & ? & ?).
      * rewrite sleeps_app, Hsl. destruct Hevs as [-> | ->]; cbn; lia.
  - cbn. intros [= <-].
    eapply (iteration_skip _ _ u rest [EvDomainFilter u]); eauto.
    right. by rewrite Ha.
  - cbn. intros [= <-].
    eapply (iteration_skip _ _ u rest [EvDomainFilter u]); eauto.
    right. by rewrite Ha.
Qed.

End IterationRelation.

(** ** The loop *)

Section Loop.
Context `{P : Parser}.

Lemma crawl_eq (fuel : nat) (start_url : string) (max_pages : pyval) (m : Machine) :
  crawl fuel start_url max_pages m =
    crawl_loop fuel (HTMLParser (config (self m)))
      (effective_budget max_pages (config (self m))) []
      (with_queue [start_url] m).
Proof. reflexivity. Qed.

Lemma crawl_body_returns_or_raises (parser : pyval) (results : list PageData)
    (m : Machine) :
  ∃ m', final (crawl_body parser results m) = Some m'.
Proof.
  destruct (urls_to_visit (self m)) as [|u rest] eqn:Hq.
  - unfold crawl_body, bind, get_self. rewrite Hq. by eexists.
  - rewrite (crawl_body_eq _ _ _ _ _ Hq). cbn zeta.
    case_bool_decide; [by eexists|].
    destruct (domain_allowed _ _) as [[|]|e]; try by eexists.
    destruct (handle_page_spec parser u (page_of (fst (attempt u (with_queue rest m))))
                results (snd (attempt u (with_queue rest m))))
      as (new & evs & m2 & Hfin & _).
    unfold bind at 1.
    destruct (handle_page _ _ _ _ _) as [r m2'|e m2'|]; [|by eexists|done].
    cbn in Hfin. injection Hfin as ->.
    destruct (rate_limit_spec m2) as (evs' & m3 & Hfin' & _).
    unfold bind, ret. destruct (rate_limit m2) as [[] m3'|e m3'|]; [| |done]; by eexists.
Qed.

(** One unfolding of the loop. *)
Lemma crawl_loop_step (fuel : nat) (parser max_pages : pyval)
    (results : list PageData) (m : Machine) :
  crawl_loop (S fuel) parser max_pages results m =
    match urls_to_visit (self m) with
    | [] => Ret results m
    | _ :: _ =>
        match py_int_lt (visited_count m) max_pages with
        | Err e => Raise e m
        | Ok false => Ret results m
        | Ok true =>
            match crawl_body parser results m with
            | Ret results' m' => crawl_loop fuel parser max_pages results' m'
            | Raise e m' => Raise e m'
            | OutOfFuel => OutOfFuel
            end
        end
    end.
Proof.
  cbn [crawl_loop]. unfold bind at 1. rewrite crawl_cond_eq.
  destruct (urls_to_visit (self m)); [done|].
  unfold lift. destruct (py_int_lt _ _) as [[|]|e]; try done.
Qed.

(** A property that every iteration started by the loop preserves holds
    when the loop ends, however it ends. *)
Lemma crawl_loop_invariant (I : Machine → Prop) (parser max_pages : pyval) :
  (∀ m m', I m →
     urls_to_visit (self m) ≠ [] →
     py_int_lt (visited_count m) max_pages = Ok true →
     iteration m m' → I m') →
  ∀ fuel results m m',
    I m → final (crawl_loop fuel parser max_pages results m) = Some m' → I m'.
Proof.
  intros Hstep. induction fuel as [|fuel IH]; intros results m m' HI; [done|].
  rewrite crawl_loop_step.
  destruct (urls_to_visit (self m)) as [|u rest] eqn:Hq; [by intros [= <-]|].
  destruct (py_int_lt _ _) as [[|]|e] eqn:Hlt; try by intros [= <-].
  destruct (crawl_body parser results m) as [results' m1|e m1|] eqn:Hbody; [| |done].
  - apply IH. apply (Hstep m); try done; [by rewrite Hq|].
    apply (crawl_body_iteration parser results); [by rewrite Hq|by rewrite Hbody].
  - intros [= <-]. apply (Hstep m); try done; [by rewrite Hq|].
    apply (crawl_body_iteration parser results); [by rewrite Hq|by rewrite Hbody].
Qed.

(** Once the loop has ended, more fuel changes nothing. *)
Lemma crawl_loop_fuel (parser max_pages : pyval) (fuel : nat) :
  ∀ (results : list PageData) (m : Machine),
    ended (crawl_loop fuel parser max_pages results m) = true →
    ∀ fuel', (fuel ≤ fuel')%nat →
      crawl_loop fuel' parser max_pages results m
        = crawl_loop fuel parser max_pages results m.
Proof.
  induction fuel as [|fuel IH]; intros results m Hend fuel' Hle; [done|].
  destruct fuel' as [|fuel']; [lia|].
  rewrite !crawl_loop_step in *.
  destruct (urls_to_visit (self m)); [done|].
  destruct (py_int_lt _ _) as [[|]|e]; try done.
  destruct (crawl_body parser results m) as [results' m'|e m'|]; try done.
  apply IH; [done|lia].
Qed.

End Loop.

(** ** Fetch attempts are unique; the visited set is bounded *)

Section Visits.
Context `{P : Parser}.

Lemma fetch_once_iteration (V0 : gset string) (m m' : Machine) :
  fetch_once V0 m → iteration m m' → fetch_once V0 m'.
Proof.
  intros (Hnd & Hin & Hsub & Hq) Hit.
  destruct Hit as [u rest evs Hqm _ Hself _ Ht Hf _
                  |u rest new evs Hqm Hv _ _ _ Hvis Hqueue Hndnew Hnew Ht Hf _].
  - unfold fetch_once. rewrite Ht, fetched_app, Hf, app_nil_r, Hself. cbn.
    rewrite Hqm in Hq. apply NoDup_cons in Hq as [_ Hq]. done.
  - unfold fetch_once. rewrite Ht, fetched_app, Hf, Hvis, Hqueue.
    rewrite Hqm in Hq. apply NoDup_cons in Hq as [_ Hq].
    split_and!.
    + apply NoDup_app. split_and!; [done| |apply NoDup_singleton].
      intros x Hx Hx'. apply list_elem_of_singleton in Hx' as ->.
      apply Hin in Hx as [Hx _]. done.
    + intros x Hx. apply elem_of_app in Hx as [Hx|Hx].
      * apply Hin in Hx as [Hx Hx0]. split; [set_solver|done].
      * apply list_elem_of_singleton in Hx as ->. split; [set_solver|].
        intros Hu. apply Hv. by apply Hsub.
    + set_solver.
    + apply NoDup_app. split_and!; [done| |done].
      intros x Hx Hx'. apply Hnew in Hx' as [_ Hx']. done.
Qed.

Lemma iteration_visited_mono (m m' : Machine) :
  iteration m m' →
  visited_urls (self m) ⊆ visited_urls (self m') ∧
  visited_count m' ≤ visited_count m + 1.
Proof.
  unfold visited_count.
  intros [u rest evs _ _ Hself _ _ _ _
         |u rest new evs _ Hv _ _ _ Hvis _ _ _ _ _ _].
  - rewrite Hself. cbn. split; [done|lia].
  - rewrite Hvis. split; [set_solver|].
    rewrite size_union by set_solver. rewrite size_singleton. lia.
Qed.

Lemma iteration_within_budget (N : Z) (m m' : Machine) :
  visited_count m < N → iteration m m' → visited_count m' ≤ N.
Proof.
  intros Hlt Hit. apply iteration_visited_mono in Hit as [_ Hit]. lia.
Qed.

End Visits.


(** ** Well-typed configurations, termination *)

Section Termination.
Context `{P : Parser}.

Lemma any_in_strings (domain : string) (l : list string) :
  any_in domain (VStr <$> l) = Ok (existsb (fun a => str_contains a domain) l).
Proof.
  induction l as [|a l IH]; [done|].
  cbn. rewrite IH. by destruct (str_contains a domain).
Qed.

Lemma domain_allowed_strings (c : gmap string pyval) (url host : string)
    (l : list string) :
  Config.get "allowed_domains" (VList []) c = VList (VStr <$> l) →
  netloc url = Ok host →
  domain_allowed c url =
    Ok (match l with
        | [] => true
        | _ :: _ => existsb (fun a => str_contains a host) l
        end).
Proof.
  intros Hl Hhost. unfold domain_allowed. rewrite Hl.
  destruct l as [|a l]; [done|].
  cbn [fmap list_fmap truthy negb py_iter]. rewrite Hhost.
  apply (any_in_strings _ (a :: l)).
Qed.

Lemma domain_allowed_empty (c : gmap string pyval) (url : string) :
  Config.get "allowed_domains" (VList []) c = VList [] →
  domain_allowed c url = Ok true.
Proof. intros Hl. unfold domain_allowed. by rewrite Hl. Qed.

Lemma iteration_config (m m' : Machine) :
  iteration m m' → config (self m') = config (self m).
Proof.
  intros [u rest evs _ _ Hself _ _ _ _|u rest new evs _ _ _ Hc _ _ _ _ _ _ _ _];
    [by rewrite Hself|done].
Qed.

Lemma crawl_body_well_typed (parser : pyval) (results : list PageData) (m : Machine) :
  well_typed (config (self m)) →
  cooperative →
  urls_to_visit (self m) ≠ [] →
  ∃ results' m', crawl_body parser results m = Ret results' m'.
Proof.
  intros [[l Hl] [b Hb]] Hco Hne.
  destruct (urls_to_visit (self m)) as [|u rest] eqn:Hq; [done|].
  rewrite (crawl_body_eq _ _ _ _ _ Hq). cbn zeta.
  case_bool_decide; [by eauto|].
  assert (∃ a, domain_allowed (config (self m)) u = Ok a) as [a ->].
  { destruct Hco as (Hnet & _). specialize (Hnet u).
    destruct (netloc u) as [host|e] eqn:Hhost; [|done].
    rewrite (domain_allowed_strings _ _ _ _ Hl Hhost). by eexists. }
  destruct a; [|by eauto].
  destruct (handle_page_spec parser u (page_of (fst (attempt u (with_queue rest m))))
              results (snd (attempt u (with_queue rest m))))
    as (new & evs & m2 & _ & Hc & _ & _ & _ & _ & _ & _ & _ & _ & _ & _ & _ & Hret).
  destruct (Hret Hco) as [r Hr]. unfold bind at 1. rewrite Hr.
  destruct (rate_limit_spec m2) as (evs' & m3 & _ & _ & _ & _ & _ & Hrl).
  unfold bind, ret. rewrite Hrl; [by eauto| |by destruct Hco as (_ & _ & _ & ?)].
  rewrite Hc. cbn. by exists b.
Qed.

(** The loop ends for an integer budget [N]: by induction on the number
    of visits left and, under it, on the length of the queue. *)
Lemma crawl_loop_terminates (parser : pyval) (N : Z) (a b : nat) :
  ∀ (results : list PageData) (m : Machine),
    (Z.to_nat (N - visited_count m) ≤ a)%nat →
    (length (urls_to_visit (self m)) ≤ b)%nat →
    ∃ fuel,
      (∃ m', final (crawl_loop fuel parser (VInt N) results m) = Some m') ∧
      (well_typed (config (self m)) → cooperative →
       ∃ results' m', crawl_loop fuel parser (VInt N) results m = Ret results' m').
Proof.
  revert b. induction a as [a IHa] using lt_wf_ind.
  induction b as [b IHb] using lt_wf_ind.
  intros results m Ha Hb.
  destruct (urls_to_visit (self m)) as [|u rest] eqn:Hq.
  { exists 1%nat. rewrite crawl_loop_step, Hq. by eauto. }
  destruct (visited_count m <? N) eqn:Hlt.
  2:{ exists 1%nat. rewrite crawl_loop_step, Hq. cbn. rewrite Hlt. by eauto. }
  apply Z.ltb_lt in Hlt.
  destruct (crawl_body parser results m) as [results1 m1|e m1|] eqn:Hbody.
  - assert (Hit : iteration m m1).
    { apply (crawl_body_iteration parser results); [by rewrite Hq|by rewrite Hbody]. }
    assert (Hcfg := iteration_config _ _ Hit).
    assert (∃ fuel,
      (∃ m', final (crawl_loop fuel parser (VInt N) results1 m1) = Some m') ∧
      (well_typed (config (self m1)) → cooperative →
       ∃ results' m', crawl_loop fuel parser (VInt N) results1 m1 = Ret results' m'))
      as (fuel & Hfin & Hret).
    { destruct Hit as [u' rest' evs Hq' _ Hself _ _ _ _
                      |u' rest' new evs _ Hv _ _ _ Hvis _ _ _ _ _ _].
      - rewrite Hq in Hq'. injection Hq' as <- <-. cbn in Hb.
        apply (IHb (length rest)); [lia| |by rewrite Hself].
        unfold visited_count in *. rewrite Hself. cbn. done.
      - apply (IHa (Z.to_nat (N - visited_count m1)) ltac:(
          unfold visited_count in *; rewrite Hvis, size_union, size_singleton by set_solver;
          lia) (length (urls_to_visit (self m1)))); lia. }
    exists (S fuel). rewrite crawl_loop_step, Hq. cbn [py_int_lt].
    rewrite (proj2 (Z.ltb_lt _ _) Hlt), Hbody. split; [done|].
    rewrite <- Hcfg. done.
  - exists 1%nat. rewrite crawl_loop_step, Hq. cbn [py_int_lt].
    rewrite (proj2 (Z.ltb_lt _ _) Hlt), Hbody. split; [by eauto|].
    intros Hwt Hco.
    destruct (crawl_body_well_typed parser results m Hwt Hco) as (r & m' & Heq);
      [by rewrite Hq|]. congruence.
  - destruct (crawl_body_returns_or_raises parser results m) as [m' Hm'].
    by rewrite Hbody in Hm'.
Qed.

End Termination.


(** ** The domain filter and the single page mode *)

Section FilterFacts.
Context `{P : Parser}.

(** A crawl only fetches URLs the filter said yes to. *)
Lemma crawl_fetches_only_allowed (s : WebScraper) (w : World) (fuel : nat)
    (start_url : string) (max_pages : pyval) (m' : Machine) :
  final (crawl fuel start_url max_pages (boot s w)) = Some m' →
  ∀ x, x ∈ fetched (trace m') → domain_allowed (config s) x = Ok true.
Proof.
  intros Hfin. rewrite crawl_eq in Hfin.
  eapply (crawl_loop_invariant
            (fun m => config (self m) = config s ∧
                      ∀ x, x ∈ fetched (trace m) → domain_allowed (config s) x = Ok true))
    in Hfin; [by destruct Hfin| |].
  - intros m1 m2 [Hc HI] _ _ Hit. split; [by rewrite (iteration_config _ _ Hit)|].
    destruct Hit as [u rest evs _ _ _ _ Ht Hf _
                    |u rest new evs _ _ Ha _ _ _ _ _ _ Ht Hf _];
      rewrite Ht, fetched_app, Hf.
    + by rewrite app_nil_r.
    + intros x Hx. apply elem_of_app in Hx as [Hx|Hx]; [by apply HI|].
      apply list_elem_of_singleton in Hx as ->. by rewrite <- Hc.
  - split; [done|]. intros x Hx. by apply elem_of_nil in Hx.
Qed.



Lemma scrape_single_page_eq (url : string) (m : Machine) :
  scrape_single_page url m =
    let rw := session_get (session (self m)) url
                (Config.get "timeout" (VInt 30) (config (self m))) (world m) in
    let m1 := with_world (snd rw) (with_events [EvFetch url] m) in
    if html_truthy (page_of (fst rw))
    then
      match parse (HTMLParser (config (self m)))
              (default "" (page_of (fst rw))) url (snd rw) with
      | Ok page_data => Ret (Some page_data) (with_events [EvParse url] m1)
      | Err e => Raise e (with_events [EvParse url] m1)
      end
    else Ret None m1.
Proof.
  unfold scrape_single_page, bind at 1, get_self at 1, bind at 1.
  rewrite fetch_page_eq. cbn zeta. cbn iota beta.
  destruct (html_truthy _); [|done].
  unfold bind, parser_parse, bind, emit, get_world, lift, ret.
  cbn [world with_events with_world]. by destruct (parse _ _ _ _).
Qed.

End FilterFacts.

(** * The properties of the specification *)

Section CrawlProperties.
Context `{P : Parser}.

(** C1. No URL is fetched twice in a crawl run.  For a run of [crawl] on
    any scraper object [s] in any world, however it ends: the fetch
    attempts of the run are pairwise distinct, every fetched URL is in the
    visited set and was not in it before the run, nothing leaves the
    visited set, and the queue holds no URL twice.  The three mechanisms:
    (1) an iteration that makes a fetch attempt for a URL ends with that
    URL in the visited set, whatever the attempt gave and however the
    iteration ends, and what the iteration does after the request (the
    block under [if html:] and the rate limit) starts with the URL
    already visited; (2) a dequeued URL that is in the visited set is
    dropped with no question to the domain filter and no request (the log
    and the world are unchanged); (3) [_add_links_to_queue] appends only
    links that are neither visited nor queued, each once. *)
Theorem crawl_fetches_each_url_once (s : WebScraper) (w : World) (fuel : nat)
    (start_url : string) (max_pages : pyval) :
  (∀ m', final (crawl fuel start_url max_pages (boot s w)) = Some m' →
     NoDup (fetched (trace m')) ∧
     (∀ x, x ∈ fetched (trace m') →
        x ∈ visited_urls (self m') ∧ (x ∉ visited_urls s)) ∧
     visited_urls s ⊆ visited_urls (self m') ∧
     NoDup (urls_to_visit (self m'))) ∧
  (∀ parser results m m1 evs,
     final (crawl_body parser results m) = Some m1 →
     trace m1 = (trace m ++ evs)%list →
     ∀ x, x ∈ fetched evs → x ∈ visited_urls (self m1)) ∧
  (∀ parser results m u rest,
     urls_to_visit (self m) = u :: rest →
     u ∉ visited_urls (self m) →
     domain_allowed (config (self m)) u = Ok true →
     ∃ r m1,
       crawl_body parser results m =
         (results' <- handle_page parser u (page_of r) results ;;
          rate_limit ;;;
          ret results') m1 ∧
       u ∈ visited_urls (self m1) ∧
       trace m1 = (trace m ++ [EvDomainFilter u; EvFetch u])%list) ∧
  (∀ parser results m u rest,
     urls_to_visit (self m) = u :: rest →
     u ∈ visited_urls (self m) →
     crawl_body parser results m = Ret results (with_queue rest m)) ∧
  (∀ links m, ∃ new,
     _add_links_to_queue links m =
       Ret tt (with_queue (urls_to_visit (self m) ++ new)%list m) ∧
     NoDup new ∧
     ∀ x, x ∈ new →
       x ∈ links ∧ (x ∉ visited_urls (self m)) ∧ (x ∉ urls_to_visit (self m))).
Proof.
  split_and!.
  - intros m' Hfin. rewrite crawl_eq in Hfin.
    eapply (crawl_loop_invariant (fetch_once (visited_urls s))) in Hfin; [done| |].
    + intros m1 m2 HI _ _ Hit. by eapply fetch_once_iteration.
    + unfold fetch_once. cbn. split_and!; [constructor| |done|apply NoDup_singleton].
      intros x Hx. by apply elem_of_nil in Hx.
  - intros parser results m m1 evs Hfin Ht x Hx.
    destruct (urls_to_visit (self m)) as [|u rest] eqn:Hq.
    + unfold crawl_body, bind, get_self in Hfin. rewrite Hq in Hfin.
      cbn in Hfin. injection Hfin as <-.
      rewrite <- (app_nil_r (trace m)) in Ht at 1. apply app_inv_head in Ht as <-.
      by apply elem_of_nil in Hx.
    + apply crawl_body_iteration in Hfin; [|by rewrite Hq].
      destruct Hfin as [u' rest' evs' _ _ _ _ Ht' Hf _
                       |u' rest' new evs' _ _ _ _ _ Hvis _ _ _ Ht' Hf _ _];
        rewrite Ht' in Ht; apply app_inv_head in Ht as ->; rewrite Hf in Hx.
      * by apply elem_of_nil in Hx.
      * apply list_elem_of_singleton in Hx as ->. rewrite Hvis. set_solver.
  - intros parser results m u rest Hq Hv Ha.
    rewrite (crawl_body_eq _ _ _ _ _ Hq). cbn zeta.
    rewrite bool_decide_eq_false_2 by done. rewrite Ha.
    do 2 eexists. split; [reflexivity|]. cbn. split; [set_solver|done].
  - intros parser results m u rest Hq Hv.
    rewrite (crawl_body_eq _ _ _ _ _ Hq). cbn zeta.
    by rewrite bool_decide_eq_true_2.
  - intros links m. rewrite add_links_to_queue_eq.
    destruct (add_links_spec (visited_urls (self m)) links (urls_to_visit (self m)))
      as (new & -> & Hnd & Hnew).
    by exists new.
Qed.

(** The bound of the budget for a crawl entered with any visited set of
    at most [N] elements. *)
Lemma crawl_budget_from (s : WebScraper) (w : World) (fuel : nat)
    (start_url : string) (max_pages : pyval) (N : Z) (m' : Machine) :
  Z.of_nat (size (visited_urls s)) ≤ N →
  effective_budget max_pages (config s) = VInt N →
  final (crawl fuel start_url max_pages (boot s w)) = Some m' →
  visited_count m' ≤ N.
Proof.
  intros H0 HN Hfin. rewrite crawl_eq in Hfin. cbn [boot self config] in Hfin.
  rewrite HN in Hfin.
  eapply (crawl_loop_invariant (fun m => visited_count m ≤ N)) in Hfin; [done| |done].
  intros m1 m2 HI _ Hlt Hit. cbn in Hlt. injection Hlt as Hlt.
  apply Z.ltb_lt in Hlt. by eapply iteration_within_budget.
Qed.

(** The budget at the first crawl of a scraper object.  With a page
    budget [N ≥ 1] the visited set holds at most [N] URLs when the crawl
    of a newly built scraper ends, however it ends; an iteration starts
    only when fewer than [N] URLs are visited, and an iteration adds at
    most one URL to the visited set and removes none.  The bound is not
    one of every crawl: [budget_exceeded_on_reused_scraper] below. *)
Theorem crawl_visits_at_most_budget (c : gmap string pyval) (s : WebScraper)
    (w : World) (fuel : nat) (start_url : string) (max_pages : pyval) (N : Z) :
  WebScraper_init c = Ok s →
  1 ≤ N →
  effective_budget max_pages (config s) = VInt N →
  (∀ m', final (crawl fuel start_url max_pages (boot s w)) = Some m' →
     visited_count m' ≤ N) ∧
  (∀ m m0, crawl_cond (VInt N) m = Ret true m0 → visited_count m < N) ∧
  (∀ parser results m m1,
     final (crawl_body parser results m) = Some m1 →
     visited_urls (self m) ⊆ visited_urls (self m1) ∧
     visited_count m1 ≤ visited_count m + 1).
Proof.
  intros Hinit HN Hbudget. split_and!.
  - intros m' Hfin. eapply crawl_budget_from; [|done|done].
    unfold WebScraper_init in Hinit. destruct (Config.get_headers c); [|done].
    injection Hinit as <-. cbn. rewrite size_empty. lia.
  - intros m m0 Hc. apply crawl_cond_true in Hc as (_ & _ & Hlt).
    cbn in Hlt. injection Hlt as Hlt. by apply Z.ltb_lt.
  - intros parser results m m1 Hfin.
    destruct (urls_to_visit (self m)) as [|u rest] eqn:Hq.
    + unfold crawl_body, bind, get_self in Hfin. rewrite Hq in Hfin.
      cbn in Hfin. injection Hfin as <-. split; [done|lia].
    + apply iteration_visited_mono.
      apply (crawl_body_iteration parser results); [by rewrite Hq|done].
Qed.

(** C3. The crawl loop terminates.  For every start URL, every integer
    page budget and every world and parser, some number of iterations
    brings [crawl] to its end, and more iterations change nothing; when
    the configuration has the expected types (a list of strings for
    [allowed_domains], a number for the delay) and [urlparse], the parser
    and [time.sleep] raise nothing, the end is a normal return. *)
Theorem crawl_terminates (m : Machine) (start_url : string) (max_pages : pyval)
    (N : Z) :
  effective_budget max_pages (config (self m)) = VInt N →
  ∃ fuel,
    (∃ m', final (crawl fuel start_url max_pages m) = Some m') ∧
    (∀ fuel', (fuel ≤ fuel')%nat →
       crawl fuel' start_url max_pages m = crawl fuel start_url max_pages m) ∧
    (well_typed (config (self m)) → cooperative →
     ∃ results m', crawl fuel start_url max_pages m = Ret results m').
Proof.
  intros HN.
  destruct (crawl_loop_terminates (HTMLParser (config (self m))) N
              (Z.to_nat (N - visited_count (with_queue [start_url] m)))
              (length (urls_to_visit (self (with_queue [start_url] m))))
              [] (with_queue [start_url] m)) as (fuel & Hfin & Hret); [lia|lia|].
  exists fuel. rewrite crawl_eq, HN. split_and!; [done| |done].
  intros fuel' Hle. rewrite crawl_eq, HN. apply crawl_loop_fuel; [|done].
  destruct Hfin as [m' Hm']. by destruct (crawl_loop _ _ _ _ _).
Qed.

(** C5, amended.  With [allowed_domains] a list [l] of strings, the
    domain filter answers true when [l] is empty and otherwise exactly
    when the network location of the URL contains an entry of [l] as a
    substring.  The network location [location] is what
    [urlparse(url).netloc] gives: the authority part of the URL as it is
    written, with the user information and the port when the URL has
    them and with its letter case kept; it is not the bare host.  With
    [l = ["example.com"]], a URL whose network location is
    [sub.example.com.evil.test] passes, and so do one whose network
    location is [notexample.com], which contains [example.com], and one
    whose network location is [example.com@evil.test], of host
    [evil.test]; one whose network location is [EXAMPLE.COM] is refused.
    An iteration that dequeues a URL that passes and is not visited
    fetches it; a URL the filter rejects is fetched by no crawl. *)
Theorem domain_filter_is_substring_match (m : Machine) (url location : string)
    (l : list string) :
  Config.get "allowed_domains" (VList []) (config (self m)) = VList (VStr <$> l) →
  netloc url = Ok location →
  ∃ b : bool,
    _is_allowed_domain url m = Ret b (with_events [EvDomainFilter url] m) ∧
    (l = [] → b = true) ∧
    (l ≠ [] →
       (b = true ↔ ∃ a pre post, a ∈ l ∧ location = (pre ++ a ++ post)%string)) ∧
    (l = ["example.com"] → location = "sub.example.com.evil.test" → b = true) ∧
    (l = ["example.com"] → location = "notexample.com" → b = true) ∧
    (l = ["example.com"] → location = "example.com@evil.test" → b = true) ∧
    (l = ["example.com"] → location = "EXAMPLE.COM" → b = false) ∧
    (∀ parser results rest m1,
       b = true →
       urls_to_visit (self m) = url :: rest →
       url ∉ visited_urls (self m) →
       final (crawl_body parser results m) = Some m1 →
       ∃ evs, trace m1 = (trace m ++ evs)%list ∧ fetched evs = [url]) ∧
    (∀ w fuel start_url max_pages m',
       b = false →
       final (crawl fuel start_url max_pages (boot (self m) w)) = Some m' →
       url ∉ fetched (trace m')).
Proof.
  intros Hl Hhost.
  assert (Hd := domain_allowed_strings (config (self m)) url location l Hl Hhost).
  set (b := match l with
            | [] => true
            | _ :: _ => existsb (fun a => str_contains a location) l
            end) in *.
  assert (Hsub : l ≠ [] →
            (b = true ↔ ∃ a pre post, a ∈ l ∧ location = (pre ++ a ++ post)%string)).
  { intros Hne. assert (b = existsb (fun a => str_contains a location) l) as ->
      by (subst b; by destruct l).
    rewrite existsb_exists. split.
    - intros (a & Hin & Ha). apply str_contains_spec in Ha as (pre & post & Ha).
      exists a, pre, post. split; [by apply list_elem_of_In|done].
    - intros (a & pre & post & Hin & Ha). exists a.
      split; [by apply list_elem_of_In|]. apply str_contains_spec. eauto. }
  exists b. split_and!.
  - rewrite is_allowed_domain_eq, Hd. done.
  - intros ->. done.
  - done.
  - intros Hex ->. apply Hsub; [by rewrite Hex|].
    exists "example.com", "sub.", ".evil.test". rewrite Hex.
    split; [by apply list_elem_of_singleton|done].
  - intros Hex ->. apply Hsub; [by rewrite Hex|].
    exists "example.com", "not", "". rewrite Hex.
    split; [by apply list_elem_of_singleton|done].
  - intros Hex ->. apply Hsub; [by rewrite Hex|].
    exists "example.com", "", "@evil.test". rewrite Hex.
    split; [by apply list_elem_of_singleton|done].
  - intros Hex ->. subst b. rewrite Hex. by vm_compute.
  - intros parser results rest m1 Hb Hq Hv Hfin.
    apply crawl_body_iteration in Hfin; [|by rewrite Hq].
    destruct Hfin as [u' rest' evs Hq' [Hv'|Ha'] _ _ _ _ _
                     |u' rest' new evs Hq' _ _ _ _ _ _ _ _ Ht Hf _ _];
      rewrite Hq in Hq'; injection Hq' as <- <-.
    + done.
    + rewrite Hd, Hb in Ha'. done.
    + by exists evs.
  - intros w fuel start_url max_pages m' Hb Hfin Hin.
    apply (crawl_fetches_only_allowed _ _ _ _ _ _ Hfin) in Hin.
    cbn in Hin. rewrite Hd, Hb in Hin. done.
Qed.


(** C7, amended.  The rate limit of an iteration waits exactly when the
    configured delay is positive and the queue is not empty at that
    point; a delay that is zero or negative gives no wait.  In every
    iteration, a wait is for the configured delay, which is positive,
    leaves a non-empty queue behind, and happens at most once and only
    after a fetch attempt of that iteration: an iteration that ends with
    an empty queue has not waited.  In a crawl with a zero or negative
    delay nothing waits. *)
Theorem rate_limit_waits_when_queue_pending (m : Machine) :
  let delay := configured_delay (config (self m)) in
  (py_gt0 delay = Ok true → urls_to_visit (self m) ≠ [] →
     rate_limit m =
       match time_sleep delay (world m) with
       | Ok w' => Ret tt (with_world w' (with_events [EvSleep delay] m))
       | Err e => Raise e (with_events [EvSleep delay] m)
       end) ∧
  (py_gt0 delay = Ok false ∨ urls_to_visit (self m) = [] →
     (∃ b, py_gt0 delay = Ok b) →
     rate_limit m = Ret tt m) ∧
  (∀ parser results m1 evs,
     final (crawl_body parser results m) = Some m1 →
     trace m1 = (trace m ++ evs)%list →
     (∀ d, d ∈ sleeps evs →
        d = delay ∧ py_gt0 d = Ok true ∧ urls_to_visit (self m1) ≠ []) ∧
     (length (sleeps evs) ≤ 1)%nat ∧
     (sleeps evs ≠ [] → fetched evs ≠ []) ∧
     (urls_to_visit (self m1) = [] → sleeps evs = [])) ∧
  (∀ fuel start_url max_pages m',
     py_gt0 delay = Ok false →
     trace m = [] →
     final (crawl fuel start_url max_pages m) = Some m' →
     sleeps (trace m') = []).
Proof.
  cbn zeta. split_and!.
  - intros Hd Hq. rewrite rate_limit_eq. cbn zeta. rewrite Hd.
    by destruct (urls_to_visit (self m)).
  - intros Hor [b Hb]. rewrite rate_limit_eq. cbn zeta. rewrite Hb.
    destruct Hor as [Hd|Hq].
    + rewrite Hb in Hd. by injection Hd as ->.
    + rewrite Hq. by rewrite andb_false_r.
  - intros parser results m1 evs Hfin Ht.
    assert (Hall : (∀ d, d ∈ sleeps evs →
                      d = configured_delay (config (self m)) ∧ py_gt0 d = Ok true ∧
                      urls_to_visit (self m1) ≠ []) ∧
                   (length (sleeps evs) ≤ 1)%nat ∧
                   (sleeps evs ≠ [] → fetched evs ≠ [])).
    { destruct (urls_to_visit (self m)) as [|u rest] eqn:Hq.
      - unfold crawl_body, bind, get_self in Hfin. rewrite Hq in Hfin.
        cbn in Hfin. injection Hfin as <-.
        rewrite <- (app_nil_r (trace m)) in Ht at 1. apply app_inv_head in Ht as <-.
        cbn. split_and!; [|lia|done]. intros d Hd. by apply elem_of_nil in Hd.
      - apply crawl_body_iteration in Hfin; [|by rewrite Hq].
        destruct Hfin as [u' rest' evs' _ _ _ _ Ht' _ Hs
                         |u' rest' new evs' _ _ _ _ _ _ _ _ _ Ht' Hf Hs Hlen];
          rewrite Ht' in Ht; apply app_inv_head in Ht as ->.
        + rewrite Hs. cbn. split_and!; [|lia|done].
          intros d Hd. by apply elem_of_nil in Hd.
        + split_and!; [done|done|]. by rewrite Hf. }
    destruct Hall as (Hsl & Hlen & Hf). split_and!; try done.
    intros Hq. destruct (sleeps evs) as [|d ds] eqn:Hs; [done|].
    destruct (Hsl d) as (_ & _ & Hne); [by left|done].
  - intros fuel start_url max_pages m' Hd Ht Hfin. rewrite crawl_eq in Hfin.
    eapply (crawl_loop_invariant
              (fun m1 => config (self m1) = config (self m) ∧ sleeps (trace m1) = []))
      in Hfin; [by destruct Hfin| |].
    + intros m1 m2 [Hc HI] _ _ Hit. split; [by rewrite (iteration_config _ _ Hit)|].
      destruct Hit as [u rest evs _ _ _ _ Ht' _ Hs
                      |u rest new evs _ _ _ _ _ _ _ _ _ Ht' _ Hs _];
        rewrite Ht', sleeps_app, HI; [by rewrite Hs|].
      cbn. destruct (sleeps evs) as [|d ds]; [done|].
      destruct (Hs d) as (-> & Hpos & _); [by left|].
      rewrite Hc in Hpos. congruence.
    + cbn. by rewrite Ht.
Qed.

(** C8. When the domain filter rejects the dequeued URL, the iteration
    returns the results unchanged and the machine differs only by the
    queue, which has lost that URL, and by the record of the question to
    the filter: the visited set, the world and the configuration are the
    same, there is no request, no parse, no wait and nothing is queued. *)
Theorem rejected_url_is_only_dequeued (parser : pyval) (results : list PageData)
    (m : Machine) (u : string) (rest : list string) :
  urls_to_visit (self m) = u :: rest →
  u ∉ visited_urls (self m) →
  domain_allowed (config (self m)) u = Ok false →
  ∃ m',
    crawl_body parser results m = Ret results m' ∧
    m' = with_events [EvDomainFilter u] (with_queue rest m) ∧
    visited_urls (self m') = visited_urls (self m) ∧
    urls_to_visit (self m') = rest ∧
    config (self m') = config (self m) ∧
    session (self m') = session (self m) ∧
    world m' = world m ∧
    trace m' = (trace m ++ [EvDomainFilter u])%list.
Proof.
  intros Hq Hv Ha. eexists. split_and!.
  - rewrite (crawl_body_eq _ _ _ _ _ Hq). cbn zeta.
    rewrite bool_decide_eq_false_2 by done. by rewrite Ha.
  - done.
  - done.
  - done.
  - done.
  - done.
  - done.
  - done.
Qed.


End CrawlProperties.

Section MainProperties.
Import Main.

Lemma set_lookup (k : string) (v : pyval) (c : gmap string pyval) :
  Config.set k v c !! k = Some v.
Proof. apply lookup_insert_eq. Qed.

Lemma set_lookup_other (k k' : string) (v : pyval) (c : gmap string pyval) :
  k ≠ k' → Config.set k' v c !! k = c !! k.
Proof. intros Hne. unfold Config.set. by rewrite lookup_insert_ne. Qed.

Lemma set_custom_selector_other (k : string) (v : pyval) (c c' : gmap string pyval) :
  k ≠ "selectors" → set_custom_selector v c = Ok c' → c' !! k = c !! k.
Proof.
  intros Hne. unfold set_custom_selector.
  destruct (c !! "selectors") as [[]|]; try done.
  intros [= <-]. by rewrite lookup_insert_ne.
Qed.

Lemma init_of_config_argument (fs : Config.FileSystem) (path : string) :
  (if truthy (opt_str (Some path))
   then Config.init fs (Some (string_of (opt_str (Some path))))
   else Config.init fs None) = Config.init fs (Some path).
Proof.
  cbn [opt_str truthy string_of]. destruct (String.eqb path "") eqn:Hp; [|done].
  apply String.eqb_eq in Hp as ->. reflexivity.
Qed.

(** C10. Run with a configuration file and without [--max-pages],
    [--delay], [--timeout] and [-o], the program works with 10 pages, a
    delay of 2 (equal to 2.0), a timeout of 30 and the format [json],
    whatever the file holds: the defaults of the command line are true
    values, so each [if args.x:] test passes and overwrites the setting
    loaded from the file.  The other settings of the file do take effect:
    with no further option on the command line every other key has the
    value [Config(path)] loaded. *)
Theorem cli_defaults_overwrite_config_file (fs : Config.FileSystem)
    (cl : CommandLine) (path : string) (c : gmap string pyval) :
  cl_config cl = Some path →
  cl_max_pages cl = None →
  cl_delay cl = None →
  cl_timeout cl = None →
  cl_output cl = None →
  configure fs (parse_arguments cl) = Ok c →
  c !! "max_pages" = Some (VInt 10) ∧
  c !! "delay_between_requests" = Some (VInt 2) ∧
  py_num_eq (VInt 2) (VFloat 2%float) = true ∧
  c !! "timeout" = Some (VInt 30) ∧
  c !! "output_format" = Some (VStr "json") ∧
  Config.get "max_pages" VNone c = VInt 10 ∧
  Config.get "delay_between_requests" VNone c = VInt 2 ∧
  Config.get "timeout" VNone c = VInt 30 ∧
  Config.get "output_format" VNone c = VStr "json" ∧
  (cl_url cl = None → cl_allowed_domains cl = None → cl_crawl cl = false →
   cl_selector cl = None →
   ∀ k, k ≠ "max_pages" → k ≠ "delay_between_requests" → k ≠ "timeout" →
        k ≠ "output_format" →
        c !! k = Config.init fs (Some path) !! k).
Proof.
  intros Hcfg Hmp Hdelay Htimeout Hout.
  unfold configure, parse_arguments.
  cbn [args_url args_crawl args_max_pages args_delay args_output args_config
       args_selector args_timeout args_allowed_domains].
  rewrite Hmp, Hdelay, Htimeout, Hout, Hcfg, init_of_config_argument.
  change (truthy (VInt 10)) with true. change (truthy (VInt 2)) with true.
  change (truthy (VInt 30)) with true. change (truthy (VStr "json")) with true.
  cbn iota.
  set (c0 := Config.init fs (Some path)).
  set (c1 := if truthy (opt_str (cl_url cl)) then _ else c0).
  set (c2 := Config.set "timeout" _ _).
  set (c3 := if truthy (opt_str (cl_allowed_domains cl)) then _ else c2).
  set (c4 := if cl_crawl cl then _ else c3).
  assert (H2 : ∀ k v, k ≠ "allowed_domains" → k ≠ "follow_links" →
             c2 !! k = Some v → c4 !! k = Some v).
  { intros k v Hk1 Hk2 Hk. subst c4 c3.
    destruct (cl_crawl cl); [rewrite set_lookup_other by done|];
      (destruct (truthy (opt_str (cl_allowed_domains cl)));
         [by rewrite set_lookup_other|done]). }
  assert (H4 : c4 !! "max_pages" = Some (VInt 10) ∧
               c4 !! "delay_between_requests" = Some (VInt 2) ∧
               c4 !! "timeout" = Some (VInt 30) ∧
               c4 !! "output_format" = Some (VStr "json")).
  { split_and!; apply H2; try done; subst c2.
    - rewrite !set_lookup_other by done. apply set_lookup.
    - rewrite !set_lookup_other by done. apply set_lookup.
    - apply set_lookup.
    - rewrite !set_lookup_other by done. apply set_lookup. }
  destruct H4 as (Hm & Hd & Ht & Ho).
  assert (Hc : ∀ k v, k ≠ "selectors" → c4 !! k = Some v →
             (if truthy (opt_str (cl_selector cl))
              then set_custom_selector (opt_str (cl_selector cl)) c4
              else Ok c4) = Ok c → c !! k = Some v).
  { intros k v Hk Hv. destruct (truthy (opt_str (cl_selector cl))).
    - intros Hs. by rewrite (set_custom_selector_other _ _ _ _ Hk Hs).
    - by intros [= <-]. }
  intros Hfinal.
  assert (c !! "max_pages" = Some (VInt 10)) as Hm' by (by eapply Hc).
  assert (c !! "delay_between_requests" = Some (VInt 2)) as Hd' by (by eapply Hc).
  assert (c !! "timeout" = Some (VInt 30)) as Ht' by (by eapply Hc).
  assert (c !! "output_format" = Some (VStr "json")) as Ho' by (by eapply Hc).
  unfold Config.get. rewrite Hm', Hd', Ht', Ho'. split_and!; try done.
  intros Hurl Had Hcrawl Hsel k Hk1 Hk2 Hk3 Hk4.
  subst c4 c3 c2 c1. rewrite Hurl, Had, Hcrawl, Hsel in Hfinal.
  cbn [opt_str truthy] in Hfinal. injection Hfinal as <-.
  by rewrite !set_lookup_other.
Qed.

End MainProperties.


(** * The properties on the lab sites *)

Section LabRuns.
Import Lab.

Lemma ending_final (site : string → get_result) (A : Type)
    (o : @outcome (runtime site) A) :
  ended o = true → final o = Some (ending o).
Proof. unfold ending. by destruct o. Qed.

Lemma scraper_with_init (site : string → get_result)
    (settings : list (string * pyval)) :
  is_ok (@WebScraper_init (runtime site) (config_with settings)) = true →
  @WebScraper_init (runtime site) (config_with settings)
    = Ok (scraper_with site settings).
Proof. unfold scraper_with. by destruct (WebScraper_init _). Qed.

Lemma configured_ok (fs : Config.FileSystem) (args : Main.Namespace) :
  is_ok (Main.configure fs args) = true →
  Main.configure fs args = Ok (Main.configured fs args).
Proof. unfold Main.configured. by destruct (Main.configure fs args). Qed.

Lemma lab_cooperative (site : string → get_result) :
  @cooperative (runtime site) (parser site).
Proof. by split_and!. Qed.

(** The scenario of the specification: budget 3 stops the breadth first
    crawl before [/c]. *)
Example run_test_visits :
  fetched (trace (ending run_test)) =
    ["https://site.test/"; "https://site.test/a"; "https://site.test/b"] ∧
  elements (visited_urls (self (ending run_test))) ≡ₚ
    ["https://site.test/"; "https://site.test/a"; "https://site.test/b"] ∧
  returned run_test =
    Some [("https://site.test/", 1%nat); ("https://site.test/a", 2%nat);
          ("https://site.test/b", 3%nat)].
Proof.
  split_and!; [by vm_compute| |by vm_compute].
  assert (elements (visited_urls (self (ending run_test))) =
          ["https://site.test/a"; "https://site.test/b"; "https://site.test/"])
    as -> by (by vm_compute).
  symmetry.
  apply (Permutation_cons_append ["https://site.test/a"; "https://site.test/b"]).
Qed.

(** The scenario of the specification: the seed answers 404. *)
Example run_not_found :
  let o := @crawl (runtime site_test) (parser site_test) 20 "https://site.test/gone" VNone
             (@boot (runtime site_test) scraper_test 0%nat) in
  returned o = Some [] ∧
  elements (visited_urls (self (ending o))) = ["https://site.test/gone"].
Proof. by vm_compute. Qed.

(** C1 on the lab site. *)
Lemma crawl_fetches_each_url_once_witness :
  final run_test = Some (ending run_test) ∧
  NoDup (fetched (trace (ending run_test))).
Proof.
  assert (Hfin : final run_test = Some (ending run_test))
    by (apply ending_final; vm_compute; reflexivity).
  split; [exact Hfin|].
  exact (proj1 (proj1 (@crawl_fetches_each_url_once (runtime site_test)
                         (parser site_test) scraper_test 0%nat 20%nat
                         "https://site.test/" (VInt 3))
                 (ending run_test) Hfin)).
Defined.

(** The first crawl of the lab site, budget 3. *)
Lemma crawl_visits_at_most_budget_witness :
  @WebScraper_init (runtime site_test) (config_with settings_test) = Ok scraper_test ∧
  1 ≤ 3 ∧
  effective_budget (VInt 3) (config scraper_test) = VInt 3 ∧
  final run_test = Some (ending run_test) ∧
  visited_count (ending run_test) ≤ 3.
Proof.
  assert (Hinit : @WebScraper_init (runtime site_test) (config_with settings_test)
                  = Ok scraper_test)
    by (apply scraper_with_init; vm_compute; reflexivity).
  assert (Hfin : final run_test = Some (ending run_test))
    by (apply ending_final; vm_compute; reflexivity).
  split_and!; [exact Hinit|lia|reflexivity|exact Hfin|].
  exact (proj1 (@crawl_visits_at_most_budget (runtime site_test) (parser site_test)
                  (config_with settings_test) scraper_test 0%nat 20%nat
                  "https://site.test/" (VInt 3) 3 Hinit ltac:(lia) eq_refl)
           (ending run_test) Hfin).
Defined.

(** C3 on the lab site: the configuration is well typed, the lab raises
    nothing, and the crawl returns. *)
Lemma crawl_terminates_witness :
  effective_budget (VInt 3) (config scraper_test) = VInt 3 ∧
  well_typed (config scraper_test) ∧
  @cooperative (runtime site_test) (parser site_test) ∧
  ∃ fuel results m',
    @crawl (runtime site_test) (parser site_test) fuel "https://site.test/" (VInt 3)
      (@boot (runtime site_test) scraper_test 0%nat) = Ret results m'.
Proof.
  assert (Hwt : well_typed (config scraper_test)).
  { split; [exists []|exists false]; vm_compute; reflexivity. }
  split_and!; [reflexivity|exact Hwt|exact (lab_cooperative site_test)|].
  destruct (@crawl_terminates (runtime site_test) (parser site_test)
              (@boot (runtime site_test) scraper_test 0%nat)
              "https://site.test/" (VInt 3) 3 eq_refl) as (fuel & _ & _ & Hret).
  exists fuel. exact (Hret Hwt (lab_cooperative site_test)).
Defined.

(** C4 at a reused scraper.  After the crawl of [run_test] the object
    holds three visited URLs; a second call of [crawl] on it, with the
    same seed and the same budget, starts from them: its loop test fails
    at once, it makes no request and returns nothing.  A third call, with
    a new seed and a budget of one page, does the same and ends with three
    URLs in the visited set. *)
Lemma second_crawl_starts_with_first_visits :
  size (visited_urls (self (ending run_test))) = 3%nat ∧
  returned run_again = Some [] ∧
  trace (ending run_again) = trace (ending run_test) ∧
  urls_to_visit (self (ending run_again)) = ["https://site.test/"] ∧
  returned run_again_one = Some [] ∧
  trace (ending run_again_one) = trace (ending run_test) ∧
  visited_count (ending run_again_one) = 3.
Proof. by vm_compute. Qed.

(** C2 fails at a reused scraper.  The object that the crawl of [run_test]
    leaves holds three visited URLs, since [crawl] creates the queue anew
    and keeps [visited_urls].  A crawl of that object with a new seed and
    a page budget of [1] completes: its loop test [3 < 1] fails at once,
    it makes no request, returns no page and does not visit its seed, and
    at completion the visited set holds three URLs, more than the budget
    of one. *)
Lemma budget_exceeded_on_reused_scraper :
  effective_budget (VInt 1) (config (self (ending run_test))) = VInt 1 ∧
  visited_count (ending run_test) = 3 ∧
  final run_again_one = Some (ending run_again_one) ∧
  returned run_again_one = Some [] ∧
  fetched (trace (ending run_again_one)) = fetched (trace (ending run_test)) ∧
  ("https://site.test/new" ∉ visited_urls (self (ending run_again_one))) ∧
  1 < visited_count (ending run_again_one).
Proof.
  split_and!; [by vm_compute|by vm_compute| |by vm_compute|by vm_compute| |by vm_compute].
  - apply ending_final. by vm_compute.
  - apply (bool_decide_unpack _). vm_compute. exact I.
Qed.

(** C5 as stated fails on [notexample.com]: with
    [allowed_domains = ["example.com"]] the crawl of [site_example]
    fetches the link whose host is [notexample.com]. *)
Lemma notexample_com_is_fetched :
  Config.get "allowed_domains" (VList []) (config scraper_example)
    = VList [VStr "example.com"] ∧
  urlsplit_netloc "https://notexample.com/x" = "notexample.com" ∧
  fetched (trace (ending run_example)) =
    ["https://example.com/"; "https://notexample.com/x";
     "https://sub.example.com.evil.test/y"].
Proof. by vm_compute. Qed.

(** C5, amended, at the URL of [notexample.com]. *)
Lemma domain_filter_is_substring_match_witness :
  Config.get "allowed_domains" (VList []) (config scraper_example)
    = VList (VStr <$> ["example.com"]) ∧
  @netloc (runtime site_example) "https://notexample.com/x" = Ok "notexample.com" ∧
  @_is_allowed_domain (runtime site_example) "https://notexample.com/x"
    (@boot (runtime site_example) scraper_example 0%nat)
  = Ret true (with_events [EvDomainFilter "https://notexample.com/x"]
                (@boot (runtime site_example) scraper_example 0%nat)).
Proof.
  assert (Hl : Config.get "allowed_domains" (VList []) (config scraper_example)
               = VList (VStr <$> ["example.com"])) by (vm_compute; reflexivity).
  assert (Hn : @netloc (runtime site_example) "https://notexample.com/x"
               = Ok "notexample.com") by (vm_compute; reflexivity).
  split_and!; [exact Hl|exact Hn|].
  destruct (@domain_filter_is_substring_match (runtime site_example)
              (parser site_example)
              (@boot (runtime site_example) scraper_example 0%nat)
              "https://notexample.com/x" "notexample.com" ["example.com"] Hl Hn)
    as (b & Hb & _ & _ & _ & Htrue & _).
  rewrite (Htrue eq_refl eq_refl) in Hb. exact Hb.
Defined.


(** C7 as stated fails after the final fetch: under a budget of one page
    the crawl of [site_test] returns after one request, and its last act
    is the wait of the configured two seconds (two links are queued). *)
Lemma wait_after_the_final_fetch :
  returned run_budget_one = Some [("https://site.test/", 1%nat)] ∧
  trace (ending run_budget_one) =
    [EvDomainFilter "https://site.test/"; EvFetch "https://site.test/";
     EvParse "https://site.test/"; EvExtractLinks "https://site.test/";
     EvSleep (VInt 2)] ∧
  urls_to_visit (self (ending run_budget_one)) =
    ["https://site.test/a"; "https://site.test/b"].
Proof. by vm_compute. Qed.

(** C7, amended, at a machine with a queued URL and the default delay. *)
Lemma rate_limit_waits_when_queue_pending_witness :
  let m := machine_mid site_test (scraper_with site_test []) ["https://site.test/a"] in
  py_gt0 (configured_delay (config (self m))) = Ok true ∧
  urls_to_visit (self m) ≠ [] ∧
  @rate_limit (runtime site_test) m =
    Ret tt (@with_world (runtime site_test) 2%nat (with_events [EvSleep (VInt 2)] m)).
Proof.
  cbn zeta.
  set (m := machine_mid site_test (scraper_with site_test []) ["https://site.test/a"]).
  assert (Hd : py_gt0 (configured_delay (config (self m))) = Ok true)
    by (vm_compute; reflexivity).
  assert (Hv : configured_delay (config (self m)) = VInt 2)
    by (vm_compute; reflexivity).
  assert (Hq : urls_to_visit (self m) ≠ []) by (intros Hq; discriminate Hq).
  split_and!; [exact Hd|exact Hq|].
  rewrite <- Hv.
  exact (proj1 (@rate_limit_waits_when_queue_pending (runtime site_test)
                  (parser site_test) m) Hd Hq).
Defined.

(** C8 at a URL of [example.org] under [allowed_domains = ["example.com"]]. *)
Lemma rejected_url_is_only_dequeued_witness :
  let m := machine_mid site_example scraper_example ["https://example.org/z"] in
  @domain_allowed (runtime site_example) (config (self m)) "https://example.org/z"
    = Ok false ∧
  ∃ m', @crawl_body (runtime site_example) (parser site_example) VNone [] m = Ret [] m' ∧
        visited_urls (self m') = visited_urls (self m) ∧
        world m' = world m.
Proof.
  cbn zeta.
  set (m := machine_mid site_example scraper_example ["https://example.org/z"]).
  assert (Ha : @domain_allowed (runtime site_example) (config (self m))
                 "https://example.org/z" = Ok false)
    by (vm_compute; reflexivity).
  split; [exact Ha|].
  destruct (@rejected_url_is_only_dequeued (runtime site_example) (parser site_example)
              VNone [] m "https://example.org/z" [] eq_refl
              ltac:(apply (bool_decide_unpack _); vm_compute; exact I) Ha)
    as (m' & Hbody & _ & Hv & _ & _ & _ & Hw & _).
  exists m'. exact (conj Hbody (conj Hv Hw)).
Defined.


(** C10 with a file that asks for 50 pages, no delay, 5 seconds and CSV. *)
Lemma cli_defaults_overwrite_config_file_witness :
  let args := Main.parse_arguments (Main.only_config "my_config.json") in
  Config.init Main.fs_example (Some "my_config.json") !! "max_pages" = Some (VInt 50) ∧
  Main.action args = Main.Scrape ∧
  Main.configure Main.fs_example args = Ok (Main.configured Main.fs_example args) ∧
  Main.configured Main.fs_example args !! "max_pages" = Some (VInt 10) ∧
  Main.configured Main.fs_example args !! "target_url" = Some (VStr "https://site.test/").
Proof.
  cbn zeta.
  set (args := Main.parse_arguments (Main.only_config "my_config.json")).
  assert (Hc : Main.configure Main.fs_example args
               = Ok (Main.configured Main.fs_example args))
    by (apply configured_ok; vm_compute; reflexivity).
  split_and!; [vm_compute; reflexivity|reflexivity|exact Hc| |vm_compute; reflexivity].
  exact (proj1 (cli_defaults_overwrite_config_file Main.fs_example
                  (Main.only_config "my_config.json") "my_config.json"
                  (Main.configured Main.fs_example args)
                  eq_refl eq_refl eq_refl eq_refl eq_refl Hc)).
Defined.

End LabRuns.


(** * Further properties of the code *)

(** ** The requests, the records and the waits of a crawl *)

Section CrawlAccounts.
Context `{P : Parser}.

(** A property of the results and the machine that every iteration
    preserves holds when the loop returns. *)
Lemma crawl_loop_returns (I : list PageData → Machine → Prop)
    (parser max_pages : pyval) :
  (∀ results m results' m', I results m →
     urls_to_visit (self m) ≠ [] →
     py_int_lt (visited_count m) max_pages = Ok true →
     crawl_body parser results m = Ret results' m' → I results' m') →
  ∀ fuel results m results' m',
    I results m →
    crawl_loop fuel parser max_pages results m = Ret results' m' → I results' m'.
Proof.
  intros Hstep. induction fuel as [|fuel IH]; intros results m results' m' HI; [done|].
  rewrite crawl_loop_step.
  destruct (urls_to_visit (self m)) as [|u rest] eqn:Hq; [by intros [= <- <-]|].
  destruct (py_int_lt _ _) as [[|]|e] eqn:Hlt; [|by intros [= <- <-]|done].
  destruct (crawl_body parser results m) as [results1 m1|e m1|] eqn:Hbody; [|done|done].
  apply IH. apply (Hstep results m); try done. by rewrite Hq.
Qed.

(** The same for a property of the machine alone, with the iteration
    given by the run of the loop body. *)
Lemma crawl_loop_invariant_body (I : Machine → Prop) (parser max_pages : pyval) :
  (∀ results m m', I m →
     urls_to_visit (self m) ≠ [] →
     py_int_lt (visited_count m) max_pages = Ok true →
     final (crawl_body parser results m) = Some m' → I m') →
  ∀ fuel results m m',
    I m → final (crawl_loop fuel parser max_pages results m) = Some m' → I m'.
Proof.
  intros Hstep. induction fuel as [|fuel IH]; intros results m m' HI; [done|].
  rewrite crawl_loop_step.
  destruct (urls_to_visit (self m)) as [|u rest] eqn:Hq; [by intros [= <-]|].
  destruct (py_int_lt _ _) as [[|]|e] eqn:Hlt; try by intros [= <-].
  destruct (crawl_body parser results m) as [results' m1|e m1|] eqn:Hbody; [| |done].
  - apply IH. apply (Hstep results m); try done; [by rewrite Hq|by rewrite Hbody].
  - intros [= <-]. apply (Hstep results m); try done; [by rewrite Hq|by rewrite Hbody].
Qed.

(** The block under [if html:] appends at most one record, and none
    without a page. *)
Lemma handle_page_records (parser : pyval) (u : string) (html : option string)
    (results r : list PageData) (m m' : Machine) :
  handle_page parser u html results m = Ret r m' →
  ∃ pages, r = (results ++ pages)%list ∧ (length pages ≤ 1)%nat ∧
           (html_truthy html = false → pages = []).
Proof.
  rewrite handle_page_eq. destruct (html_truthy html); cbn zeta.
  - destruct (parse _ _ _ _) as [page|e]; [|done].
    destruct (truthy _).
    + destruct (extract_links _ _); [|done].
      intros [= <- _]. exists [page]. by split_and!.
    + intros [= <- _]. exists [page]. by split_and!.
  - intros [= <- _]. exists []. rewrite app_nil_r. split_and!; try done. cbn. lia.
Qed.

(** An iteration that returns has appended at most as many records as it
    has made requests. *)
Lemma crawl_body_records (parser : pyval) (results results' : list PageData)
    (m m' : Machine) :
  urls_to_visit (self m) ≠ [] →
  crawl_body parser results m = Ret results' m' →
  ∃ pages evs,
    results' = (results ++ pages)%list ∧
    trace m' = (trace m ++ evs)%list ∧
    (length pages ≤ length (fetched evs))%nat.
Proof.
  intros Hne Hbody.
  assert (Hit : iteration m m').
  { apply (crawl_body_iteration parser results); [done|by rewrite Hbody]. }
  destruct Hit as [u rest evs Hq Hskip _ _ Ht Hf _
                  |u rest new evs Hq Hv Ha _ _ _ _ _ _ Ht Hf _ _];
    rewrite (crawl_body_eq _ _ _ _ _ Hq) in Hbody; cbn zeta in Hbody.
  - exists [], evs. rewrite app_nil_r. split_and!; [|done|cbn; lia].
    case_bool_decide as Hvis; [by injection Hbody as <- _|].
    destruct Hskip as [?|Hna]; [done|].
    destruct (domain_allowed _ _) as [[|]|e]; [done| |done].
    by injection Hbody as <- _.
  - rewrite bool_decide_eq_false_2 in Hbody by done. rewrite Ha in Hbody.
    unfold bind at 1 in Hbody.
    destruct (handle_page _ _ _ _ _) as [r m2|e m2|] eqn:Hh; [|done|done].
    apply handle_page_records in Hh as (pages & -> & Hlen & _).
    unfold bind, ret in Hbody.
    destruct (rate_limit m2) as [[] m3|e m3|]; [|done|done].
    injection Hbody as <- _.
    exists pages, evs. rewrite Hf. by split_and!.
Qed.

(** What an iteration does to the visited set, seen from the log. *)
Lemma iteration_visited_fetched (V0 : gset string) (m m' : Machine) :
  iteration m m' →
  visited_urls (self m) = V0 ∪ list_to_set (fetched (trace m)) →
  visited_urls (self m') = V0 ∪ list_to_set (fetched (trace m')).
Proof.
  intros [u rest evs _ _ Hself _ Ht Hf _
         |u rest new evs _ _ _ _ _ Hvis _ _ _ Ht Hf _ _] HI.
  - rewrite Hself, Ht, fetched_app, Hf, app_nil_r. done.
  - rewrite Hvis, Ht, fetched_app, Hf, HI. apply set_eq. intros x.
    rewrite !elem_of_union, !elem_of_list_to_set, elem_of_app, list_elem_of_singleton,
      elem_of_singleton.
    tauto.
Qed.

Lemma iteration_session (m m' : Machine) :
  iteration m m' → session (self m') = session (self m).
Proof.
  intros [u rest evs _ _ Hself _ _ _ _|u rest new evs _ _ _ _ Hs _ _ _ _ _ _ _ _];
    [by rewrite Hself|done].
Qed.

Lemma iteration_sleeps_fetched (m m' : Machine) :
  iteration m m' →
  (length (sleeps (trace m)) ≤ length (fetched (trace m)))%nat →
  (length (sleeps (trace m')) ≤ length (fetched (trace m')))%nat.
Proof.
  intros [u rest evs _ _ _ _ Ht Hf Hs
         |u rest new evs _ _ _ _ _ _ _ _ _ Ht Hf _ Hlen] HI;
    rewrite Ht, sleeps_app, fetched_app, !length_app, Hf; [rewrite Hs|]; cbn; lia.
Qed.

(** X1. The visited set after a crawl is the visited set before it
    together with the URLs of the requests of the crawl, and nothing else;
    the crawl leaves the configuration and the session headers as they
    were.  This holds for every scraper object, world, seed and budget,
    however the crawl ends. *)
Theorem crawl_visited_is_start_plus_fetched (s : WebScraper) (w : World)
    (fuel : nat) (start_url : string) (max_pages : pyval) (m' : Machine) :
  final (crawl fuel start_url max_pages (boot s w)) = Some m' →
  visited_urls (self m') = visited_urls s ∪ list_to_set (fetched (trace m')) ∧
  config (self m') = config s ∧
  session (self m') = session s.
Proof.
  intros Hfin. rewrite crawl_eq in Hfin.
  eapply (crawl_loop_invariant
            (fun m => visited_urls (self m)
                        = visited_urls s ∪ list_to_set (fetched (trace m)) ∧
                      config (self m) = config s ∧ session (self m) = session s))
    in Hfin; [done| |].
  - intros m1 m2 (Hv & Hc & Hs) _ _ Hit. split_and!.
    + by apply (iteration_visited_fetched _ m1).
    + by rewrite (iteration_config _ _ Hit).
    + by rewrite (iteration_session _ _ Hit).
  - cbn. split_and!; [|done|done]. by rewrite union_empty_r_L.
Qed.

(** X2. The crawl of a newly built scraper under an integer budget [N]
    makes at most [N] requests (none when [N] is zero or negative), one
    per visited URL; it waits at most once per request; and the records
    it returns are at most as many as its requests, so at most [N]. *)
Theorem crawl_requests_within_budget (c : gmap string pyval) (s : WebScraper)
    (w : World) (fuel : nat) (start_url : string) (max_pages : pyval) (N : Z) :
  WebScraper_init c = Ok s →
  effective_budget max_pages (config s) = VInt N →
  (∀ m', final (crawl fuel start_url max_pages (boot s w)) = Some m' →
     Z.of_nat (length (fetched (trace m'))) ≤ Z.max 0 N ∧
     length (fetched (trace m')) = size (visited_urls (self m')) ∧
     (length (sleeps (trace m')) ≤ length (fetched (trace m')))%nat) ∧
  (∀ results m', crawl fuel start_url max_pages (boot s w) = Ret results m' →
     (length results ≤ length (fetched (trace m')))%nat ∧
     Z.of_nat (length results) ≤ Z.max 0 N).
Proof.
  intros Hinit HN.
  assert (Hempty : visited_urls s = ∅).
  { unfold WebScraper_init in Hinit. destruct (Config.get_headers c); [|done].
    by injection Hinit as <-. }
  assert (Hreq : ∀ m', final (crawl fuel start_url max_pages (boot s w)) = Some m' →
     Z.of_nat (length (fetched (trace m'))) ≤ Z.max 0 N ∧
     length (fetched (trace m')) = size (visited_urls (self m')) ∧
     (length (sleeps (trace m')) ≤ length (fetched (trace m')))%nat).
  { intros m' Hfin. rewrite crawl_eq in Hfin. cbn [boot self config] in Hfin.
    rewrite HN in Hfin.
    eapply (crawl_loop_invariant
              (fun m => fetch_once ∅ m ∧
                        visited_urls (self m) = ∅ ∪ list_to_set (fetched (trace m)) ∧
                        visited_count m ≤ Z.max 0 N ∧
                        (length (sleeps (trace m)) ≤ length (fetched (trace m)))%nat))
      in Hfin.
    - destruct Hfin as ((Hnd & _) & Hv & Hcount & Hsl).
      assert (Hsize : length (fetched (trace m')) = size (visited_urls (self m'))).
      { rewrite Hv, union_empty_l_L. symmetry. by apply size_list_to_set. }
      split_and!; [|done|done]. rewrite Hsize. exact Hcount.
    - intros m1 m2 (Hfo & Hv & Hcount & Hsl) _ Hlt Hit. split_and!.
      + by eapply fetch_once_iteration.
      + by apply (iteration_visited_fetched _ m1).
      + cbn in Hlt. injection Hlt as Hlt. apply Z.ltb_lt in Hlt.
        pose proof (iteration_within_budget N _ _ Hlt Hit). lia.
      + by apply (iteration_sleeps_fetched m1).
    - unfold fetch_once, visited_count. cbn. rewrite Hempty.
      split_and!; [constructor| |done|apply NoDup_singleton| | |lia].
      + intros x Hx. by apply elem_of_nil in Hx.
      + by rewrite union_empty_l_L.
      + rewrite size_empty. lia. }
  split; [exact Hreq|].
  intros results m' Hret.
  assert (Hlen : (length results ≤ length (fetched (trace m')))%nat).
  { rewrite crawl_eq in Hret.
    eapply (crawl_loop_returns
              (fun r m => (length r ≤ length (fetched (trace m)))%nat)) in Hret;
      [done| |cbn; lia].
    intros r1 m1 r2 m2 HI Hne _ Hbody.
    apply crawl_body_records in Hbody as (pages & evs & -> & -> & Hlen); [|done].
    rewrite fetched_app, !length_app. lia. }
  split; [done|].
  destruct (Hreq m') as (Hb & _); [by rewrite Hret|]. lia.
Qed.

End CrawlAccounts.

(** ** Crawls that end early, pages without a body *)

Section CrawlEdges.
Context `{P : Parser}.

(** X3. A crawl that may fetch nothing returns the empty list at once.
    When the budget is not above the number of URLs already visited (a
    zero or negative budget, for one), the loop test fails: no question to
    the filter, no request, and the seed stays in the queue.  When the
    seed is already visited, or the domain filter rejects it, the one
    iteration drops it and the crawl returns with an empty queue, having
    made no request. *)
Theorem crawl_makes_no_request (m : Machine) (start_url : string)
    (max_pages : pyval) (fuel : nat) :
  let budget := effective_budget max_pages (config (self m)) in
  (py_int_lt (visited_count m) budget = Ok false →
     crawl (S fuel) start_url max_pages m = Ret [] (with_queue [start_url] m)) ∧
  (∀ N, budget = VInt N → N ≤ 0 →
     crawl (S fuel) start_url max_pages m = Ret [] (with_queue [start_url] m)) ∧
  (py_int_lt (visited_count m) budget = Ok true →
   start_url ∈ visited_urls (self m) →
     crawl (S (S fuel)) start_url max_pages m = Ret [] (with_queue [] m)) ∧
  (py_int_lt (visited_count m) budget = Ok true →
   start_url ∉ visited_urls (self m) →
   domain_allowed (config (self m)) start_url = Ok false →
     crawl (S (S fuel)) start_url max_pages m
       = Ret [] (with_events [EvDomainFilter start_url] (with_queue [] m))).
Proof.
  cbn zeta.
  assert (Hstop : py_int_lt (visited_count m)
                    (effective_budget max_pages (config (self m))) = Ok false →
            crawl (S fuel) start_url max_pages m = Ret [] (with_queue [start_url] m)).
  { intros Hlt. rewrite crawl_eq, crawl_loop_step. cbn [with_queue self urls_to_visit].
    change (visited_count (with_queue [start_url] m)) with (visited_count m).
    by rewrite Hlt. }
  split_and!.
  - exact Hstop.
  - intros N HN Hle. apply Hstop. rewrite HN. cbn. f_equal.
    apply Z.ltb_ge. unfold visited_count. lia.
  - intros Hlt Hv. rewrite crawl_eq, crawl_loop_step. cbn [with_queue self urls_to_visit].
    change (visited_count (with_queue [start_url] m)) with (visited_count m).
    rewrite Hlt.
    rewrite (crawl_body_eq _ _ (with_queue [start_url] m) start_url [] eq_refl).
    cbn zeta. cbn [with_queue self visited_urls].
    rewrite bool_decide_eq_true_2 by done. by rewrite crawl_loop_step.
  - intros Hlt Hv Ha. rewrite crawl_eq, crawl_loop_step.
    cbn [with_queue self urls_to_visit].
    change (visited_count (with_queue [start_url] m)) with (visited_count m).
    rewrite Hlt.
    rewrite (crawl_body_eq _ _ (with_queue [start_url] m) start_url [] eq_refl).
    cbn zeta. cbn [with_queue self visited_urls config].
    rewrite bool_decide_eq_false_2 by done. rewrite Ha. by rewrite crawl_loop_step.
Qed.

(** X4. [crawl] does not catch what the domain filter raises.  When the
    budget lets the loop start and the filter raises on the seed (a
    [TypeError] for an [allowed_domains] entry that is not a string, or
    whatever [urlparse] raises), the crawl ends with that exception before
    any request: the log holds the question to the filter and nothing
    else is done.  A first entry that is a number, [None], a list or a
    dictionary is such a case, and so is a URL [urlparse] refuses when
    [allowed_domains] is not empty. *)
Theorem crawl_propagates_filter_exception (m : Machine) (start_url : string)
    (max_pages : pyval) (fuel : nat) (e : exn) :
  py_int_lt (visited_count m) (effective_budget max_pages (config (self m))) = Ok true →
  start_url ∉ visited_urls (self m) →
  domain_allowed (config (self m)) start_url = Err e →
  crawl (S fuel) start_url max_pages m
    = Raise e (with_events [EvDomainFilter start_url] (with_queue [] m)) ∧
  (∀ c url host v l,
     Config.get "allowed_domains" (VList []) c = VList (v :: l) →
     netloc url = Ok host →
     (∀ a, v ≠ VStr a) →
     domain_allowed c url = Err TypeError) ∧
  (∀ c url e',
     truthy (Config.get "allowed_domains" (VList []) c) = true →
     netloc url = Err e' →
     domain_allowed c url = Err e').
Proof.
  intros Hlt Hv Ha. split_and!.
  - rewrite crawl_eq, crawl_loop_step. cbn [with_queue self urls_to_visit].
    change (visited_count (with_queue [start_url] m)) with (visited_count m).
    rewrite Hlt.
    rewrite (crawl_body_eq _ _ (with_queue [start_url] m) start_url [] eq_refl).
    cbn zeta. cbn [with_queue self visited_urls config].
    rewrite bool_decide_eq_false_2 by done. by rewrite Ha.
  - intros c url host v l Hl Hhost Hns. unfold domain_allowed. rewrite Hl, Hhost.
    cbn. destruct v as [| | | |a| |]; try done. by destruct (Hns a).
  - intros c url e' Ht He. unfold domain_allowed. by rewrite Ht, He.
Qed.

(** Without [follow_links] an iteration leaves the rest of the queue. *)
Lemma crawl_body_no_follow (parser : pyval) (results : list PageData)
    (m m' : Machine) (u : string) (rest : list string) :
  truthy (Config.get "follow_links" (VBool false) (config (self m))) = false →
  urls_to_visit (self m) = u :: rest →
  final (crawl_body parser results m) = Some m' →
  urls_to_visit (self m') = rest.
Proof.
  intros Hfollow Hq. rewrite (crawl_body_eq _ _ _ _ _ Hq). cbn zeta.
  case_bool_decide; [by intros [= <-]|].
  destruct (domain_allowed _ _) as [[|]|e]; [|by intros [= <-]|by intros [= <-]].
  unfold bind at 1. rewrite handle_page_eq.
  set (m1 := snd (attempt u (with_queue rest m))).
  assert (Hq1 : urls_to_visit (self m1) = rest) by done.
  assert (Hc1 : config (self m1) = config (self m)) by done.
  assert (Hrl : ∀ (r : list PageData) m2, urls_to_visit (self m2) = rest →
            final ((rate_limit ;;; ret r) m2) = Some m' → urls_to_visit (self m') = rest).
  { intros r m2 Hq2. destruct (rate_limit_spec m2) as (evs & m3 & Hfin & Hself & _).
    unfold bind, ret. destruct (rate_limit m2) as [[] m3'|e m3'|]; [| |done];
      cbn in Hfin; injection Hfin as ->; cbn; intros [= <-]; by rewrite Hself. }
  destruct (html_truthy _); cbn zeta; [|by apply Hrl].
  destruct (parse _ _ _ _) as [page|e]; [|by intros [= <-]].
  rewrite Hc1, Hfollow. by apply Hrl.
Qed.

(** X5. With [follow_links] false a crawl makes at most one request, for
    the seed, and returns at most one record, whatever links the page
    has; the queue never grows. *)
Theorem crawl_without_follow_links (s : WebScraper) (w : World) (fuel : nat)
    (start_url : string) (max_pages : pyval) :
  truthy (Config.get "follow_links" (VBool false) (config s)) = false →
  (∀ m', final (crawl fuel start_url max_pages (boot s w)) = Some m' →
     (fetched (trace m') = [] ∨ fetched (trace m') = [start_url]) ∧
     (urls_to_visit (self m') = [] ∨
      urls_to_visit (self m') = [start_url] ∧ trace m' = [])) ∧
  (∀ results m', crawl fuel start_url max_pages (boot s w) = Ret results m' →
     (length results ≤ 1)%nat).
Proof.
  intros Hfollow.
  assert (Hreq : ∀ m', final (crawl fuel start_url max_pages (boot s w)) = Some m' →
     (fetched (trace m') = [] ∨ fetched (trace m') = [start_url]) ∧
     (urls_to_visit (self m') = [] ∨
      urls_to_visit (self m') = [start_url] ∧ trace m' = [])).
  { intros m' Hfin. rewrite crawl_eq in Hfin.
    eapply (crawl_loop_invariant_body
              (fun m => config (self m) = config s ∧
                        (urls_to_visit (self m) = [start_url] ∧ trace m = [] ∨
                         urls_to_visit (self m) = [] ∧
                         (fetched (trace m) = [] ∨ fetched (trace m) = [start_url]))))
      in Hfin.
    - destruct Hfin as (_ & [[Hq Ht]|[Hq Hf]]).
      + rewrite Ht. split; [by left|by right].
      + split; [done|by left].
    - intros results m1 m2 (Hc & Hcases) Hne _ Hbody.
      destruct Hcases as [[Hq Ht]|[Hq _]]; [|done].
      assert (Hq2 := crawl_body_no_follow _ _ _ _ _ _
                       ltac:(by rewrite Hc) Hq Hbody).
      apply crawl_body_iteration in Hbody; [|done].
      split; [by rewrite (iteration_config _ _ Hbody)|]. right. split; [done|].
      destruct Hbody as [u rest evs Hq' _ _ _ Ht' Hf _
                        |u rest new evs Hq' _ _ _ _ _ _ _ _ Ht' Hf _ _];
        rewrite Ht', Ht; cbn [app]; rewrite Hf; [by left|].
      rewrite Hq in Hq'. injection Hq' as <- <-. by right.
    - cbn. split; [done|]. by left. }
  split; [exact Hreq|].
  intros results m' Hret.
  assert (Hlen : (length results ≤ length (fetched (trace m')))%nat).
  { rewrite crawl_eq in Hret.
    eapply (crawl_loop_returns
              (fun r m => (length r ≤ length (fetched (trace m)))%nat)) in Hret;
      [done| |cbn; lia].
    intros r1 m1 r2 m2 HI Hne _ Hbody.
    apply crawl_body_records in Hbody as (pages & evs & -> & -> & Hlen); [|done].
    rewrite fetched_app, !length_app. lia. }
  destruct (Hreq m') as ([Hf|Hf] & _); [by rewrite Hret| |];
    rewrite Hf in Hlen; cbn in Hlen; lia.
Qed.

(** X6. [scrape_single_page] leaves the scraper object as it was: the URL
    is not marked visited and nothing is queued, so a later crawl fetches
    that URL again.  It makes one request, asks the filter nothing and
    never waits.  It returns [None], without a call of the parser, when
    the request gives no body or an empty one (any status but 200, an
    exception, or 200 with the empty string); for a body that is not
    empty it returns the record of the parser, or raises what the parser
    raises. *)
Theorem scrape_single_page_outcomes (url : string) (m : Machine) :
  let rw := session_get (session (self m)) url
              (Config.get "timeout" (VInt 30) (config (self m))) (world m) in
  let m1 := with_world (snd rw) (with_events [EvFetch url] m) in
  (∀ m', final (scrape_single_page url m) = Some m' →
     self m' = self m ∧
     fetched (trace m') = (fetched (trace m) ++ [url])%list ∧
     filtered (trace m') = filtered (trace m) ∧
     sleeps (trace m') = sleeps (trace m)) ∧
  (html_truthy (page_of (fst rw)) = false →
     scrape_single_page url m = Ret None m1) ∧
  (html_truthy (page_of (fst rw)) = false ↔
     ∀ body, fst rw = Response 200 body → body = "") ∧
  (∀ body, fst rw = Response 200 body → body ≠ "" →
     scrape_single_page url m =
       match parse (HTMLParser (config (self m))) body url (snd rw) with
       | Ok page_data => Ret (Some page_data) (with_events [EvParse url] m1)
       | Err e => Raise e (with_events [EvParse url] m1)
       end).
Proof.
  cbn zeta. rewrite scrape_single_page_eq. cbn zeta.
  destruct (session_get _ _ _ _) as [r w'] eqn:Hget. cbn [fst snd].
  split_and!.
  - intros m'. destruct (html_truthy (page_of r)).
    + destruct (parse _ _ _ _); intros [= <-]; cbn;
        rewrite !fetched_app, !filtered_app, !sleeps_app; cbn;
        by rewrite !app_nil_r.
    + intros [= <-]. cbn. rewrite !fetched_app, !filtered_app, !sleeps_app. cbn.
      by rewrite !app_nil_r.
  - by intros ->.
  - destruct r as [code text|e]; cbn [page_of]; [|done].
    destruct (code =? 200) eqn:Hc; cbn [html_truthy].
    + apply Z.eqb_eq in Hc as ->. rewrite negb_false_iff, String.eqb_eq.
      split; [by intros -> body [= <-]|]. intros Hb. by apply Hb.
    + apply Z.eqb_neq in Hc. split; [|done]. intros _ body [= -> _]. done.
  - intros body -> Hne. cbn [page_of]. cbn [Z.eqb Pos.eqb html_truthy default].
    apply String.eqb_neq in Hne. by rewrite Hne.
Qed.

(** X7. In a crawl, a response with status 200 and an empty body is
    handled like a failed request: the iteration gives nothing to the
    parser, adds no record and queues nothing, but the URL is marked
    visited, so it is not requested again. *)
Theorem empty_body_is_visited_not_parsed (parser : pyval) (results : list PageData)
    (m m1 : Machine) (url : string) (rest : list string) :
  urls_to_visit (self m) = url :: rest →
  url ∉ visited_urls (self m) →
  domain_allowed (config (self m)) url = Ok true →
  fst (session_get (session (self m)) url
         (Config.get "timeout" (VInt 30) (config (self m))) (world m))
    = Response 200 "" →
  final (crawl_body parser results m) = Some m1 →
  urls_to_visit (self m1) = rest ∧
  visited_urls (self m1) = {[url]} ∪ visited_urls (self m) ∧
  parsed (trace m1) = parsed (trace m) ∧
  fetched (trace m1) = (fetched (trace m) ++ [url])%list ∧
  (∀ results' m2, crawl_body parser results m = Ret results' m2 → results' = results).
Proof.
  intros Hq Hv Ha Hr.
  set (m2 := snd (attempt url (with_queue rest m))).
  assert (Hbody : crawl_body parser results m =
                    match rate_limit m2 with
                    | Ret _ m3 => Ret results m3
                    | Raise e m3 => Raise e m3
                    | OutOfFuel => OutOfFuel
                    end).
  { rewrite (crawl_body_eq _ _ _ _ _ Hq). cbn zeta.
    rewrite bool_decide_eq_false_2 by done. rewrite Ha.
    unfold bind at 1. rewrite handle_page_eq.
    unfold attempt at 1. cbn [fst snd with_queue self world session config].
    rewrite Hr. cbn [page_of Z.eqb Pos.eqb html_truthy String.eqb negb]. done. }
  rewrite Hbody.
  destruct (rate_limit_spec m2) as (evs & m3 & Hfin & Hself & Ht & Hevs & _).
  intros Hend.
  assert (m1 = m3) as ->.
  { destruct (rate_limit m2) as [[] ?|? ?|]; cbn in Hfin, Hend; congruence. }
  assert (Hp : ∀ t1 t2, parsed (t1 ++ t2) = (parsed t1 ++ parsed t2)%list).
  { intros t1 t2. induction t1 as [|ev t1 IH]; [done|].
    destruct ev; cbn [app parsed]; rewrite IH; done. }
  rewrite Hself, Ht. subst m2.
  cbn [attempt snd with_visited with_world with_events with_queue self world trace
       config session visited_urls urls_to_visit] in *.
  rewrite !Hp, !fetched_app. split_and!; try done.
  - destruct Hevs as [-> | ->]; cbn; by rewrite !app_nil_r.
  - destruct Hevs as [-> | ->]; cbn; by rewrite !app_nil_r.
  - intros results' m2'. by destruct (rate_limit _) as [[] ?|? ?|]; intros [= <- _].
Qed.

(** The queue [_add_links_to_queue] leaves keeps what was queued. *)
Lemma add_links_keeps (visited : gset string) (links queue : list string) (x : string) :
  x ∈ queue → x ∈ add_links visited queue links.
Proof.
  revert queue. induction links as [|link links IH]; intros queue Hx; [done|].
  cbn [add_links]. apply IH.
  destruct (_ && _); [|done]. apply elem_of_app. by left.
Qed.

(** A link that is neither visited nor queued is queued. *)
Lemma add_links_complete (visited : gset string) (links queue : list string)
    (x : string) :
  x ∈ links → x ∈ visited ∨ x ∈ add_links visited queue links.
Proof.
  revert queue. induction links as [|link links IH]; intros queue Hx;
    [by apply elem_of_nil in Hx|].
  cbn [add_links]. apply elem_of_cons in Hx as [->|Hx]; [|by apply IH].
  destruct (decide (link ∈ visited)) as [Hv|Hv]; [by left|]. right.
  apply add_links_keeps.
  destruct (decide (link ∈ queue)) as [Hin|Hin].
  - rewrite (bool_decide_eq_false_2 (link ∉ queue)) by (intros Hn; by apply Hn).
    by rewrite andb_false_r.
  - rewrite !bool_decide_eq_true_2 by done. cbn. apply elem_of_app. right.
    by apply list_elem_of_singleton.
Qed.

(** Links that are all visited or queued change nothing. *)
Lemma add_links_nothing (visited : gset string) (links queue : list string) :
  (∀ x, x ∈ links → x ∈ visited ∨ x ∈ queue) →
  add_links visited queue links = queue.
Proof.
  induction links as [|link links IH]; intros Hall; [done|].
  cbn [add_links].
  assert (Hc : bool_decide (link ∉ visited) && bool_decide (link ∉ queue) = false).
  { destruct (Hall link) as [Hv|Hin]; [by left| |].
    - by rewrite (bool_decide_eq_false_2 (link ∉ visited)) by (intros Hn; by apply Hn).
    - rewrite (bool_decide_eq_false_2 (link ∉ queue)) by (intros Hn; by apply Hn).
      by rewrite andb_false_r. }
  rewrite Hc. apply IH. intros x Hx. apply Hall. by right.
Qed.

(** The links that are appended come in the order of the page. *)
Lemma add_links_sublist (visited : gset string) (links queue : list string) :
  ∃ new, add_links visited queue links = (queue ++ new)%list ∧ sublist new links.
Proof.
  revert queue. induction links as [|link links IH]; intros queue; cbn [add_links].
  - exists []. by rewrite app_nil_r.
  - destruct (_ && _).
    + destruct (IH (queue ++ [link])%list) as (new & -> & Hsub).
      exists (link :: new). rewrite <- app_assoc. split; [done|].
      by apply sublist_skip.
    + destruct (IH queue) as (new & -> & Hsub). exists new. split; [done|].
      by apply sublist_cons.
Qed.

(** X8. [_add_links_to_queue] loses no link and keeps the order: the
    queue it leaves is the old queue followed by links of the page in the
    order of the page; every link of the page is then visited or queued;
    and a second call with the same links changes nothing. *)
Theorem add_links_to_queue_is_complete_and_idempotent (links : list string)
    (m : Machine) :
  ∃ new,
    _add_links_to_queue links m =
      Ret tt (with_queue (urls_to_visit (self m) ++ new)%list m) ∧
    sublist new links ∧
    (∀ x, x ∈ links →
       x ∈ visited_urls (self m) ∨ x ∈ (urls_to_visit (self m) ++ new)%list) ∧
    (_add_links_to_queue links ;;; _add_links_to_queue links) m =
      _add_links_to_queue links m.
Proof.
  destruct (add_links_sublist (visited_urls (self m)) links (urls_to_visit (self m)))
    as (new & Heq & Hsub).
  assert (Hall : ∀ x, x ∈ links →
            x ∈ visited_urls (self m) ∨ x ∈ (urls_to_visit (self m) ++ new)%list).
  { intros x Hx. rewrite <- Heq. by apply add_links_complete. }
  exists new. split_and!.
  - by rewrite add_links_to_queue_eq, Heq.
  - done.
  - done.
  - unfold bind. rewrite !add_links_to_queue_eq. rewrite Heq.
    cbn [with_queue self visited_urls urls_to_visit].
    rewrite (add_links_nothing _ _ _ Hall). reflexivity.
Qed.

End CrawlEdges.

(** ** config.py *)

Section ConfigProperties.
Context `{R : Runtime}.

Lemma default_user_agent :
  Config.DEFAULT_CONFIG !! "user_agent"
    = Some (VStr "Mozilla/5.0 (Windows NT 10.0; Win64; x64) AppleWebKit/537.36").
Proof. reflexivity. Qed.

(** What [Config.__init__] gives, key by key. *)
Lemma init_lookup (fs : Config.FileSystem) (config_file : option string) (k : string) :
  Config.init fs config_file !! k =
    match config_file with
    | Some path =>
        if String.eqb path "" then Config.DEFAULT_CONFIG !! k
        else
          match fs path with
          | Some d =>
              match d !! k with
              | Some v => Some v
              | None => Config.DEFAULT_CONFIG !! k
              end
          | None => Config.DEFAULT_CONFIG !! k
          end
    | None => Config.DEFAULT_CONFIG !! k
    end.
Proof.
  unfold Config.init, Config.load_from_file, Config.update.
  destruct config_file as [path|]; [|done].
  destruct (String.eqb path ""); [done|]. cbn [negb andb].
  destruct (fs path) as [d|] eqn:Hfs.
  - rewrite bool_decide_eq_true_2 by (by eexists).
    rewrite lookup_union. by destruct (d !! k), (Config.DEFAULT_CONFIG !! k).
  - rewrite bool_decide_eq_false_2; [done|]. by intros [? ?].
Qed.

(** X9. [Config(path)] never loses a default: every key of
    [DEFAULT_CONFIG] is present afterwards, with the value of the file
    when the file has that key and the default value otherwise; keys the
    file adds are kept.  A path that is [None], empty or names no file
    gives the defaults and no error.  In particular [user_agent] is always
    present, so [get_headers] does not raise [KeyError] on such a
    configuration and returns whenever its [headers] entry is a
    dictionary. *)
Theorem config_init_keeps_defaults (fs : Config.FileSystem)
    (config_file : option string) :
  (∀ k, is_Some (Config.DEFAULT_CONFIG !! k) →
        is_Some (Config.init fs config_file !! k)) ∧
  (∀ path d k v, config_file = Some path → path ≠ "" → fs path = Some d →
     d !! k = Some v → Config.init fs config_file !! k = Some v) ∧
  (∀ path d k, config_file = Some path → fs path = Some d → d !! k = None →
     Config.init fs config_file !! k = Config.DEFAULT_CONFIG !! k) ∧
  (config_file = None ∨ config_file = Some "" ∨
   (∃ path, config_file = Some path ∧ fs path = None) →
     Config.init fs config_file = Config.DEFAULT_CONFIG) ∧
  (∀ kvs, Config.get "headers" (VDict []) (Config.init fs config_file) = VDict kvs →
     ∃ headers, Config.get_headers (Config.init fs config_file) = Ok headers).
Proof.
  assert (Hdef : ∀ k, is_Some (Config.DEFAULT_CONFIG !! k) →
                      is_Some (Config.init fs config_file !! k)).
  { intros k Hk. rewrite init_lookup. destruct config_file as [path|]; [|done].
    destruct (String.eqb path ""); [done|].
    destruct (fs path) as [d|]; [|done]. by destruct (d !! k). }
  split_and!.
  - exact Hdef.
  - intros path d k v -> Hne Hfs Hk. rewrite init_lookup.
    apply String.eqb_neq in Hne. by rewrite Hne, Hfs, Hk.
  - intros path d k -> Hfs Hk. rewrite init_lookup.
    destruct (String.eqb path ""); [done|]. by rewrite Hfs, Hk.
  - intros [->|[->|(path & -> & Hfs)]]; [done|done|].
    unfold Config.init. rewrite bool_decide_eq_false_2; [|by rewrite Hfs; intros [? ?]].
    by rewrite andb_false_r.
  - intros kvs Hh. unfold Config.get_headers.
    destruct (Hdef "user_agent") as [ua Hua]; [by rewrite default_user_agent|].
    rewrite Hua, Hh. cbn. by eexists.
Qed.

(** X10. [Config.get], [Config.set] and [Config.update]: a value that
    was set is read back; setting a key leaves every other key alone and
    replaces an earlier value; the default of [get] is used only when the
    key is absent, so a key that is present with the value [None] reads as
    [None]; after [update] a key reads from the updates first.  [set] is
    the [update] with one entry, two updates in a row are the update with
    the second laid over the first, and the update with entries the
    configuration already has changes nothing. *)
Theorem config_get_set_update (k : string) (v d : pyval) (c : gmap string pyval) :
  Config.get k d (Config.set k v c) = v ∧
  (∀ k', k' ≠ k → Config.get k' d (Config.set k v c) = Config.get k' d c) ∧
  (∀ v', Config.set k v (Config.set k v' c) = Config.set k v c) ∧
  (c !! k = None → Config.get k d c = d) ∧
  (c !! k = Some VNone → Config.get k d c = VNone) ∧
  (∀ updates,
     Config.get k d (Config.update updates c) =
       match updates !! k with
       | Some u => u
       | None => Config.get k d c
       end) ∧
  Config.set k v c = Config.update {[k := v]} c ∧
  (∀ u1 u2, Config.update u2 (Config.update u1 c) = Config.update (u2 ∪ u1) c) ∧
  (∀ updates, updates ⊆ c → Config.update updates c = c).
Proof.
  unfold Config.get, Config.set, Config.update. split_and!.
  - by rewrite lookup_insert_eq.
  - intros k' Hne. by rewrite lookup_insert_ne.
  - intros v'. apply insert_insert_eq.
  - by intros ->.
  - by intros ->.
  - intros updates. rewrite lookup_union.
    by destruct (updates !! k), (c !! k).
  - apply insert_union_singleton_l.
  - intros u1 u2. apply (map_union_assoc u2 u1 c).
  - intros updates Hsub. by apply map_subseteq_union.
Qed.

Lemma fold_insert_notin (kvs : list (string * pyval)) (h : gmap string pyval)
    (k : string) :
  k ∉ kvs.*1 →
  fold_left (fun h kv => <[fst kv := snd kv]> h) kvs h !! k = h !! k.
Proof.
  revert h. induction kvs as [|[k' v'] kvs IH]; intros h Hk; [done|].
  cbn [fold_left fst snd]. cbn in Hk. apply not_elem_of_cons in Hk as [Hne Hk].
  rewrite IH by done. by rewrite lookup_insert_ne.
Qed.

Lemma fold_insert_in (kvs : list (string * pyval)) (h : gmap string pyval)
    (k : string) (v : pyval) :
  NoDup kvs.*1 → (k, v) ∈ kvs →
  fold_left (fun h kv => <[fst kv := snd kv]> h) kvs h !! k = Some v.
Proof.
  revert h. induction kvs as [|[k' v'] kvs IH]; intros h Hnd Hin;
    [by apply elem_of_nil in Hin|].
  cbn [fold_left fst snd]. cbn in Hnd. apply NoDup_cons in Hnd as [Hk' Hnd].
  apply elem_of_cons in Hin as [[= -> ->]|Hin].
  - rewrite fold_insert_notin by done. by rewrite lookup_insert_eq.
  - by apply IH.
Qed.

(** X11. [Config.get_headers]: the entries of the [headers] setting win
    over the five built-in headers, [User-Agent] included, and each of
    the five built-in headers that [headers] does not name stays with its
    built-in value: [User-Agent] is the [user_agent] setting, [Accept],
    [Accept-Language], [Accept-Encoding] and [Connection] are the
    constants of the source; the result has no other key.  When the
    configuration has no [user_agent] key the call raises [KeyError],
    also when [headers] brings a [User-Agent]. *)
Theorem get_headers_lets_config_headers_win (c : gmap string pyval) (ua : pyval)
    (kvs : list (string * pyval)) :
  Config.get "headers" (VDict []) c = VDict kvs →
  NoDup kvs.*1 →
  (c !! "user_agent" = None → Config.get_headers c = Err KeyError) ∧
  (c !! "user_agent" = Some ua →
   ∃ headers,
     Config.get_headers c = Ok headers ∧
     (∀ k v, (k, v) ∈ kvs → headers !! k = Some v) ∧
     ("User-Agent" ∉ kvs.*1 → headers !! "User-Agent" = Some ua) ∧
     ("Accept" ∉ kvs.*1 →
      headers !! "Accept" =
        Some (VStr "text/html,application/xhtml+xml,application/xml;q=0.9,*/*;q=0.8")) ∧
     ("Accept-Language" ∉ kvs.*1 →
      headers !! "Accept-Language" = Some (VStr "en-US,en;q=0.5")) ∧
     ("Accept-Encoding" ∉ kvs.*1 →
      headers !! "Accept-Encoding" = Some (VStr "gzip, deflate")) ∧
     ("Connection" ∉ kvs.*1 → headers !! "Connection" = Some (VStr "keep-alive")) ∧
     (∀ k, k ∉ kvs.*1 → k ∉ ["User-Agent"; "Accept"; "Accept-Language";
                               "Accept-Encoding"; "Connection"] →
           headers !! k = None)).
Proof.
  intros Hh Hnd. unfold Config.get_headers. split; [by intros ->|].
  intros ->. rewrite Hh. cbn [Config.dict_update]. eexists. split; [reflexivity|].
  split_and!.
  - intros k v Hin. by apply fold_insert_in.
  - intros Hk. by rewrite fold_insert_notin.
  - intros Hk. by rewrite fold_insert_notin.
  - intros Hk. by rewrite fold_insert_notin.
  - intros Hk. by rewrite fold_insert_notin.
  - intros Hk. by rewrite fold_insert_notin.
  - intros k Hk Hbase. rewrite fold_insert_notin by done.
    apply not_elem_of_list_to_map_1. cbn. exact Hbase.
Qed.

End ConfigProperties.

(** ** main.py: the command line and the filter *)

Section CommandLineProperties.
Context `{P : Parser}.
Import Main.

Lemma configure_eq (fs : Config.FileSystem) (args : Namespace) :
  configure fs args =
    if truthy (args_selector args)
    then set_custom_selector (args_selector args) (overridden fs args)
    else Ok (overridden fs args).
Proof. reflexivity. Qed.

Lemma configure_lookup (fs : Config.FileSystem) (args : Namespace)
    (c : gmap string pyval) (k : string) :
  k ≠ "selectors" → configure fs args = Ok c → c !! k = overridden fs args !! k.
Proof.
  intros Hk. rewrite configure_eq. destruct (truthy (args_selector args)).
  - intros Hs. by rewrite (set_custom_selector_other _ _ _ _ Hk Hs).
  - by intros [= <-].
Qed.

Lemma loaded_of_command_line (fs : Config.FileSystem) (cl : CommandLine) :
  (if truthy (args_config (parse_arguments cl))
   then Config.init fs (Some (string_of (args_config (parse_arguments cl))))
   else Config.init fs None) = Config.init fs (cl_config cl).
Proof.
  cbn [parse_arguments args_config]. destruct (cl_config cl) as [path|]; [|done].
  apply init_of_config_argument.
Qed.

(** An override under its [if args.x:] test, seen from a key. *)
Lemma override_lookup_ne (b : bool) (k k' : string) (v : pyval)
    (c : gmap string pyval) :
  k ≠ k' → (if b then Config.set k' v c else c) !! k = c !! k.
Proof. intros Hne. destruct b; [by apply set_lookup_other|done]. Qed.

Lemma override_lookup_eq (b : bool) (k : string) (v : pyval) (c : gmap string pyval) :
  (if b then Config.set k v c else c) !! k = if b then Some v else c !! k.
Proof. destruct b; [apply set_lookup|done]. Qed.

Ltac overridden_key :=
  unfold overridden; rewrite loaded_of_command_line; cbn zeta;
  repeat first [rewrite override_lookup_ne by done | rewrite override_lookup_eq];
  cbn [parse_arguments args_url args_crawl args_max_pages args_delay args_output
       args_config args_selector args_timeout args_allowed_domains].

Lemma overridden_max_pages (fs : Config.FileSystem) (cl : CommandLine) :
  overridden fs (parse_arguments cl) !! "max_pages" =
    match cl_max_pages cl with
    | Some n => if n =? 0 then Config.init fs (cl_config cl) !! "max_pages"
                else Some (VInt n)
    | None => Some (VInt 10)
    end.
Proof.
  overridden_key. destruct (cl_max_pages cl) as [n|]; [|done].
  cbn [truthy]. by destruct (n =? 0).
Qed.

Lemma overridden_timeout (fs : Config.FileSystem) (cl : CommandLine) :
  overridden fs (parse_arguments cl) !! "timeout" =
    match cl_timeout cl with
    | Some n => if n =? 0 then Config.init fs (cl_config cl) !! "timeout"
                else Some (VInt n)
    | None => Some (VInt 30)
    end.
Proof.
  overridden_key. destruct (cl_timeout cl) as [n|]; [|done].
  cbn [truthy]. by destruct (n =? 0).
Qed.

Lemma overridden_delay (fs : Config.FileSystem) (cl : CommandLine) :
  overridden fs (parse_arguments cl) !! "delay_between_requests" =
    match cl_delay cl with
    | Some f => if PrimFloat.eqb f 0
                then Config.init fs (cl_config cl) !! "delay_between_requests"
                else Some (VFloat f)
    | None => Some (VInt 2)
    end.
Proof.
  overridden_key. destruct (cl_delay cl) as [f|]; [|done].
  cbn [truthy]. by destruct (PrimFloat.eqb f 0).
Qed.

Lemma overridden_follow_links (fs : Config.FileSystem) (cl : CommandLine) :
  overridden fs (parse_arguments cl) !! "follow_links" =
    if cl_crawl cl then Some (VBool true)
    else Config.init fs (cl_config cl) !! "follow_links".
Proof. by overridden_key. Qed.

Lemma overridden_target_url (fs : Config.FileSystem) (cl : CommandLine) :
  overridden fs (parse_arguments cl) !! "target_url" =
    match cl_url cl with
    | Some u => if String.eqb u "" then Config.init fs (cl_config cl) !! "target_url"
                else Some (VStr u)
    | None => Config.init fs (cl_config cl) !! "target_url"
    end.
Proof.
  overridden_key. destruct (cl_url cl) as [u|]; [|done].
  cbn [opt_str truthy]. by destruct (String.eqb u "").
Qed.

Lemma overridden_allowed_domains (fs : Config.FileSystem) (cl : CommandLine) :
  overridden fs (parse_arguments cl) !! "allowed_domains" =
    match cl_allowed_domains cl with
    | Some s =>
        if String.eqb s "" then Config.init fs (cl_config cl) !! "allowed_domains"
        else Some (VList (VStr <$> (strip <$> split_commas "" s)))
    | None => Config.init fs (cl_config cl) !! "allowed_domains"
    end.
Proof.
  overridden_key. destruct (cl_allowed_domains cl) as [s|]; [|done].
  cbn [opt_str truthy string_of]. destruct (String.eqb s ""); [done|].
  cbn [negb]. by rewrite <- list_fmap_compose.
Qed.

Lemma overridden_selectors (fs : Config.FileSystem) (cl : CommandLine) :
  overridden fs (parse_arguments cl) !! "selectors" =
    Config.init fs (cl_config cl) !! "selectors".
Proof. by overridden_key. Qed.

Lemma str_contains_empty (host : string) : str_contains "" host = true.
Proof. by destruct host. Qed.

Lemma domain_allowed_empty_entry (c : gmap string pyval) (url host : string)
    (l : list string) :
  Config.get "allowed_domains" (VList []) c = VList (VStr <$> l) →
  "" ∈ l →
  netloc url = Ok host →
  domain_allowed c url = Ok true.
Proof.
  intros Hl Hin Hhost. rewrite (domain_allowed_strings _ _ _ _ Hl Hhost).
  destruct l as [|a l]; [by apply elem_of_nil in Hin|]. f_equal. apply existsb_exists.
  exists "". split; [by apply list_elem_of_In|apply str_contains_empty].
Qed.

Lemma append_comma_not_empty (s : string) : String.eqb (s ++ ",")%string "" = false.
Proof. by destruct s. Qed.

Lemma split_commas_trailing (s acc : string) :
  "" ∈ split_commas acc (s ++ ",")%string.
Proof.
  revert acc. induction s as [|ch s IH]; intros acc.
  - rewrite append_empty. cbn. apply elem_of_cons. right. by apply elem_of_cons; left.
  - rewrite append_cons. cbn [split_commas].
    destruct (nat_of_ascii ch =? 44)%nat; [|apply IH].
    apply elem_of_cons. right. apply IH.
Qed.

(** X12. A trailing comma in [--allowed-domains] switches the domain
    filter off.  [split(',')] gives an empty last piece, the empty string
    is kept in the list, and the empty string is contained in every host:
    with [--allowed-domains "example.com,"] the filter answers true for
    every URL that [urlparse] accepts. *)
Theorem trailing_comma_disables_domain_filter (fs : Config.FileSystem)
    (cl : CommandLine) (domains : string) (c : gmap string pyval) :
  cl_allowed_domains cl = Some (domains ++ ",")%string →
  configure fs (parse_arguments cl) = Ok c →
  (∃ l, Config.get "allowed_domains" (VList []) c = VList (VStr <$> l) ∧ "" ∈ l) ∧
  (∀ url host, netloc url = Ok host → domain_allowed c url = Ok true).
Proof.
  intros Had Hc.
  assert (Hl : Config.get "allowed_domains" (VList []) c
               = VList (VStr <$> (strip <$> split_commas "" (domains ++ ",")%string))).
  { unfold Config.get.
    rewrite (configure_lookup _ _ _ "allowed_domains" ltac:(done) Hc).
    by rewrite overridden_allowed_domains, Had, append_comma_not_empty. }
  assert (Hin : "" ∈ strip <$> split_commas "" (domains ++ ",")%string).
  { apply (list_elem_of_fmap_2' strip _ ""); [apply split_commas_trailing|done]. }
  split; [by eexists|].
  intros url host Hhost. by eapply domain_allowed_empty_entry.
Qed.

Lemma single_char_contained (ch : ascii) (host : string) :
  str_contains (String ch "") host = true ↔ ch ∈ list_ascii_of_string host.
Proof.
  induction host as [|c host IH]; cbn [str_contains String.prefix list_ascii_of_string].
  - split; [done|]. intros Hin. by apply elem_of_nil in Hin.
  - rewrite orb_true_iff, IH, elem_of_cons.
    destruct (ascii_dec ch c) as [->|Hne].
    + split; [by left|]. intros _. left. by destruct host.
    + split; [intros [?|?]; [done|by right]|]. intros [?|?]; [done|by right].
Qed.

Lemma any_in_chars (host s : string) :
  any_in host (chars s) =
    Ok (existsb (fun ch => str_contains (String ch "") host) (list_ascii_of_string s)).
Proof.
  induction s as [|ch s IH]; [done|].
  cbn [chars any_in list_ascii_of_string existsb]. rewrite IH.
  by destruct (str_contains (String ch "") host).
Qed.

(** X13. An [allowed_domains] setting that is a string, not a list of
    strings (as in a configuration file with
    ["allowed_domains": "example.com"]), is read character by character.
    For an ASCII string [s] the filter answers true exactly when the
    network location of the URL ([urlparse(url).netloc], with the user
    information and the port when the URL has them) has a character in
    common with [s], so ["example.com"] lets [other.org] through; with the
    empty string the filter is off.  The location needs no such
    hypothesis: a byte below 128 of a UTF-8 text is an ASCII character of
    it. *)
Theorem allowed_domains_string_matches_any_character (c : gmap string pyval)
    (url location s : string) :
  ascii_only s →
  Config.get "allowed_domains" (VList []) c = VStr s →
  netloc url = Ok location →
  ∃ b, domain_allowed c url = Ok b ∧
       (s = "" → b = true) ∧
       (s ≠ "" →
          (b = true ↔
           ∃ ch, ch ∈ list_ascii_of_string s ∧ (nat_of_ascii ch < 128)%nat ∧
                 ch ∈ list_ascii_of_string location)) ∧
       (s = "example.com" → location = "other.org" → b = true).
Proof.
  intros Hascii Hs Hhost.
  assert (Hspec : ∀ s',
            existsb (fun ch => str_contains (String ch "") location)
              (list_ascii_of_string s') = true ↔
            ∃ ch, ch ∈ list_ascii_of_string s' ∧ ch ∈ list_ascii_of_string location).
  { intros s'. rewrite existsb_exists. split.
    - intros (ch & Hin & Hc). exists ch.
      split; [by apply list_elem_of_In|by apply single_char_contained].
    - intros (ch & Hin & Hc). exists ch.
      split; [by apply list_elem_of_In|by apply single_char_contained]. }
  unfold domain_allowed. rewrite Hs. cbn [truthy].
  destruct (String.eqb s "") eqn:He.
  - apply String.eqb_eq in He as ->. exists true. by split_and!.
  - apply String.eqb_neq in He. cbn [negb py_iter]. rewrite Hhost, any_in_chars.
    eexists. split; [reflexivity|]. split_and!; [done| |].
    + intros _. rewrite Hspec. split.
      * intros (ch & Hin & Hc). exists ch. split_and!; [done|by apply Hascii|done].
      * intros (ch & Hin & _ & Hc). by exists ch.
    + intros -> ->. by vm_compute.
Qed.

Lemma configure_selectors (fs : Config.FileSystem) (cl : CommandLine) :
  (∃ d, Config.init fs (cl_config cl) !! "selectors" = Some (VDict d)) →
  ∃ c, configure fs (parse_arguments cl) = Ok c.
Proof.
  intros [d Hd]. rewrite configure_eq.
  destruct (truthy _); [|by eexists].
  unfold set_custom_selector. rewrite overridden_selectors, Hd. by eexists.
Qed.

(** X14. An explicit zero on the command line is not an override.
    [--max-pages 0], [--timeout 0] and [--delay 0] fail the [if args.x:]
    tests, so the value loaded from the configuration file (or the
    default of [Config]) stays: [--delay 0] cannot switch the delay off,
    and without a configuration file the delay is then 2.  Any other
    value given on the command line is the one [main] works with. *)
Theorem zero_flags_are_not_overrides (fs : Config.FileSystem) (cl : CommandLine)
    (c : gmap string pyval) :
  configure fs (parse_arguments cl) = Ok c →
  (cl_max_pages cl = Some 0 →
     c !! "max_pages" = Config.init fs (cl_config cl) !! "max_pages") ∧
  (∀ n, cl_max_pages cl = Some n → n ≠ 0 → c !! "max_pages" = Some (VInt n)) ∧
  (cl_timeout cl = Some 0 →
     c !! "timeout" = Config.init fs (cl_config cl) !! "timeout") ∧
  (∀ n, cl_timeout cl = Some n → n ≠ 0 → c !! "timeout" = Some (VInt n)) ∧
  (∀ f, cl_delay cl = Some f → PrimFloat.eqb f 0 = true →
     c !! "delay_between_requests"
       = Config.init fs (cl_config cl) !! "delay_between_requests") ∧
  (∀ f, cl_delay cl = Some f → PrimFloat.eqb f 0 = false →
     c !! "delay_between_requests" = Some (VFloat f)) ∧
  (∀ f, cl_config cl = None → cl_delay cl = Some f → PrimFloat.eqb f 0 = true →
     configured_delay c = VInt 2 ∧ py_gt0 (configured_delay c) = Ok true).
Proof.
  intros Hc.
  assert (Hdelay : ∀ f, cl_delay cl = Some f → PrimFloat.eqb f 0 = true →
     c !! "delay_between_requests"
       = Config.init fs (cl_config cl) !! "delay_between_requests").
  { intros f Hf H0.
    rewrite (configure_lookup _ _ _ "delay_between_requests" ltac:(done) Hc).
    by rewrite overridden_delay, Hf, H0. }
  split_and!.
  - intros H0. rewrite (configure_lookup _ _ _ "max_pages" ltac:(done) Hc).
    by rewrite overridden_max_pages, H0.
  - intros n Hn Hne. rewrite (configure_lookup _ _ _ "max_pages" ltac:(done) Hc).
    apply Z.eqb_neq in Hne. by rewrite overridden_max_pages, Hn, Hne.
  - intros H0. rewrite (configure_lookup _ _ _ "timeout" ltac:(done) Hc).
    by rewrite overridden_timeout, H0.
  - intros n Hn Hne. rewrite (configure_lookup _ _ _ "timeout" ltac:(done) Hc).
    apply Z.eqb_neq in Hne. by rewrite overridden_timeout, Hn, Hne.
  - exact Hdelay.
  - intros f Hf H0.
    rewrite (configure_lookup _ _ _ "delay_between_requests" ltac:(done) Hc).
    by rewrite overridden_delay, Hf, H0.
  - intros f Hcfg Hf H0. unfold configured_delay, Config.get.
    rewrite (Hdelay f Hf H0), Hcfg. done.
Qed.

(** X15. Without a configuration file [main] always crawls: the default
    of [follow_links] is true and no option sets it to false, so the
    [--crawl] flag changes nothing and [python main.py -u URL] follows
    links up to the page budget, which is the value of [--max-pages] or
    10.  With [--crawl], [main] crawls whatever the file says.  [main]
    scrapes a single page only when the file sets [follow_links] to a
    false value and [--crawl] is absent: in every case [main] crawls
    exactly when [--crawl] is given or the [follow_links] of the loaded
    configuration is a true value (any one, [1] as well as [true]), and
    that value is [True] when the file does not name [follow_links]. *)
Theorem main_crawls_unless_the_file_says_no (fs : Config.FileSystem)
    (cl : CommandLine) (c : gmap string pyval) :
  configure fs (parse_arguments cl) = Ok c →
  (cl_config cl = None ∨ cl_crawl cl = true →
     Config.get "follow_links" VNone c = VBool true ∧
     ∀ fuel target_url m, config (self m) = c →
       main_scrape fuel target_url m
         = crawl fuel target_url (Config.get "max_pages" VNone c) m) ∧
  (cl_config cl = None →
     Config.get "max_pages" VNone c =
       VInt (match cl_max_pages cl with
             | Some n => if n =? 0 then 10 else n
             | None => 10
             end)) ∧
  (cl_crawl cl = false →
   truthy (Config.get "follow_links" VNone (Config.init fs (cl_config cl))) = false →
     ∀ fuel target_url m, config (self m) = c →
       main_scrape fuel target_url m =
         (result <- scrape_single_page target_url ;;
          ret (match result with Some page_data => [page_data] | None => [] end)) m) ∧
  (∀ fuel target_url m, config (self m) = c →
     main_scrape fuel target_url m =
       if cl_crawl cl
          || truthy (Config.get "follow_links" VNone (Config.init fs (cl_config cl)))
       then crawl fuel target_url (Config.get "max_pages" VNone c) m
       else (result <- scrape_single_page target_url ;;
             ret (match result with Some page_data => [page_data] | None => [] end)) m) ∧
  (∀ path d, cl_config cl = Some path → fs path = Some d →
     d !! "follow_links" = None →
     Config.get "follow_links" VNone (Config.init fs (cl_config cl)) = VBool true).
Proof.
  intros Hc.
  assert (Hscrape : ∀ fuel target_url m, config (self m) = c →
            main_scrape fuel target_url m =
              if truthy (Config.get "follow_links" VNone c)
              then crawl fuel target_url (Config.get "max_pages" VNone c) m
              else (result <- scrape_single_page target_url ;;
                    ret (match result with
                         | Some page_data => [page_data]
                         | None => []
                         end)) m).
  { intros fuel target_url m <-. unfold main_scrape, bind at 1, get_self at 1.
    by destruct (truthy _). }
  assert (Hfl : Config.get "follow_links" VNone c =
                if cl_crawl cl then VBool true
                else Config.get "follow_links" VNone (Config.init fs (cl_config cl))).
  { unfold Config.get. rewrite (configure_lookup _ _ _ "follow_links" ltac:(done) Hc).
    rewrite overridden_follow_links. by destruct (cl_crawl cl). }
  split_and!.
  - intros Hor.
    assert (Hf : Config.get "follow_links" VNone c = VBool true).
    { rewrite Hfl. destruct Hor as [->| ->]; [|done]. by destruct (cl_crawl cl). }
    split; [done|]. intros fuel target_url m Hm.
    by rewrite (Hscrape _ _ _ Hm), Hf.
  - intros Hcfg. unfold Config.get.
    rewrite (configure_lookup _ _ _ "max_pages" ltac:(done) Hc).
    rewrite overridden_max_pages, Hcfg.
    destruct (cl_max_pages cl) as [n|]; [|done]. by destruct (n =? 0).
  - intros Hcrawl Hfile fuel target_url m Hm.
    by rewrite (Hscrape _ _ _ Hm), Hfl, Hcrawl, Hfile.
  - intros fuel target_url m Hm. rewrite (Hscrape _ _ _ Hm), Hfl.
    by destruct (cl_crawl cl).
  - intros path d Hcfg Hfs Hd. unfold Config.get.
    rewrite init_lookup, Hcfg, Hfs, Hd. by destruct (String.eqb path "").
Qed.

(** X16. The validation of [main] (lines 144 to 153) and a configuration
    file that does not exist.  The validation takes its [sys.exit(1)]
    exactly when [--generate-config] is absent and neither [-u] nor
    [--config] has a value that is not empty.  Nothing checks that the
    file of [--config] exists: with [--config missing.json] alone the
    validation passes, [main] works with the defaults, and the target is
    [https://example.com], with [follow_links] true.  A validation that
    passes is no promise of success, and the status 1 has other origins:
    with [--selector] and a file whose [selectors] is not a dictionary the
    validation passes and the configuration step raises [TypeError], an
    exception of the [try] block of [main]. *)
Theorem main_accepts_a_missing_config_file (fs : Config.FileSystem)
    (cl : CommandLine) :
  (action (parse_arguments cl) = ExitWithError ↔
     cl_generate_config cl = false ∧
     (cl_url cl = None ∨ cl_url cl = Some "") ∧
     (cl_config cl = None ∨ cl_config cl = Some "")) ∧
  (∀ path, cl_generate_config cl = false → cl_url cl = None →
     cl_config cl = Some path → path ≠ "" → fs path = None →
     action (parse_arguments cl) = Scrape ∧
     ∃ c, configure fs (parse_arguments cl) = Ok c ∧
          Config.get "target_url" VNone c = VStr "https://example.com" ∧
          Config.get "follow_links" VNone c = VBool true) ∧
  (∀ path d v sel, cl_generate_config cl = false →
     cl_config cl = Some path → path ≠ "" → fs path = Some d →
     d !! "selectors" = Some v → (∀ items, v ≠ VDict items) →
     cl_selector cl = Some sel → sel ≠ "" →
     action (parse_arguments cl) = Scrape ∧
     configure fs (parse_arguments cl) = Err TypeError).
Proof.
  assert (Hempty : ∀ o : option string,
            truthy (opt_str o) = false ↔ o = None ∨ o = Some "").
  { intros [u|]; cbn [opt_str truthy]; [|split; [by left|done]].
    rewrite negb_false_iff, String.eqb_eq.
    split; [intros ->; by right|]. by intros [?|[= ->]]. }
  split.
  - unfold action. cbn [parse_arguments args_generate_config args_url args_config].
    destruct (cl_generate_config cl).
    { split; [done|]. by intros [? _]. }
    rewrite <- !Hempty.
    destruct (truthy (opt_str (cl_url cl))), (truthy (opt_str (cl_config cl)));
      cbn; split; try done; by intros (_ & ? & ?).
  - split; [|intros path d v sel Hgen Hcfg Hne Hfs Hd Hv Hsel Hsne; split].
    2:{ unfold action. cbn [parse_arguments args_generate_config args_url args_config].
        rewrite Hgen, Hcfg. cbn [opt_str truthy].
        apply String.eqb_neq in Hne. rewrite Hne. by rewrite andb_false_r. }
    2:{ rewrite configure_eq. cbn [parse_arguments args_selector].
        rewrite Hsel. cbn [opt_str truthy].
        apply String.eqb_neq in Hsne. rewrite Hsne. cbn [negb].
        unfold set_custom_selector.
        rewrite overridden_selectors, init_lookup, Hcfg.
        apply String.eqb_neq in Hne. rewrite Hne, Hfs, Hd.
        destruct v as [| | | | | |items]; try done. by destruct (Hv items). }
    intros path Hgen Hurl Hcfg Hne Hfs.
    assert (Hinit : Config.init fs (cl_config cl) = Config.DEFAULT_CONFIG).
    { rewrite Hcfg. unfold Config.init.
      rewrite bool_decide_eq_false_2; [|by rewrite Hfs; intros [? ?]].
      by rewrite andb_false_r. }
    split.
    + unfold action. cbn [parse_arguments args_generate_config args_url args_config].
      rewrite Hgen, Hurl, Hcfg. cbn [opt_str truthy negb andb].
      apply String.eqb_neq in Hne. by rewrite Hne.
    + destruct (configure_selectors fs cl) as [c Hc].
      { rewrite Hinit. by eexists. }
      exists c. split; [done|]. unfold Config.get.
      rewrite (configure_lookup _ _ _ "target_url" ltac:(done) Hc),
        (configure_lookup _ _ _ "follow_links" ltac:(done) Hc).
      rewrite overridden_target_url, overridden_follow_links, Hurl, Hinit.
      split; [done|]. by destruct (cl_crawl cl).
Qed.

End CommandLineProperties.

(** ** parser.py *)

Section QueueOrigin.
Context `{P : Parser}.



End QueueOrigin.

Section ParserProperties.
Context `{B : Soup}.
#[local] Existing Instance html_parser.



Lemma collect_links_bad_href (base_url href : string) (e : exn)
    (hrefs links0 : list string) :
  href ∈ hrefs → kept_href href → urljoin base_url href = Err e →
  ∃ e', HtmlParser.collect_links base_url hrefs links0 = Err e'.
Proof.
  intros Hin [H1 H2] Hjoin. revert links0.
  induction hrefs as [|h hrefs IH]; intros links0; [by apply elem_of_nil in Hin|].
  cbn [HtmlParser.collect_links].
  destruct (decide (h = href)) as [->|Hne].
  - rewrite H1, H2, Hjoin. by eexists.
  - apply elem_of_cons in Hin as [?|Hin]; [done|].
    destruct (_ || _); [by apply IH|].
    destruct (urljoin base_url h); [by apply IH|by eexists].
Qed.

Lemma collect_links_returns (base_url : string) (hrefs links0 : list string) :
  (∀ href, href ∈ hrefs → kept_href href → is_ok (urljoin base_url href) = true) →
  ∃ links, HtmlParser.collect_links base_url hrefs links0 = Ok links.
Proof.
  revert links0. induction hrefs as [|h hrefs IH]; intros links0 Hall;
    cbn [HtmlParser.collect_links]; [by eexists|].
  destruct (String.prefix "#" h) eqn:H1; cbn [orb].
  { apply IH. intros href Hin. apply Hall. by right. }
  destruct (String.prefix "javascript:" h) eqn:H2.
  { apply IH. intros href Hin. apply Hall. by right. }
  specialize (Hall h ltac:(by left) (conj H1 H2)) as Hh.
  destruct (urljoin base_url h); [|done].
  apply IH. intros href Hin. apply Hall. by right.
Qed.




(** [parse] raises when [extract_links] does. *)
Lemma parse_raises_with_extract_links (selectors : pyval) (html url : string)
    (w : World) (e : exn) :
  HtmlParser.extract_links html url = Err e →
  ∃ e', HtmlParser.parse selectors html url w = Err e'.
Proof.
  intros He. unfold HtmlParser.parse.
  destruct (_extract_title _ _); [|by eexists].
  destruct (_extract_meta_description _); [|by eexists].
  destruct selectors; try by eexists.
  destruct (HtmlParser.extract_selectors _ _ _); [|by eexists].
  rewrite He. by eexists.
Qed.

(** X19. [extract_links] does not catch what [urljoin] raises, and
    [parse] calls [extract_links]: one [href] that [urljoin] refuses makes
    both raise, and the iteration of [crawl] that receives such a page
    ends the crawl with an exception, after the URL is marked visited;
    the records gathered so far are not returned.  When [urljoin] accepts
    every [href] that is looked at, [extract_links] returns. *)
Theorem bad_href_ends_the_crawl (html base_url : string) (hrefs : list string) :
  find_all_href html = Ok hrefs →
  (∀ href e, href ∈ hrefs → kept_href href → urljoin base_url href = Err e →
     (∃ e', HtmlParser.extract_links html base_url = Err e') ∧
     (∀ selectors w, ∃ e', HtmlParser.parse selectors html base_url w = Err e') ∧
     (∀ parser results m rest,
        urls_to_visit (self m) = base_url :: rest →
        base_url ∉ visited_urls (self m) →
        domain_allowed (config (self m)) base_url = Ok true →
        fst (session_get (session (self m)) base_url
               (Config.get "timeout" (VInt 30) (config (self m))) (world m))
          = Response 200 html →
        html ≠ "" →
        ∃ e' m', crawl_body parser results m = Raise e' m' ∧
                 base_url ∈ visited_urls (self m') ∧
                 ∀ fuel max_pages,
                   py_int_lt (visited_count m) max_pages = Ok true →
                   crawl_loop (S fuel) parser max_pages results m = Raise e' m')) ∧
  ((∀ href, href ∈ hrefs → kept_href href → is_ok (urljoin base_url href) = true) →
     ∃ links, HtmlParser.extract_links html base_url = Ok links).
Proof.
  intros Hhrefs. split.
  - intros href e Hin Hk Hjoin.
    assert (Hex : ∃ e', HtmlParser.extract_links html base_url = Err e').
    { unfold HtmlParser.extract_links. rewrite Hhrefs.
      destruct (collect_links_bad_href _ _ _ _ [] Hin Hk Hjoin) as [e' ->].
      by eexists. }
    split; [exact Hex|]. destruct Hex as [e1 He1].
    split; [intros selectors w; by eapply parse_raises_with_extract_links|].
    intros parser results m rest Hq Hv Ha Hr Hne.
    assert (Hbody : ∃ e' m',
              crawl_body parser results m = Raise e' m' ∧
              base_url ∈ visited_urls (self m')).
    { rewrite (crawl_body_eq _ _ _ _ _ Hq). cbn zeta.
      rewrite bool_decide_eq_false_2 by done. rewrite Ha.
      assert (Hp : page_of (fst (attempt base_url (with_queue rest m))) = Some html).
      { unfold attempt. cbn [fst with_queue self world session config].
        by rewrite Hr. }
      unfold bind at 1. rewrite handle_page_eq, Hp.
      cbn [html_truthy default from_option id].
      apply String.eqb_neq in Hne. rewrite Hne. cbn [negb]. cbn zeta.
      destruct (parse_raises_with_extract_links parser html base_url
                  (world (snd (attempt base_url (with_queue rest m)))) e1 He1)
        as [e' He'].
      cbn [parse html_parser]. rewrite He'.
      do 2 eexists. split; [reflexivity|]. cbn. set_solver. }
    destruct Hbody as (e' & m' & Hb & Hvis).
    exists e', m'. split_and!; [done|done|].
    intros fuel max_pages Hlt. by rewrite crawl_loop_step, Hq, Hlt, Hb.
  - intros Hall. unfold HtmlParser.extract_links. rewrite Hhrefs.
    destruct (collect_links_returns base_url hrefs [] Hall) as [links ->].
    by eexists.
Qed.

End ParserProperties.

Section ParserRecords.
Context `{B : Soup}.

Lemma dict_get_set_eq (k : string) (v : pyval) (d : list (string * pyval)) :
  dict_get k (Main.dict_set k v d) = Some v.
Proof.
  induction d as [|[k' v'] d IH]; cbn [Main.dict_set dict_get].
  - by rewrite String.eqb_refl.
  - destruct (String.eqb k' k) eqn:He; cbn [dict_get]; by rewrite He.
Qed.

Lemma dict_get_set_ne (k k' : string) (v : pyval) (d : list (string * pyval)) :
  k ≠ k' → dict_get k (Main.dict_set k' v d) = dict_get k d.
Proof.
  intros Hne. induction d as [|[k0 v0] d IH]; cbn [Main.dict_set dict_get].
  - apply not_eq_sym in Hne. apply String.eqb_neq in Hne. by rewrite Hne.
  - destruct (String.eqb k0 k') eqn:He; cbn [dict_get].
    + apply String.eqb_eq in He as ->.
      apply not_eq_sym in Hne. apply String.eqb_neq in Hne. by rewrite Hne.
    + by rewrite IH.
Qed.

Lemma dict_set_keys (k : string) (v : pyval) (d : list (string * pyval)) :
  (Main.dict_set k v d).*1 = if bool_decide (k ∈ d.*1) then d.*1 else (d.*1 ++ [k])%list.
Proof.
  induction d as [|[k' v'] d IH]; cbn [Main.dict_set]; [done|].
  destruct (String.eqb k' k) eqn:He.
  - apply String.eqb_eq in He as ->. cbn. rewrite bool_decide_eq_true_2; [done|by left].
  - apply String.eqb_neq in He. cbn [fmap list_fmap fst] in *. rewrite IH.
    case_bool_decide as Hin.
    + rewrite bool_decide_eq_true_2; [done|by right].
    + rewrite bool_decide_eq_false_2; [done|].
      intros Hin'. apply elem_of_cons in Hin' as [?|?]; [congruence|done].
Qed.

Lemma dict_set_keys_nodup (k : string) (v : pyval) (d : list (string * pyval)) :
  NoDup d.*1 → NoDup (Main.dict_set k v d).*1.
Proof.
  intros Hnd. rewrite dict_set_keys. case_bool_decide as Hin; [done|].
  apply NoDup_app. split_and!; [done| |apply NoDup_singleton].
  intros x Hx Hx'. apply list_elem_of_singleton in Hx' as ->. done.
Qed.

Lemma extract_selectors_other (html : string) (items : list (string * pyval))
    (data data' : PageRecord) (k : string) :
  HtmlParser.extract_selectors html items data = Ok data' →
  k ∉ items.*1 ∨ ¬ selector_field k →
  dict_get k data' = dict_get k data.
Proof.
  unfold selector_field.
  revert data. induction items as [|[f sel] items IH]; intros data;
    cbn [HtmlParser.extract_selectors]; [by intros [= <-]|].
  destruct (String.eqb f "title" || String.eqb f "meta_description") eqn:Hp.
  - intros Hes Hk. apply (IH _ Hes).
    destruct Hk as [Hk|Hk]; [|by right]. left. cbn in Hk.
    by apply not_elem_of_cons in Hk as [_ Hk].
  - destruct (_extract_by_selector html sel) as [texts|e]; [|done].
    intros Hes Hk. rewrite (IH _ Hes).
    + apply dict_get_set_ne. apply orb_false_iff in Hp as [H1 H2].
      apply String.eqb_neq in H1, H2.
      destruct Hk as [Hk|Hk].
      * cbn in Hk. by apply not_elem_of_cons in Hk as [Hk _].
      * intros ->. by apply Hk.
    + destruct Hk as [Hk|Hk]; [|by right]. left. cbn in Hk.
      by apply not_elem_of_cons in Hk as [_ Hk].
Qed.

Lemma extract_selectors_field (html : string) (items : list (string * pyval))
    (data data' : PageRecord) (k : string) (selector : pyval) :
  HtmlParser.extract_selectors html items data = Ok data' →
  NoDup items.*1 →
  (k, selector) ∈ items →
  selector_field k →
  ∃ texts, _extract_by_selector html selector = Ok texts ∧
           dict_get k data' = Some (VList (VStr <$> texts)).
Proof.
  intros Hes Hnd Hin [Hk1 Hk2]. revert data Hes.
  induction items as [|[f sel] items IH]; intros data;
    [by apply elem_of_nil in Hin|].
  cbn in Hnd. apply NoDup_cons in Hnd as [Hf Hnd].
  cbn [HtmlParser.extract_selectors].
  apply elem_of_cons in Hin as [[= <- <-]|Hin].
  - apply String.eqb_neq in Hk1, Hk2. rewrite Hk1, Hk2. cbn [orb].
    destruct (_extract_by_selector html selector) as [texts|e]; [|done].
    intros Hes. exists texts. split; [done|].
    rewrite (extract_selectors_other _ _ _ _ k Hes) by (by left).
    apply dict_get_set_eq.
  - destruct (_ || _); [by apply IH|].
    destruct (_extract_by_selector html sel); [|done]. by apply IH.
Qed.

Lemma extract_selectors_nodup (html : string) (items : list (string * pyval))
    (data data' : PageRecord) :
  HtmlParser.extract_selectors html items data = Ok data' →
  NoDup data.*1 → NoDup data'.*1.
Proof.
  revert data. induction items as [|[f sel] items IH]; intros data;
    cbn [HtmlParser.extract_selectors]; [by intros [= <-]|].
  destruct (_ || _); [by apply IH|].
  destruct (_extract_by_selector html sel); [|done].
  intros Hes Hnd. apply (IH _ Hes). by apply dict_set_keys_nodup.
Qed.

(** In a record of [parse] the links and the images are lists. *)
Lemma parse_links_and_images (selectors : pyval) (html url : string) (w : World)
    (data : PageRecord) :
  HtmlParser.parse selectors html url w = Ok data →
  ∃ links images,
    dict_get "links" data = Some (VList links) ∧
    dict_get "images" data = Some (VList images).
Proof.
  unfold HtmlParser.parse.
  destruct (_extract_title selectors html) as [title|e]; [|done].
  destruct (_extract_meta_description html) as [meta|e]; [|done].
  destruct selectors as [| | | | | |items]; try done.
  destruct (HtmlParser.extract_selectors html items _) as [data1|e]; [|done].
  destruct (HtmlParser.extract_links html url) as [links|e]; [|done].
  destruct (HtmlParser.extract_images html url) as [images|e]; [|done].
  destruct (_extract_text html) as [text|e]; [|done].
  intros [= <-]. exists (VStr <$> links), (VStr <$> images). split.
  - rewrite !dict_get_set_ne by done. apply dict_get_set_eq.
  - rewrite !dict_get_set_ne by done. apply dict_get_set_eq.
Qed.

(** X20. The record [parse] returns.  The fields [links], [images] and
    [text_content] always hold what [extract_links], [extract_images] and
    [_extract_text] give, also when the selectors name such a field (the
    default selector [links] is of no effect), and [title] and
    [meta_description] are never taken from the selectors.  Every other
    selector field holds the texts of its selector; this includes [url]
    and [timestamp]: a selector with one of these names replaces the
    address or the time of the page in the record.  No key occurs twice. *)
Theorem parse_builtin_fields_win (selectors : pyval) (html url : string)
    (w : World) (data : PageRecord) :
  HtmlParser.parse selectors html url w = Ok data →
  ∃ items title meta_description links images text,
    selectors = VDict items ∧
    _extract_title selectors html = Ok title ∧
    _extract_meta_description html = Ok meta_description ∧
    HtmlParser.extract_links html url = Ok links ∧
    HtmlParser.extract_images html url = Ok images ∧
    _extract_text html = Ok text ∧
    dict_get "title" data = Some (VStr title) ∧
    dict_get "meta_description" data = Some (VStr meta_description) ∧
    dict_get "links" data = Some (VList (VStr <$> links)) ∧
    dict_get "images" data = Some (VList (VStr <$> images)) ∧
    dict_get "text_content" data = Some (VStr text) ∧
    NoDup data.*1 ∧
    ("url" ∉ items.*1 → dict_get "url" data = Some (VStr url)) ∧
    ("timestamp" ∉ items.*1 →
       dict_get "timestamp" data = Some (VStr (now_isoformat w))) ∧
    (NoDup items.*1 →
     ∀ k selector, (k, selector) ∈ items →
       k ∉ ["title"; "meta_description"; "links"; "images"; "text_content"] →
       ∃ texts, _extract_by_selector html selector = Ok texts ∧
                dict_get k data = Some (VList (VStr <$> texts))).
Proof.
  unfold HtmlParser.parse.
  destruct (_extract_title selectors html) as [title|e]; [|done].
  destruct (_extract_meta_description html) as [meta|e]; [|done].
  destruct selectors as [| | | | | |items]; try done.
  destruct (HtmlParser.extract_selectors html items _) as [data1|e] eqn:Hes; [|done].
  destruct (HtmlParser.extract_links html url) as [links|e]; [|done].
  destruct (HtmlParser.extract_images html url) as [images|e]; [|done].
  destruct (_extract_text html) as [text|e]; [|done].
  intros [= <-]. exists items, title, meta, links, images, text.
  assert (Hprot : ∀ k, ¬ selector_field k → dict_get k data1 =
            dict_get k [("url", VStr url); ("timestamp", VStr (now_isoformat w));
                        ("title", VStr title); ("meta_description", VStr meta)]).
  { intros k Hk. apply (extract_selectors_other _ _ _ _ k Hes). by right. }
  split_and!; try done.
  - rewrite !dict_get_set_ne by done. rewrite Hprot; [done|]. by intros [? _].
  - rewrite !dict_get_set_ne by done. rewrite Hprot; [done|]. by intros [_ ?].
  - rewrite !dict_get_set_ne by done. apply dict_get_set_eq.
  - rewrite !dict_get_set_ne by done. apply dict_get_set_eq.
  - apply dict_get_set_eq.
  - do 3 apply dict_set_keys_nodup. apply (extract_selectors_nodup _ _ _ _ Hes).
    cbn. repeat (apply NoDup_cons; split; [set_solver|]). constructor.
  - intros Hk. rewrite !dict_get_set_ne by done.
    by rewrite (extract_selectors_other _ _ _ _ "url" Hes) by (by left).
  - intros Hk. rewrite !dict_get_set_ne by done.
    by rewrite (extract_selectors_other _ _ _ _ "timestamp" Hes) by (by left).
  - intros Hnd k selector Hin Hk.
    assert (Hne : k ≠ "title" ∧ k ≠ "meta_description" ∧ k ≠ "links" ∧
                  k ≠ "images" ∧ k ≠ "text_content").
    { split_and!; intros ->; apply Hk; set_solver. }
    destruct Hne as (H1 & H2 & H3 & H4 & H5).
    destruct (extract_selectors_field _ _ _ _ k selector Hes Hnd Hin (conj H1 H2))
      as (texts & Ht & Hg).
    exists texts. split; [done|]. by rewrite !dict_get_set_ne.
Qed.

End ParserRecords.

(** ** storage.py *)

Section StringOrder.

Lemma ascii_compare_refl (a : ascii) : Ascii.compare a a = Eq.
Proof. unfold Ascii.compare. apply N.compare_refl. Qed.

Lemma str_le_trans (a b c : string) : str_le a b → str_le b c → str_le a c.
Proof.
  unfold str_le, String.leb. revert b c.
  induction a as [|x a IH]; intros [|y b] [|z c]; cbn [String.compare]; try done.
  destruct (Ascii.compare x y) eqn:Hxy; [| |done];
    destruct (Ascii.compare y z) eqn:Hyz; try done.
  - apply Ascii.compare_eq_iff in Hxy as ->. apply Ascii.compare_eq_iff in Hyz as ->.
    rewrite ascii_compare_refl. apply IH.
  - apply Ascii.compare_eq_iff in Hxy as ->. by rewrite Hyz.
  - apply Ascii.compare_eq_iff in Hyz as ->. by rewrite Hxy.
  - unfold Ascii.compare in *. apply N.compare_lt_iff in Hxy, Hyz.
    assert ((N_of_ascii x ?= N_of_ascii z)%N = Lt) as ->; [|done].
    apply N.compare_lt_iff. by etrans.
Qed.

#[local] Instance str_le_transitive : Transitive str_le.
Proof. intros a b c. apply str_le_trans. Qed.

#[local] Instance str_le_total : Total str_le.
Proof. intros a b. apply String.leb_total. Qed.

#[local] Instance str_le_antisymm : AntiSymm (=) str_le.
Proof. intros a b. apply String.leb_antisym. Qed.

(** [sorted] gives the same list for every order of a collection. *)
Lemma sorted_of_permutation (l1 l2 : list string) :
  l1 ≡ₚ l2 → merge_sort str_le l1 = merge_sort str_le l2.
Proof.
  intros Hp. apply (Sorted_unique str_le); try apply Sorted_merge_sort; try apply _.
  by rewrite !merge_sort_Permutation.
Qed.

End StringOrder.

Section StorageProperties.
Context `{D : Disk}.







End StorageProperties.

Section StorageFiles.
Context `{D : Disk}.
Import Main.

Lemma overridden_output_format (fs : Config.FileSystem) (cl : CommandLine) :
  overridden fs (parse_arguments cl) !! "output_format" =
    Some (VStr (match cl_output cl with
                | Some f => format_name f
                | None => "json"
                end)).
Proof.
  unfold overridden. cbn zeta.
  repeat first [rewrite override_lookup_ne by done | rewrite override_lookup_eq].
  cbn [parse_arguments args_output]. by destruct (cl_output cl) as [[]|].
Qed.

(** X22. The header [save_csv] gives to [csv.DictWriter] is sorted, holds
    no name twice and holds exactly the keys of the flattened rows, so
    that no row has a key outside the header; it does not depend on the
    order in which the set of the keys is listed.  With data, [save_csv]
    always reaches the writer: the rows are as many as the records, and
    the path is returned exactly when the writer raised nothing. *)
Theorem csv_header_is_the_sorted_union_of_keys (data : list PageRecord) :
  let rows := Storage._flatten_data data in
  let header := Storage.fieldnames rows in
  Sorted str_le header ∧
  NoDup header ∧
  (∀ k, k ∈ header ↔ ∃ row, row ∈ rows ∧ k ∈ row.*1) ∧
  (∀ keys, keys ≡ₚ remove_dups (mjoin ((fun row => row.*1) <$> rows)) →
     merge_sort str_le keys = header) ∧
  (∀ filename fs, data ≠ [] →
     let filepath :=
       output_path (py_str filename ++ "_" ++ strftime_now fs ++ ".csv")%string in
     Storage.save_csv data filename fs =
       (match (write_csv filepath header rows fs).1 with
        | None => filepath
        | Some _ => ""
        end,
        (write_csv filepath header rows fs).2)).
Proof.
  cbn zeta. unfold Storage.fieldnames.
  set (rows := Storage._flatten_data data).
  set (keys := remove_dups (mjoin ((fun row => row.*1) <$> rows))).
  split_and!.
  - apply Sorted_merge_sort. intros a b. apply String.leb_total.
  - rewrite merge_sort_Permutation. apply NoDup_remove_dups.
  - intros k. rewrite merge_sort_Permutation. unfold keys.
    rewrite elem_of_remove_dups, list_elem_of_join. split.
    + intros (l & Hk & Hl). apply list_elem_of_fmap in Hl as (row & -> & Hrow).
      by exists row.
    + intros (row & Hrow & Hk). exists (row.*1). split; [done|].
      apply list_elem_of_fmap. by exists row.
  - intros keys' Hp. by apply sorted_of_permutation.
  - intros filename fs Hne. unfold Storage.save_csv. cbn zeta. fold rows.
    assert (Hrows : rows ≠ []).
    { subst rows. unfold Storage._flatten_data. by destruct data. }
    destruct rows as [|row rows'] eqn:Hr; [done|].
    unfold Storage.fieldnames. subst keys.
    by destruct (write_csv _ _ _ _) as [[e|] fs'].
Qed.

(** X23. [save] by format.  Without data nothing is written and the
    empty string is returned.  The format is the argument or, when that
    is [None] or empty, the [output_format] of the configuration ([json]
    when absent).  [json] and [csv] write one file; [both] writes the JSON
    file and then the CSV file, also when the first failed, and returns
    the two results joined by a comma and a space, a failed one as the
    empty string.  Any other format ([xml], [JSON], a number) writes
    nothing and returns the empty string.  [main] passes the format of
    the command line, which is [json], [csv] or [both], so the
    [output_format] of a configuration file never decides. *)
Theorem save_writes_by_format (c : gmap string pyval) (data : list PageRecord)
    (format : pyval) (fs : Files) :
  let f := py_or format (Config.get "output_format" (VStr "json") c) in
  let base := Config.get "output_file" (VStr "scraped_data") c in
  (data = [] → Storage.save c data format fs = ("", fs)) ∧
  (data ≠ [] → f = VStr "json" →
     Storage.save c data format fs = Storage.save_json data base fs) ∧
  (data ≠ [] → f = VStr "csv" →
     Storage.save c data format fs = Storage.save_csv data base fs) ∧
  (data ≠ [] → f = VStr "both" →
     Storage.save c data format fs =
       let j := Storage.save_json data base fs in
       let s := Storage.save_csv data base j.2 in
       ((j.1 ++ ", " ++ s.1)%string, s.2)) ∧
  (f ≠ VStr "json" → f ≠ VStr "csv" → f ≠ VStr "both" →
     Storage.save c data format fs = ("", fs)) ∧
  (∀ fsys cl, configure fsys (parse_arguments cl) = Ok c →
     format = Config.get "output_format" VNone c →
     f = VStr (match cl_output cl with
               | Some o => format_name o
               | None => "json"
               end) ∧
     (f = VStr "json" ∨ f = VStr "csv" ∨ f = VStr "both")).
Proof.
  cbn zeta. split_and!.
  - by intros ->.
  - intros Hne Hf. unfold Storage.save. destruct data as [|item data]; [done|].
    cbn zeta. rewrite Hf. cbn [py_in_strs].
    rewrite bool_decide_eq_true_2 by set_solver.
    rewrite bool_decide_eq_false_2 by set_solver.
    by destruct (Storage.save_json _ _ _).
  - intros Hne Hf. unfold Storage.save. destruct data as [|item data]; [done|].
    cbn zeta. rewrite Hf. cbn [py_in_strs].
    rewrite bool_decide_eq_false_2 by set_solver.
    rewrite bool_decide_eq_true_2 by set_solver.
    by destruct (Storage.save_csv _ _ _).
  - intros Hne Hf. unfold Storage.save. destruct data as [|item data]; [done|].
    cbn zeta. rewrite Hf. cbn [py_in_strs].
    rewrite !bool_decide_eq_true_2 by set_solver.
    destruct (Storage.save_json _ _ _) as [j fs1]. cbn [fst snd].
    by destruct (Storage.save_csv _ _ _).
  - intros H1 H2 H3. unfold Storage.save. destruct data as [|item data]; [done|].
    cbn zeta.
    assert (Hno : ∀ l, l = ["json"; "both"] ∨ l = ["csv"; "both"] →
              py_in_strs (py_or format (Config.get "output_format" (VStr "json") c)) l
              = false).
    { intros l Hl. destruct (py_or _ _) as [| | | |s| |]; try done. cbn.
      apply bool_decide_eq_false_2. intros Hin.
      destruct Hl as [-> | ->]; set_solver. }
    rewrite !Hno by (by left + by right). done.
  - intros fsys cl Hc ->.
    assert (Hf : Config.get "output_format" VNone c =
                 VStr (match cl_output cl with
                       | Some o => format_name o
                       | None => "json"
                       end)).
    { unfold Config.get. rewrite (configure_lookup _ _ _ "output_format" ltac:(done) Hc).
      by rewrite overridden_output_format. }
    rewrite Hf. unfold py_or.
    assert (Ht : truthy (VStr (match cl_output cl with
                               | Some o => format_name o
                               | None => "json"
                               end)) = true) by (by destruct (cl_output cl) as [[]|]).
    rewrite Ht. split; [done|]. destruct (cl_output cl) as [[]|]; cbn; eauto.
Qed.

End StorageFiles.

Section StorageSummary.
Context `{B : Soup} `{D : Disk}.

Lemma total_len_app (key : string) (data1 data2 : list PageRecord) (n1 n2 : Z) :
  Storage.total_len key data1 = Ok n1 →
  Storage.total_len key data2 = Ok n2 →
  Storage.total_len key (data1 ++ data2) = Ok (n1 + n2).
Proof.
  revert n1. induction data1 as [|item data1 IH]; intros n1;
    cbn [app Storage.total_len].
  - by intros [= <-] ->.
  - destruct (py_len _) as [n|e]; [|done].
    destruct (Storage.total_len key data1) as [t|e]; [|done].
    intros [= <-] H2. rewrite (IH t eq_refl H2). f_equal. lia.
Qed.

Lemma total_len_lists (key : string) (data : list PageRecord) :
  (∀ item, item ∈ data → ∃ l, dict_get key item = Some (VList l)) →
  ∃ n, Storage.total_len key data = Ok n ∧ 0 ≤ n.
Proof.
  induction data as [|item data IH]; intros Hall; cbn [Storage.total_len].
  - exists 0. by split.
  - destruct (Hall item) as [l Hl]; [by left|]. rewrite Hl. cbn [default py_len].
    destruct IH as (n & -> & Hn); [intros i Hi; apply Hall; by right|].
    eexists. split; [reflexivity|]. lia.
Qed.

(** X24. [get_export_summary].  Without data the totals are zero and
    there is no list of pages.  With data, [total_pages] is the number of
    records and [total_links] and [total_images] add up, over the
    records, the length of their [links] and [images] values, an absent
    key counting as zero; the totals of two lists of records add.  A
    record whose [links] or [images] value has no length (a number,
    [None]) makes the call raise [TypeError].  On the records of [parse]
    the call returns. *)
Theorem export_summary_totals :
  Storage.get_export_summary [] =
    Ok {| total_pages := 0; total_links := 0; total_images := 0; pages := None |} ∧
  (∀ data s, data ≠ [] → Storage.get_export_summary data = Ok s →
     total_pages s = Z.of_nat (length data) ∧
     Storage.total_len "links" data = Ok (total_links s) ∧
     Storage.total_len "images" data = Ok (total_images s) ∧
     ∃ l, pages s = Some l ∧ length l = length data) ∧
  (∀ key data1 data2 n1 n2,
     Storage.total_len key data1 = Ok n1 →
     Storage.total_len key data2 = Ok n2 →
     Storage.total_len key (data1 ++ data2) = Ok (n1 + n2)) ∧
  (∀ key item,
     Storage.total_len key [item] =
       match dict_get key item with
       | None => Ok 0
       | Some (VList l) => Ok (Z.of_nat (length l))
       | Some (VDict d) => Ok (Z.of_nat (length d))
       | Some (VStr s) => Ok (Z.of_nat (str_len s))
       | Some _ => Err TypeError
       end) ∧
  (∀ data item z, item ∈ data → dict_get "links" item = Some (VInt z) →
     ∃ e, Storage.get_export_summary data = Err e) ∧
  (∀ data,
     (∀ item, item ∈ data →
        ∃ selectors html url w, HtmlParser.parse selectors html url w = Ok item) →
     ∃ s, Storage.get_export_summary data = Ok s).
Proof.
  split_and!.
  - done.
  - intros data s Hne. unfold Storage.get_export_summary.
    destruct data as [|item data]; [done|].
    destruct (Storage.total_len "links" _) as [links|e]; [|done].
    destruct (Storage.total_len "images" _) as [images|e]; [|done].
    intros [= <-]. cbn [total_pages total_links total_images pages].
    split_and!; try done. eexists. split; [reflexivity|].
    cbn [fmap list_fmap length]. f_equal. apply length_fmap.
  - apply total_len_app.
  - intros key item. cbn [Storage.total_len].
    destruct (dict_get key item) as [[| | | | | |]|]; cbn; try done;
      f_equal; lia.
  - intros data item z Hin Hl.
    assert (Herr : ∃ e, Storage.total_len "links" data = Err e).
    { induction data as [|i data IH]; [by apply elem_of_nil in Hin|].
      cbn [Storage.total_len]. apply elem_of_cons in Hin as [<-|Hin].
      - rewrite Hl. cbn. by eexists.
      - destruct (py_len _); [|by eexists].
        destruct (IH Hin) as [e ->]. by eexists. }
    destruct Herr as [e He]. unfold Storage.get_export_summary.
    destruct data as [|i data]; [by apply elem_of_nil in Hin|].
    rewrite He. by eexists.
  - intros data Hall. unfold Storage.get_export_summary.
    destruct data as [|i data]; [by eexists|].
    destruct (total_len_lists "links" (i :: data)) as (n & -> & _).
    { intros item Hin. destruct (Hall item Hin) as (sel & html & url & w & Hp).
      apply parse_links_and_images in Hp as (links & images & Hl & _).
      by eexists. }
    destruct (total_len_lists "images" (i :: data)) as (n' & -> & _).
    { intros item Hin. destruct (Hall item Hin) as (sel & html & url & w & Hp).
      apply parse_links_and_images in Hp as (links & images & _ & Hi).
      by eexists. }
    by eexists.
Qed.

End StorageSummary.

(** * Images and file names *)

Section Images.
Context `{B : Soup}.

Lemma join_all_spec (base_url : string) (srcs images : list string) :
  HtmlParser.join_all base_url srcs = Ok images →
  Forall2 (fun src u => urljoin base_url src = Ok u) srcs images.
Proof.
  revert images. induction srcs as [|src srcs IH]; intros images;
    cbn [HtmlParser.join_all].
  - intros [= <-]. constructor.
  - destruct (urljoin base_url src) as [u|e] eqn:Hu; [|done].
    destruct (HtmlParser.join_all base_url srcs) as [us|e]; [|done].
    intros [= <-]. constructor; [done|]. by apply IH.
Qed.

(** X25. [extract_images] returns the absolute form of every [src], in
    the order of the document and as often as it occurs: unlike
    [extract_links] it neither validates nor removes duplicates.  It
    raises when [urljoin] refuses one [src], and returns otherwise. *)
Theorem extract_images_keeps_every_source (html base_url : string) :
  (∀ images, HtmlParser.extract_images html base_url = Ok images →
     ∃ srcs, find_all_src html = Ok srcs ∧
             Forall2 (fun src u => urljoin base_url src = Ok u) srcs images ∧
             length images = length srcs) ∧
  (∀ srcs, find_all_src html = Ok srcs →
     (∀ src, src ∈ srcs → is_ok (urljoin base_url src) = true) →
     ∃ images, HtmlParser.extract_images html base_url = Ok images) ∧
  (∀ srcs src e, find_all_src html = Ok srcs → src ∈ srcs →
     urljoin base_url src = Err e →
     ∃ e', HtmlParser.extract_images html base_url = Err e').
Proof.
  unfold HtmlParser.extract_images. split_and!.
  - intros images. destruct (find_all_src html) as [srcs|e]; [|done].
    intros Hj. exists srcs. apply join_all_spec in Hj.
    split_and!; [done|done|]. symmetry. by eapply Forall2_length.
  - intros srcs -> Hall. induction srcs as [|src srcs IH];
      cbn [HtmlParser.join_all]; [by eexists|].
    specialize (Hall src ltac:(by left)) as Hs.
    destruct (urljoin base_url src); [|done].
    destruct IH as [images ->]; [intros s Hin; apply Hall; by right|].
    by eexists.
  - intros srcs src e -> Hin He. induction srcs as [|s srcs IH];
      [by apply elem_of_nil in Hin|].
    cbn [HtmlParser.join_all].
    destruct (decide (s = src)) as [->|Hne]; [rewrite He; by eexists|].
    apply elem_of_cons in Hin as [?|Hin]; [done|].
    destruct (urljoin base_url s); [|by eexists].
    destruct (IH Hin) as [e' ->]. by eexists.
Qed.

End Images.

Section FileNames.

Lemma substring_length (n : nat) (s : string) :
  (String.length (String.substring 0 n s) ≤ n)%nat.
Proof.
  revert s. induction n as [|n IH]; intros [|c s]; cbn; try lia.
  specialize (IH s). lia.
Qed.

Lemma substring_chars (n : nat) (s : string) (c : ascii) :
  c ∈ list_ascii_of_string (String.substring 0 n s) → c ∈ list_ascii_of_string s.
Proof.
  revert s. induction n as [|n IH]; intros [|x s]; cbn; try done.
  - intros Hin. by apply elem_of_nil in Hin.
  - intros Hin. apply elem_of_cons in Hin as [->|Hin]; [by left|].
    right. by apply IH.
Qed.

Lemma substring_all (n : nat) (s : string) :
  (String.length s ≤ n)%nat → String.substring 0 n s = s.
Proof.
  revert s. induction n as [|n IH]; intros [|c s]; cbn; try done; try lia.
  intros Hle. rewrite IH; [done|lia].
Qed.

Lemma word_is_no_separator (c : ascii) :
  Storage.is_word c = true → Storage.is_separator c = false.
Proof.
  unfold Storage.is_word, Storage.is_separator, Main.is_space.
  set (n := nat_of_ascii c). cbn zeta.
  rewrite !orb_true_iff, !andb_true_iff, !Nat.leb_le, Nat.eqb_eq.
  intros Hw.
  rewrite !orb_false_iff, !andb_false_iff, !Nat.eqb_neq, !Nat.leb_gt. lia.
Qed.

Lemma remove_unsafe_chars (text : string) (c : ascii) :
  c ∈ list_ascii_of_string (Storage.remove_unsafe text) →
  Storage.is_word c = true ∨ Storage.is_separator c = true.
Proof.
  induction text as [|x text IH]; cbn [Storage.remove_unsafe list_ascii_of_string].
  - intros Hin. by apply elem_of_nil in Hin.
  - destruct (Storage.is_word x || Storage.is_separator x) eqn:Hx; [|done].
    cbn [list_ascii_of_string]. intros Hin.
    apply elem_of_cons in Hin as [->|Hin]; [|by apply IH].
    by apply orb_true_iff in Hx.
Qed.

Lemma collapse_chars (in_run : bool) (safe : string) (c : ascii) :
  (∀ x, x ∈ list_ascii_of_string safe →
        Storage.is_word x = true ∨ Storage.is_separator x = true) →
  c ∈ list_ascii_of_string (Storage.collapse_separators in_run safe) →
  Storage.is_word c = true.
Proof.
  revert in_run. induction safe as [|x safe IH]; intros in_run Hall;
    cbn [Storage.collapse_separators list_ascii_of_string].
  - intros Hin. by apply elem_of_nil in Hin.
  - assert (Hall' : ∀ y, y ∈ list_ascii_of_string safe →
              Storage.is_word y = true ∨ Storage.is_separator y = true).
    { intros y Hy. apply Hall. cbn. by right. }
    destruct (Storage.is_separator x) eqn:Hx.
    + destruct in_run; [by apply IH|].
      cbn [list_ascii_of_string]. intros Hin.
      apply elem_of_cons in Hin as [->|Hin]; [done|by eapply IH].
    + cbn [list_ascii_of_string]. intros Hin.
      apply elem_of_cons in Hin as [->|Hin]; [|by eapply IH].
      destruct (Hall x) as [?|?]; [cbn; by left|done|congruence].
Qed.

Lemma plain_text_unchanged (text : string) :
  (∀ c, c ∈ list_ascii_of_string text → Storage.is_word c = true) →
  Storage.collapse_separators false (Storage.remove_unsafe text) = text.
Proof.
  induction text as [|x text IH]; intros Hall; [done|].
  cbn [Storage.remove_unsafe].
  assert (Hx : Storage.is_word x = true) by (apply Hall; cbn; by left).
  rewrite Hx. cbn [orb Storage.collapse_separators].
  rewrite (word_is_no_separator _ Hx). rewrite IH; [done|].
  intros c Hc. apply Hall. cbn. by right.
Qed.

(** X26. [_sanitize_filename] on a text of ASCII characters gives at
    most 50 characters, each a letter, a digit or an underscore: no path
    separator, no dot, no space and no hyphen is left.  A text of at most
    50 such characters is returned as it is, so sanitizing twice changes
    nothing. *)
Theorem sanitized_filename_is_short_and_plain (text : string) :
  ascii_only text →
  (String.length (Storage._sanitize_filename text) ≤ 50)%nat ∧
  (∀ c, c ∈ list_ascii_of_string (Storage._sanitize_filename text) →
        Storage.is_word c = true) ∧
  ((∀ c, c ∈ list_ascii_of_string text → Storage.is_word c = true) →
   (String.length text ≤ 50)%nat →
   Storage._sanitize_filename text = text) ∧
  Storage._sanitize_filename (Storage._sanitize_filename text)
    = Storage._sanitize_filename text.
Proof.
  intros _.
  assert (Hlen : ∀ t, (String.length (Storage._sanitize_filename t) ≤ 50)%nat).
  { intros t. apply substring_length. }
  assert (Hchars : ∀ t c, c ∈ list_ascii_of_string (Storage._sanitize_filename t) →
                          Storage.is_word c = true).
  { intros t c Hin. apply substring_chars in Hin.
    apply (collapse_chars false (Storage.remove_unsafe t)); [|done].
    intros x. apply remove_unsafe_chars. }
  assert (Hplain : ∀ t, (∀ c, c ∈ list_ascii_of_string t → Storage.is_word c = true) →
                        (String.length t ≤ 50)%nat →
                        Storage._sanitize_filename t = t).
  { intros t Hall Hle. unfold Storage._sanitize_filename.
    rewrite plain_text_unchanged by done. by apply substring_all. }
  split_and!; [apply Hlen|apply Hchars|apply Hplain|].
  apply Hplain; [apply Hchars|apply Hlen].
Qed.

End FileNames.


(** ** The records of a crawl *)

Section CrawlRecords.
Context `{P : Parser}.




End CrawlRecords.


(** * The further properties on the lab *)

Section BenchRuns.
Import Lab Bench.


Lemma parse_ok (site : string → get_result) (selectors : pyval) (html url : string)
    (w : nat) :
  is_ok (@HtmlParser.parse (runtime site) (soup site) selectors html url w) = true →
  @HtmlParser.parse (runtime site) (soup site) selectors html url w
    = Ok (match @HtmlParser.parse (runtime site) (soup site) selectors html url w with
          | Ok data => data
          | Err _ => []
          end).
Proof. by destruct (HtmlParser.parse _ _ _ _). Qed.

(** X1 on the crawl of [site_test]. *)
Lemma crawl_visited_is_start_plus_fetched_witness :
  final run_test = Some (ending run_test) ∧
  visited_urls (self (ending run_test))
    = visited_urls scraper_test ∪ list_to_set (fetched (trace (ending run_test))).
Proof.
  assert (Hfin : final run_test = Some (ending run_test))
    by (apply ending_final; vm_compute; reflexivity).
  split; [exact Hfin|].
  exact (proj1 (@crawl_visited_is_start_plus_fetched (runtime site_test)
                  (parser site_test) scraper_test 0%nat 20%nat "https://site.test/"
                  (VInt 3) (ending run_test) Hfin)).
Defined.

(** X2 on the crawl of [site_test] under a budget of three pages. *)
Lemma crawl_requests_within_budget_witness :
  @WebScraper_init (runtime site_test) (config_with settings_test) = Ok scraper_test ∧
  effective_budget (VInt 3) (config scraper_test) = VInt 3 ∧
  final run_test = Some (ending run_test) ∧
  Z.of_nat (length (fetched (trace (ending run_test)))) ≤ Z.max 0 3.
Proof.
  assert (Hinit : @WebScraper_init (runtime site_test) (config_with settings_test)
                  = Ok scraper_test)
    by (apply scraper_with_init; vm_compute; reflexivity).
  assert (Hfin : final run_test = Some (ending run_test))
    by (apply ending_final; vm_compute; reflexivity).
  split_and!; [exact Hinit|reflexivity|exact Hfin|].
  exact (proj1 (proj1 (@crawl_requests_within_budget (runtime site_test)
                         (parser site_test) (config_with settings_test) scraper_test
                         0%nat 20%nat "https://site.test/" (VInt 3) 3 Hinit eq_refl)
                 (ending run_test) Hfin)).
Defined.

(** X4 at a scraper whose [allowed_domains] is [[5]]. *)
Lemma crawl_propagates_filter_exception_witness :
  py_int_lt (visited_count machine_bad_filter)
    (effective_budget VNone (config (self machine_bad_filter))) = Ok true ∧
  ("https://site.test/" ∉ visited_urls (self machine_bad_filter)) ∧
  @domain_allowed (runtime site_test) (config (self machine_bad_filter))
    "https://site.test/" = Err TypeError ∧
  @crawl (runtime site_test) (parser site_test) 1 "https://site.test/" VNone
    machine_bad_filter
  = Raise TypeError
      (with_events [EvDomainFilter "https://site.test/"]
         (with_queue [] machine_bad_filter)).
Proof.
  assert (Hlt : py_int_lt (visited_count machine_bad_filter)
                  (effective_budget VNone (config (self machine_bad_filter))) = Ok true)
    by (vm_compute; reflexivity).
  assert (Hv : "https://site.test/" ∉ visited_urls (self machine_bad_filter))
    by (apply (bool_decide_unpack _); vm_compute; exact I).
  assert (Ha : @domain_allowed (runtime site_test) (config (self machine_bad_filter))
                 "https://site.test/" = Err TypeError)
    by (vm_compute; reflexivity).
  split_and!; [exact Hlt|exact Hv|exact Ha|].
  exact (proj1 (@crawl_propagates_filter_exception (runtime site_test)
                  (parser site_test) machine_bad_filter "https://site.test/" VNone
                  0%nat TypeError Hlt Hv Ha)).
Defined.

(** X5 on the crawl of [site_test] without [follow_links]. *)
Lemma crawl_without_follow_links_witness :
  truthy (Config.get "follow_links" (VBool false) (config scraper_no_follow)) = false ∧
  final run_no_follow = Some (ending run_no_follow) ∧
  (fetched (trace (ending run_no_follow)) = [] ∨
   fetched (trace (ending run_no_follow)) = ["https://site.test/"]).
Proof.
  assert (Hf : truthy (Config.get "follow_links" (VBool false)
                         (config scraper_no_follow)) = false)
    by (vm_compute; reflexivity).
  assert (Hfin : final run_no_follow = Some (ending run_no_follow))
    by (apply ending_final; vm_compute; reflexivity).
  split_and!; [exact Hf|exact Hfin|].
  exact (proj1 (proj1 (@crawl_without_follow_links (runtime site_test)
                         (parser site_test) scraper_no_follow 0%nat 20%nat
                         "https://site.test/" VNone Hf)
                 (ending run_no_follow) Hfin)).
Defined.

(** X7 at the empty page of [site_blank]. *)
Lemma empty_body_is_visited_not_parsed_witness :
  let o := @crawl_body (runtime site_blank) (parser site_blank) VNone [] machine_blank in
  site_blank "https://blank.test/" = Response 200 "" ∧
  final o = Some (ending o) ∧
  urls_to_visit (self (ending o)) = [] ∧
  parsed (trace (ending o)) = parsed (trace machine_blank).
Proof.
  cbn zeta.
  set (o := @crawl_body (runtime site_blank) (parser site_blank) VNone [] machine_blank).
  assert (Hfin : final o = Some (ending o))
    by (apply ending_final; vm_compute; reflexivity).
  split_and!; [reflexivity|exact Hfin| |].
  - refine (proj1 (@empty_body_is_visited_not_parsed (runtime site_blank)
                     (parser site_blank) VNone [] machine_blank (ending o)
                     "https://blank.test/" [] eq_refl _ _ eq_refl Hfin)).
    + apply (bool_decide_unpack _). vm_compute. exact I.
    + vm_compute. reflexivity.
  - refine (proj1 (proj2 (proj2 (@empty_body_is_visited_not_parsed (runtime site_blank)
                     (parser site_blank) VNone [] machine_blank (ending o)
                     "https://blank.test/" [] eq_refl _ _ eq_refl Hfin)))).
    + apply (bool_decide_unpack _). vm_compute. exact I.
    + vm_compute. reflexivity.
Defined.

(** X11 at a configuration with a [User-Agent] among its headers. *)
Lemma get_headers_lets_config_headers_win_witness :
  Config.get "headers" (VDict []) config_headers = VDict headers_example ∧
  NoDup headers_example.*1 ∧
  config_headers !! "user_agent"
    = Some (VStr "Mozilla/5.0 (Windows NT 10.0; Win64; x64) AppleWebKit/537.36") ∧
  ∃ headers,
    @Config.get_headers (runtime site_test) config_headers = Ok headers ∧
    headers !! "User-Agent" = Some (VStr "bot/1.0") ∧
    headers !! "X-Token" = Some (VStr "t") ∧
    headers !! "Accept" =
      Some (VStr "text/html,application/xhtml+xml,application/xml;q=0.9,*/*;q=0.8") ∧
    headers !! "Accept-Language" = Some (VStr "en-US,en;q=0.5") ∧
    headers !! "Accept-Encoding" = Some (VStr "gzip, deflate") ∧
    headers !! "Connection" = Some (VStr "keep-alive") ∧
    headers !! "Host" = None.
Proof.
  assert (Hh : Config.get "headers" (VDict []) config_headers = VDict headers_example)
    by (vm_compute; reflexivity).
  assert (Hnd : NoDup headers_example.*1).
  { apply (bool_decide_unpack _). vm_compute. exact I. }
  assert (Hua : config_headers !! "user_agent"
                = Some (VStr "Mozilla/5.0 (Windows NT 10.0; Win64; x64) AppleWebKit/537.36"))
    by (vm_compute; reflexivity).
  split_and!; [exact Hh|exact Hnd|exact Hua|].
  destruct (proj2 (@get_headers_lets_config_headers_win (runtime site_test)
                     config_headers _ headers_example Hh Hnd) Hua)
    as (headers & Hget & Hin & _ & Ha & Hl & He & Hc & Hno).
  exists headers. split_and!; [exact Hget| | | | | | |].
  - apply Hin. apply list_elem_of_here.
  - apply Hin. apply list_elem_of_further, list_elem_of_here.
  - apply Ha. apply (bool_decide_unpack _). vm_compute. exact I.
  - apply Hl. apply (bool_decide_unpack _). vm_compute. exact I.
  - apply He. apply (bool_decide_unpack _). vm_compute. exact I.
  - apply Hc. apply (bool_decide_unpack _). vm_compute. exact I.
  - apply Hno; apply (bool_decide_unpack _); vm_compute; exact I.
Defined.

(** X12 at [--allowed-domains "example.com,"]. *)
Lemma trailing_comma_disables_domain_filter_witness :
  let args := Main.parse_arguments cl_trailing_comma in
  Main.cl_allowed_domains cl_trailing_comma = Some ("example.com" ++ ",")%string ∧
  Main.configure no_files args = Ok (Main.configured no_files args) ∧
  @netloc (runtime site_example) "https://other.org/" = Ok "other.org" ∧
  @domain_allowed (runtime site_example) (Main.configured no_files args)
    "https://other.org/" = Ok true.
Proof.
  cbn zeta.
  set (args := Main.parse_arguments cl_trailing_comma).
  assert (Hc : Main.configure no_files args = Ok (Main.configured no_files args))
    by (apply configured_ok; vm_compute; reflexivity).
  assert (Hn : @netloc (runtime site_example) "https://other.org/" = Ok "other.org")
    by (vm_compute; reflexivity).
  split_and!; [reflexivity|exact Hc|exact Hn|].
  exact (proj2 (@trailing_comma_disables_domain_filter (runtime site_example)
                  no_files cl_trailing_comma "example.com"
                  (Main.configured no_files args) eq_refl Hc)
           "https://other.org/" "other.org" Hn).
Defined.

(** X13 at [allowed_domains = "example.com"] and the network location
    [other.org]. *)
Lemma allowed_domains_string_matches_any_character_witness :
  ascii_only "example.com" ∧
  Config.get "allowed_domains" (VList []) config_string_domain = VStr "example.com" ∧
  @netloc (runtime site_example) "https://other.org/" = Ok "other.org" ∧
  @domain_allowed (runtime site_example) config_string_domain "https://other.org/"
    = Ok true.
Proof.
  assert (Hs : Config.get "allowed_domains" (VList []) config_string_domain
               = VStr "example.com") by (vm_compute; reflexivity).
  assert (Hn : @netloc (runtime site_example) "https://other.org/" = Ok "other.org")
    by (vm_compute; reflexivity).
  assert (Ha : ascii_only "example.com").
  { unfold ascii_only. apply Forall_forall. apply (bool_decide_unpack _).
    vm_compute. exact I. }
  split_and!; [exact Ha|exact Hs|exact Hn|].
  destruct (@allowed_domains_string_matches_any_character (runtime site_example)
              config_string_domain "https://other.org/"
              "other.org" "example.com" Ha Hs Hn) as (b & Hb & _ & _ & Htrue).
  rewrite (Htrue eq_refl eq_refl) in Hb. exact Hb.
Defined.

(** X14 at [--config my_config.json --max-pages 0 --delay 0]: the 50
    pages of the file stay. *)
Lemma zero_flags_are_not_overrides_witness :
  let args := Main.parse_arguments cl_zero in
  Main.configure Main.fs_example args = Ok (Main.configured Main.fs_example args) ∧
  Config.init Main.fs_example (Main.cl_config cl_zero) !! "max_pages" = Some (VInt 50) ∧
  Main.configured Main.fs_example args !! "max_pages" = Some (VInt 50).
Proof.
  cbn zeta.
  set (args := Main.parse_arguments cl_zero).
  assert (Hc : Main.configure Main.fs_example args
               = Ok (Main.configured Main.fs_example args))
    by (apply configured_ok; vm_compute; reflexivity).
  assert (Hfile : Config.init Main.fs_example (Main.cl_config cl_zero) !! "max_pages"
                  = Some (VInt 50)) by (vm_compute; reflexivity).
  split_and!; [exact Hc|exact Hfile|].
  rewrite <- Hfile.
  exact (proj1 (@zero_flags_are_not_overrides
                  Main.fs_example cl_zero (Main.configured Main.fs_example args) Hc)
           eq_refl).
Defined.

(** X15 at [python main.py -u https://example.com/], and at
    [python main.py --config one.json] with a file whose [follow_links]
    is [1]: both crawl. *)
Lemma main_crawls_unless_the_file_says_no_witness :
  let args := Main.parse_arguments cl_url_only in
  let args1 := Main.parse_arguments (Main.only_config "one.json") in
  let c1 := Main.configured fs_follow args1 in
  Main.configure no_files args = Ok (Main.configured no_files args) ∧
  Main.cl_config cl_url_only = None ∧
  Main.cl_crawl cl_url_only = false ∧
  Config.get "follow_links" VNone (Main.configured no_files args) = VBool true ∧
  Config.get "max_pages" VNone (Main.configured no_files args) = VInt 10 ∧
  Main.configure fs_follow args1 = Ok c1 ∧
  Config.get "follow_links" VNone c1 = VInt 1 ∧
  (∀ fuel target_url m, config (self m) = c1 →
     @main_scrape (runtime site_test) (parser site_test) fuel target_url m
       = crawl fuel target_url (VInt 10) m).
Proof.
  cbn zeta.
  set (args := Main.parse_arguments cl_url_only).
  set (args1 := Main.parse_arguments (Main.only_config "one.json")).
  set (c1 := Main.configured fs_follow args1).
  assert (Hc : Main.configure no_files args = Ok (Main.configured no_files args))
    by (apply configured_ok; vm_compute; reflexivity).
  assert (Hc1 : Main.configure fs_follow args1 = Ok c1)
    by (apply configured_ok; vm_compute; reflexivity).
  split_and!; [exact Hc|reflexivity|reflexivity| | |exact Hc1|vm_compute; reflexivity|].
  - exact (proj1 (proj1 (@main_crawls_unless_the_file_says_no (runtime site_test)
                           (parser site_test) no_files cl_url_only
                           (Main.configured no_files args) Hc)
                   (or_introl eq_refl))).
  - exact (proj1 (proj2 (@main_crawls_unless_the_file_says_no (runtime site_test)
                           (parser site_test) no_files cl_url_only
                           (Main.configured no_files args) Hc))
             eq_refl).
  - intros fuel target_url m Hm.
    rewrite (proj1 (proj2 (proj2 (proj2
               (@main_crawls_unless_the_file_says_no (runtime site_test)
                  (parser site_test) fs_follow (Main.only_config "one.json")
                  c1 Hc1))))
               fuel target_url m Hm).
    assert (Hmax : Config.get "max_pages" VNone c1 = VInt 10)
      by (vm_compute; reflexivity).
    rewrite Hmax. reflexivity.
Defined.

(** X15 at [python main.py --config off.json], a file whose
    [follow_links] is [false]: the loaded value is false and [--crawl] is
    absent, the case of the single page. *)
Example config_file_turns_crawling_off :
  let args := Main.parse_arguments (Main.only_config "off.json") in
  Main.configure fs_follow args = Ok (Main.configured fs_follow args) ∧
  Main.cl_crawl (Main.only_config "off.json") = false ∧
  truthy (Config.get "follow_links" VNone
            (Config.init fs_follow (Main.cl_config (Main.only_config "off.json"))))
    = false ∧
  Config.get "follow_links" VNone (Main.configured fs_follow args) = VBool false.
Proof.
  cbn zeta. split_and!; [|reflexivity|vm_compute; reflexivity|vm_compute; reflexivity].
  apply configured_ok. vm_compute. reflexivity.
Qed.

(** X16 at [python main.py --config missing.json], where no such file
    exists, and at [python main.py --config bad.json --selector h2],
    where the file holds ["selectors": null]. *)
Lemma main_accepts_a_missing_config_file_witness :
  Main.action (Main.parse_arguments (Main.only_config "missing.json")) = Main.Scrape ∧
  (∃ c, Main.configure fs_follow (Main.parse_arguments (Main.only_config "missing.json"))
          = Ok c ∧
        Config.get "target_url" VNone c = VStr "https://example.com" ∧
        Config.get "follow_links" VNone c = VBool true) ∧
  Main.action (Main.parse_arguments cl_bad_selectors) = Main.Scrape ∧
  Main.configure fs_follow (Main.parse_arguments cl_bad_selectors) = Err TypeError.
Proof.
  assert (Hmissing := proj1 (proj2 (@main_accepts_a_missing_config_file fs_follow
                                      (Main.only_config "missing.json")))
                        "missing.json" eq_refl eq_refl eq_refl
                        ltac:(discriminate) eq_refl).
  assert (Hbad := proj2 (proj2 (@main_accepts_a_missing_config_file fs_follow
                                  cl_bad_selectors))
                    "bad.json" (list_to_map [("selectors", VNone)]) VNone "h2"
                    eq_refl eq_refl ltac:(discriminate) eq_refl eq_refl
                    ltac:(discriminate) eq_refl ltac:(discriminate)).
  split_and!; [exact (proj1 Hmissing)|exact (proj2 Hmissing)
              |exact (proj1 Hbad)|exact (proj2 Hbad)].
Defined.


(** X19 on [page_bad], whose second link [urljoin] refuses. *)
Lemma bad_href_ends_the_crawl_witness :
  @find_all_href (runtime site_html) (soup site_html) page_bad
    = Ok ["https://site.test/a"; "http://["] ∧
  @urljoin (runtime site_html) (soup site_html) "https://site.test/" "http://["
    = Err (OtherException "ValueError") ∧
  ∃ e, @HtmlParser.extract_links (runtime site_html) (soup site_html) page_bad
         "https://site.test/" = Err e.
Proof.
  assert (Hh : @find_all_href (runtime site_html) (soup site_html) page_bad
               = Ok ["https://site.test/a"; "http://["]) by reflexivity.
  assert (Hj : @urljoin (runtime site_html) (soup site_html) "https://site.test/"
                 "http://[" = Err (OtherException "ValueError")) by reflexivity.
  split_and!; [exact Hh|exact Hj|].
  refine (proj1 (proj1 (@bad_href_ends_the_crawl (runtime site_html) (soup site_html)
                          page_bad "https://site.test/" _ Hh)
                  "http://[" (OtherException "ValueError") _ _ Hj)).
  - apply list_elem_of_further. apply list_elem_of_here.
  - split; reflexivity.
Defined.


(** X20 on [page_links] under selectors that name [url] and [links]:
    the record has the links of [extract_links], and the texts of the
    selector in place of the address. *)
Lemma parse_builtin_fields_win_witness :
  @HtmlParser.parse (runtime site_html) (soup site_html) selectors_example page_links
    "https://site.test/" 0%nat = Ok record_example ∧
  dict_get "links" record_example = Some (VList [VStr "https://site.test/a"]) ∧
  dict_get "url" record_example = Some (VList [VStr "text"]) ∧
  NoDup record_example.*1.
Proof.
  assert (Hp : @HtmlParser.parse (runtime site_html) (soup site_html) selectors_example
                 page_links "https://site.test/" 0%nat = Ok record_example)
    by (apply parse_ok; vm_compute; reflexivity).
  split_and!; [exact Hp|vm_compute; reflexivity|vm_compute; reflexivity|].
  destruct (@parse_builtin_fields_win (runtime site_html) (soup site_html)
              selectors_example page_links "https://site.test/" 0%nat record_example Hp)
    as (items & title & meta & links & images & text & _ & _ & _ & _ & _ & _ & _ & _
        & _ & _ & _ & Hnd & _).
  exact Hnd.
Defined.

(** X26 at the address of a page. *)
Lemma sanitized_filename_is_short_and_plain_witness :
  ascii_only "https://example.com/a-b c?d=1" ∧
  Storage._sanitize_filename "https://example.com/a-b c?d=1" = "httpsexamplecoma_b_cd1" ∧
  (String.length (Storage._sanitize_filename "https://example.com/a-b c?d=1") ≤ 50)%nat.
Proof.
  assert (Ha : ascii_only "https://example.com/a-b c?d=1").
  { unfold ascii_only. apply Forall_forall. apply (bool_decide_unpack _).
    vm_compute. exact I. }
  split_and!; [exact Ha|vm_compute; reflexivity|].
  exact (proj1 (sanitized_filename_is_short_and_plain
                  "https://example.com/a-b c?d=1" Ha)).
Defined.



End BenchRuns.
